(** * MCP protocol handler and transports: a shallow embedding

    The development follows the Python sources of the MCP server:

    - [Messages]  : src/protocol/messages.py  (pydantic message models)
    - [Handler]   : src/protocol/handler.py   (ProtocolHandler)
    - [Transport] : src/transport/base.py     (Transport base class)
    - [Http]      : src/transport/http.py     (HttpTransport)
    - [Stdio]     : src/transport/stdio.py    (StdioTransport.receive_messages)
    - [WebSocket] : src/transport/websocket.py (WebSocketTransport)

    Decoded JSON is an inductive type, Python dicts are [gmap string _],
    coroutines are state-passing functions that either return or raise,
    and [asyncio.Future] objects live in a heap indexed by addresses, so
    that the correlation table and a suspended caller share one future. *)

From stdpp Require Import gmap strings list fin_maps pretty.

Set Default Proof Using "Type".

(** ** Decoded JSON values

    Numbers are integers; booleans and non-integral numbers are not part
    of the embedding.  Python's [None] is [JNull]. *)

#[warnings="-register-all"] Inductive json :=
  | JNull
  | JInt (z : Z)
  | JStr (s : string)
  | JList (l : list json)
  | JObj (m : gmap string json).

Abbreviation dict := (gmap string json).

(** [d.get(k)]: the value, or [None] when the key is absent. *)
Definition py_get (d : dict) (k : string) : json := default JNull (d !! k).

(** [k in d]. *)
Definition py_in (k : string) (d : dict) : bool := bool_decide (is_Some (d !! k)).

(** [v == s] for a string literal [s]. *)
Definition json_is_str (v : json) (s : string) : bool :=
  match v with JStr s' => bool_decide (s' = s) | _ => false end.

(** Truth value of a decoded JSON value ([if v:]). *)
Definition py_truthy (v : json) : bool :=
  match v with
  | JNull => false
  | JInt z => negb (bool_decide (z = 0%Z))
  | JStr s => negb (bool_decide (s = ""))
  | JList l => negb (bool_decide (l = []))
  | JObj m => negb (bool_decide (m = ∅))
  end.

(** ** Exceptions

    Every constructor is a subclass of Python's [Exception].  pydantic's
    [ValidationError] keeps the model name and the rejected input; it is a
    subclass of [ValueError], which matters only for the order of
    [except] clauses.  [CancelledError] alone is not an [Exception] (it
    derives from [BaseException]), so [except Exception] lets it pass. *)

Inductive exn :=
  | ValueError (msg : string)
  | ValidationError (model : string) (input : json)
  | MessageError (msg : string)
  | ConnectionError (msg : string)
  | AttributeError (msg : string)
  | TypeError (msg : string)
  | InvalidStateError (msg : string)
  | HTTPError (msg : string)
  | TimeoutError
  | CancelledError
  | OtherError (cls msg : string).

Definition is_Exception (e : exn) : bool :=
  match e with CancelledError => false | _ => true end.

Definition is_ValidationError (e : exn) : bool :=
  match e with ValidationError _ _ => true | _ => false end.

Inductive res (A : Type) :=
  | Ok (a : A)
  | Raise (e : exn).
Arguments Ok {A} a.
Arguments Raise {A} e.

Definition res_bind {A B} (r : res A) (k : A → res B) : res B :=
  match r with Ok a => k a | Raise e => Raise e end.

(** ** Behaviour of the runtime that is not in the repository

    The Python interpreter and pydantic decide these; the handler only
    passes their results on. *)

Class PyRuntime := {
  (** [str(v)] of a decoded JSON value, as used by f-strings *)
  py_str : json → string;
  (** pydantic's lax conversion of a string to an [int] field *)
  lax_int : string → option Z;
  (** what the caller of a model constructor observes when
      [model_post_init] raises [ValueError(msg)] on [input] *)
  post_init_error : string → json → exn;
  (** [str(e)] and [e.errors()] of a [ValidationError] *)
  validation_text : string → json → string;
  validation_errors : string → json → json;
  (** the type of [float] durations and their f-string rendering *)
  duration : Type;
  duration_str : duration → string;
  (** the caller sees the [ValueError] itself or a [ValidationError],
      which is a [ValueError] too *)
  post_init_error_class : ∀ msg input,
    post_init_error msg input = ValueError msg ∨
    is_ValidationError (post_init_error msg input) = true;
}.

(** [str(e)] *)
Definition exn_str `{PyRuntime} (e : exn) : string :=
  match e with
  | ValueError m | MessageError m | ConnectionError m | AttributeError m
  | TypeError m | InvalidStateError m | HTTPError m | OtherError _ m => m
  | TimeoutError | CancelledError => ""
  | ValidationError model input => validation_text model input
  end.

(** ** Futures

    An [asyncio.Future]: pending until a result or an exception is set,
    or until it is cancelled. *)

Inductive future (A : Type) :=
  | Pending
  | Resolved (v : A)
  | Failed (e : exn)
  | Cancelled.
Arguments Pending {A}.
Arguments Resolved {A} v.
Arguments Failed {A} e.
Arguments Cancelled {A}.

(** [future.done()] *)
Definition done {A} (f : future A) : bool :=
  match f with Pending => false | _ => true end.

(** * messages.py *)

Module Messages.

(** [class ErrorCode(IntEnum)] *)
Definition PARSE_ERROR : Z := (-32700)%Z.
Definition INVALID_REQUEST : Z := (-32600)%Z.
Definition METHOD_NOT_FOUND : Z := (-32601)%Z.
Definition INVALID_PARAMS : Z := (-32602)%Z.
Definition INTERNAL_ERROR : Z := (-32603)%Z.
Definition SERVER_ERROR_START : Z := (-32099)%Z.
Definition SERVER_ERROR_END : Z := (-32000)%Z.
Definition TOOL_ERROR : Z := (-32001)%Z.
Definition RESOURCE_ERROR : Z := (-32002)%Z.
Definition TIMEOUT_ERROR : Z := (-32003)%Z.

(** [Union[str, int]] *)
Inductive rpc_id :=
  | IdStr (s : string)
  | IdInt (n : Z).

Definition id_json (i : rpc_id) : json :=
  match i with IdStr s => JStr s | IdInt n => JInt n end.

(** [str(i)]: a string is itself, an integer is its decimal numeral. *)
Definition id_str (i : rpc_id) : string :=
  match i with IdStr s => s | IdInt n => pretty n end.

Record MCPError := {
  code : Z;
  message : string;
  data : option dict;
}.

Record MCPRequest := {
  req_id : rpc_id;
  req_method : string;
  req_params : option dict;
}.

Record MCPResponse := {
  resp_id : rpc_id;
  result : option dict;
  error : option MCPError;
}.

Record MCPNotification := {
  ntf_method : string;
  ntf_params : option dict;
}.

Section Validation.
Context `{PyRuntime}.

(** Field validators.  [model] and [input] only label the error. *)
Definition validate_id (model : string) (input v : json) : res rpc_id :=
  match v with
  | JStr s => Ok (IdStr s)
  | JInt n => Ok (IdInt n)
  | _ => Raise (ValidationError model input)
  end.

Definition validate_str (model : string) (input v : json) : res string :=
  match v with
  | JStr s => Ok s
  | _ => Raise (ValidationError model input)
  end.

Definition validate_int (model : string) (input v : json) : res Z :=
  match v with
  | JInt n => Ok n
  | JStr s =>
      match lax_int s with
      | Some n => Ok n
      | None => Raise (ValidationError model input)
      end
  | _ => Raise (ValidationError model input)
  end.

(** [Optional[Dict[str, Any]] = None] *)
Definition validate_opt_dict (model : string) (input v : json)
  : res (option dict) :=
  match v with
  | JNull => Ok None
  | JObj m => Ok (Some m)
  | _ => Raise (ValidationError model input)
  end.

(** [jsonrpc: str = Field(default="2.0", pattern=r"^2\.0$")] *)
Definition validate_jsonrpc (model : string) (input : json) (d : dict)
  : res unit :=
  match d !! "jsonrpc" with
  | None => Ok tt
  | Some v => if json_is_str v "2.0" then Ok tt
              else Raise (ValidationError model input)
  end.

Definition MCPError_model_validate (v : json) : res MCPError :=
  match v with
  | JObj d =>
      res_bind (validate_int "MCPError" v (py_get d "code")) (λ c,
      res_bind (validate_str "MCPError" v (py_get d "message")) (λ m,
      res_bind (validate_opt_dict "MCPError" v (py_get d "data")) (λ dt,
      Ok {| code := c; message := m; data := dt |})))
  | _ => Raise (ValidationError "MCPError" v)
  end.

(** [error: Optional[MCPError] = None], read from a decoded mapping *)
Definition validate_opt_error (model : string) (input v : json)
  : res (option MCPError) :=
  match v with
  | JNull => Ok None
  | JObj _ =>
      match MCPError_model_validate v with
      | Ok e => Ok (Some e)
      | Raise _ => Raise (ValidationError model input)
      end
  | _ => Raise (ValidationError model input)
  end.

(** [MCPResponse.model_post_init] *)
Definition model_post_init (r : MCPResponse) : res unit :=
  match result r, error r with
  | None, None => Raise (ValueError "Either 'result' or 'error' must be present")
  | Some _, Some _ => Raise (ValueError "Both 'result' and 'error' cannot be present")
  | _, _ => Ok tt
  end.

(** Running [model_post_init] at the end of construction: a
    [ValueError] it raises reaches the caller as pydantic reports it. *)
Definition run_post_init (input : json) (r : MCPResponse) : res MCPResponse :=
  match model_post_init r with
  | Ok _ => Ok r
  | Raise (ValueError msg) => Raise (post_init_error msg input)
  | Raise e => Raise e
  end.

(** [model_dump(exclude_none=True)] of each model *)
Definition MCPError_dump (e : MCPError) : dict :=
  let d : dict := {[ "code" := JInt (code e); "message" := JStr (message e) ]} in
  match data e with
  | Some dt => <["data" := JObj dt]> d
  | None => d
  end.

Definition put_opt (k : string) (v : option json) (d : dict) : dict :=
  match v with Some x => <[k := x]> d | None => d end.

Definition MCPRequest_dump (r : MCPRequest) : dict :=
  put_opt "params" (JObj <$> req_params r)
    {[ "jsonrpc" := JStr "2.0"; "id" := id_json (req_id r);
       "method" := JStr (req_method r) ]}.

Definition MCPResponse_dump (r : MCPResponse) : dict :=
  put_opt "error" ((λ e, JObj (MCPError_dump e)) <$> error r)
    (put_opt "result" (JObj <$> result r)
       {[ "jsonrpc" := JStr "2.0"; "id" := id_json (resp_id r) ]}).

Definition MCPNotification_dump (n : MCPNotification) : dict :=
  put_opt "params" (JObj <$> ntf_params n)
    {[ "jsonrpc" := JStr "2.0"; "method" := JStr (ntf_method n) ]}.

(** [MCPResponse(id=i, result=r, error=e)]: the keyword arguments are
    validated like decoded input, [e] is already an [MCPError]. *)
Definition MCPResponse_init (i r : json) (e : option MCPError)
  : res MCPResponse :=
  let input := JObj (put_opt "error" ((λ e, JObj (MCPError_dump e)) <$> e)
                       {[ "id" := i; "result" := r ]}) in
  res_bind (validate_id "MCPResponse" input i) (λ i',
  res_bind (validate_opt_dict "MCPResponse" input r) (λ r',
  run_post_init input {| resp_id := i'; result := r'; error := e |})).

(** [MCPResponse.model_validate(raw)] *)
Definition MCPResponse_model_validate (raw : dict) : res MCPResponse :=
  let input := JObj raw in
  res_bind (validate_jsonrpc "MCPResponse" input raw) (λ _,
  res_bind (validate_id "MCPResponse" input (py_get raw "id")) (λ i,
  res_bind (validate_opt_dict "MCPResponse" input (py_get raw "result")) (λ r,
  res_bind (validate_opt_error "MCPResponse" input (py_get raw "error")) (λ e,
  run_post_init input {| resp_id := i; result := r; error := e |})))).

(** [MCPRequest.model_validate(raw)] *)
Definition MCPRequest_model_validate (raw : dict) : res MCPRequest :=
  let input := JObj raw in
  res_bind (validate_jsonrpc "MCPRequest" input raw) (λ _,
  res_bind (validate_id "MCPRequest" input (py_get raw "id")) (λ i,
  res_bind (validate_str "MCPRequest" input (py_get raw "method")) (λ m,
  res_bind (validate_opt_dict "MCPRequest" input (py_get raw "params")) (λ p,
  Ok {| req_id := i; req_method := m; req_params := p |})))).

(** [MCPNotification.model_validate(raw)] *)
Definition MCPNotification_model_validate (raw : dict) : res MCPNotification :=
  let input := JObj raw in
  res_bind (validate_jsonrpc "MCPNotification" input raw) (λ _,
  res_bind (validate_str "MCPNotification" input (py_get raw "method")) (λ m,
  res_bind (validate_opt_dict "MCPNotification" input (py_get raw "params")) (λ p,
  Ok {| ntf_method := m; ntf_params := p |}))).
End Validation.

End Messages.

(** * handler.py *)

Module Handler.
Import Messages.

(** What awaiting a registered callable gives: a value or an exception. *)
Inductive outcome :=
  | HReturn (v : json)
  | HRaise (e : exn).

Abbreviation callable := (dict → outcome).

(** [self._message_task]: [None], or the task of the message loop, which
    [create_task] has scheduled ([TaskCreated]), which is in its loop
    ([TaskActive]), which has left it ([TaskDone]), or which was
    cancelled. *)
Inductive task :=
  | NoTask
  | TaskCreated
  | TaskActive
  | TaskDone
  | TaskCancelled.

(** The [ProtocolHandler] instance together with what it acts on: the
    futures of the event loop, the transport it was given, and the log.
    [transport_fault = Some e] means [transport.send_message] raises [e];
    [outbox] holds the messages the transport accepted, oldest first. *)
Record state := {
  request_handlers : gmap string callable;
  notification_handlers : gmap string callable;
  running : bool;
  message_task : task;
  pending_requests : gmap string nat;
  sequence_number : Z;
  futures : gmap nat (future dict);
  next_future : nat;
  transport_fault : option exn;
  outbox : list dict;
  log : list string;
}.

Definition set_request_handlers (f : gmap string callable → gmap string callable)
    (h : state) : state :=
  {| request_handlers := f (request_handlers h);
     notification_handlers := notification_handlers h;
     running := running h; message_task := message_task h;
     pending_requests := pending_requests h;
     sequence_number := sequence_number h;
     futures := futures h; next_future := next_future h;
     transport_fault := transport_fault h;
     outbox := outbox h; log := log h |}.

Definition set_notification_handlers (f : gmap string callable → gmap string callable)
    (h : state) : state :=
  {| request_handlers := request_handlers h;
     notification_handlers := f (notification_handlers h);
     running := running h; message_task := message_task h;
     pending_requests := pending_requests h;
     sequence_number := sequence_number h;
     futures := futures h; next_future := next_future h;
     transport_fault := transport_fault h;
     outbox := outbox h; log := log h |}.

Definition set_running (b : bool) (t : task) (h : state) : state :=
  {| request_handlers := request_handlers h;
     notification_handlers := notification_handlers h;
     running := b; message_task := t;
     pending_requests := pending_requests h;
     sequence_number := sequence_number h;
     futures := futures h; next_future := next_future h;
     transport_fault := transport_fault h;
     outbox := outbox h; log := log h |}.

Definition set_message_task (t : task) (h : state) : state :=
  set_running (running h) t h.

Definition set_pending (f : gmap string nat → gmap string nat) (h : state) : state :=
  {| request_handlers := request_handlers h;
     notification_handlers := notification_handlers h;
     running := running h; message_task := message_task h;
     pending_requests := f (pending_requests h);
     sequence_number := sequence_number h;
     futures := futures h; next_future := next_future h;
     transport_fault := transport_fault h;
     outbox := outbox h; log := log h |}.

Definition set_sequence_number (n : Z) (h : state) : state :=
  {| request_handlers := request_handlers h;
     notification_handlers := notification_handlers h;
     running := running h; message_task := message_task h;
     pending_requests := pending_requests h;
     sequence_number := n;
     futures := futures h; next_future := next_future h;
     transport_fault := transport_fault h;
     outbox := outbox h; log := log h |}.

Definition set_futures (f : gmap nat (future dict) → gmap nat (future dict)) (n : nat)
    (h : state) : state :=
  {| request_handlers := request_handlers h;
     notification_handlers := notification_handlers h;
     running := running h; message_task := message_task h;
     pending_requests := pending_requests h;
     sequence_number := sequence_number h;
     futures := f (futures h); next_future := n;
     transport_fault := transport_fault h;
     outbox := outbox h; log := log h |}.

Definition push_outbox (m : dict) (h : state) : state :=
  {| request_handlers := request_handlers h;
     notification_handlers := notification_handlers h;
     running := running h; message_task := message_task h;
     pending_requests := pending_requests h;
     sequence_number := sequence_number h;
     futures := futures h; next_future := next_future h;
     transport_fault := transport_fault h;
     outbox := outbox h ++ [m]; log := log h |}.

Definition push_log (ev : string) (h : state) : state :=
  {| request_handlers := request_handlers h;
     notification_handlers := notification_handlers h;
     running := running h; message_task := message_task h;
     pending_requests := pending_requests h;
     sequence_number := sequence_number h;
     futures := futures h; next_future := next_future h;
     transport_fault := transport_fault h;
     outbox := outbox h; log := log h ++ [ev] |}.

(** [ProtocolHandler(transport)] *)
Definition init (fault : option exn) : state :=
  {| request_handlers := ∅; notification_handlers := ∅;
     running := false; message_task := NoTask;
     pending_requests := ∅; sequence_number := 0%Z;
     futures := ∅; next_future := 0;
     transport_fault := fault; outbox := []; log := [] |}.

(** ** Coroutines as state-passing computations that return or raise *)

Definition M (A : Type) : Type := state → state * res A.

Definition ret {A} (a : A) : M A := λ h, (h, Ok a).
Definition raise {A} (e : exn) : M A := λ h, (h, Raise e).
Definition bind {A B} (m : M A) (k : A → M B) : M B :=
  λ h, match m h with
       | (h', Ok a) => k a h'
       | (h', Raise e) => (h', Raise e)
       end.
Definition lift {A} (r : res A) : M A := λ h, (h, r).
Definition get : M state := λ h, (h, Ok h).
Definition modify (f : state → state) : M unit := λ h, (f h, Ok tt).

(** [try: m  except <class> as e: hdl e], the class given by [sel] *)
Definition try_catch {A} (sel : exn → bool) (m : M A) (hdl : exn → M A) : M A :=
  λ h, match m h with
       | (h', Ok a) => (h', Ok a)
       | (h', Raise e) => if sel e then hdl e h' else (h', Raise e)
       end.

(** [except Exception], [except ValidationError], [except asyncio.TimeoutError] *)
Definition try_except {A} := @try_catch A is_Exception.
Definition try_except_validation {A} := @try_catch A is_ValidationError.
Definition is_TimeoutError (e : exn) : bool :=
  match e with TimeoutError => true | _ => false end.
Definition try_except_timeout {A} := @try_catch A is_TimeoutError.

(** [try: m  finally: fin] *)
Definition try_finally {A} (m : M A) (fin : state → state) : M A :=
  λ h, match m h with (h', r) => (fin h', r) end.

Declare Scope handler_scope.
Delimit Scope handler_scope with handler.
Notation "x <~ m ;; k" := (bind m (λ x, k))
  (at level 100, m at next level, right associativity) : handler_scope.
Notation "m ;;; k" := (bind m (λ _, k))
  (at level 100, right associativity) : handler_scope.
Local Open Scope handler_scope.

(** [logger.<level>(event, ...)]: the event name is recorded. *)
Definition logger (ev : string) : M unit := modify (push_log ev).

(** [await self.transport.send_message(message)] *)
Definition transport_send_message (m : dict) : M unit :=
  λ h, match transport_fault h with
       | Some e => (h, Raise e)
       | None => (push_outbox m h, Ok tt)
       end.

(** [await handler(params)] *)
Definition await_callable (f : callable) (params : dict) : M json :=
  match f params with
  | HReturn v => ret v
  | HRaise e => raise e
  end.

Definition py_type_name (v : json) : string :=
  match v with
  | JNull => "NoneType" | JInt _ => "int" | JStr _ => "str"
  | JList _ => "list" | JObj _ => "dict"
  end.

(** [raw_message.get(k)] on a decoded message that need not be a dict *)
Definition raw_get (raw : json) (k : string) : M json :=
  match raw with
  | JObj d => ret (py_get d k)
  | _ => raise (AttributeError
                  ("'" +:+ py_type_name raw +:+ "' object has no attribute 'get'"))
  end.

Section Operations.
Context `{PyRuntime}.

(** [register_request_handler], [register_notification_handler],
    [unregister_handler] *)
Definition register_request_handler (method : string) (f : callable) : M unit :=
  modify (set_request_handlers (<[method := f]>));;;
  logger "Registered request handler".

Definition register_notification_handler (method : string) (f : callable) : M unit :=
  modify (set_notification_handlers (<[method := f]>));;;
  logger "Registered notification handler".

Definition unregister_handler (method : string) : M unit :=
  modify (set_request_handlers (delete method));;;
  modify (set_notification_handlers (delete method));;;
  logger "Unregistered handlers".

(** [start] *)
Definition start : M unit :=
  h <~ get;;
  if running h then ret tt
  else modify (set_running true TaskCreated);;;
       logger "Protocol handler started".

(** [future.set_exception(MessageError("Protocol handler stopped"))]
    guarded by [if not future.done()] *)
Definition fail_if_pending (a : nat) (fs : gmap nat (future dict))
  : gmap nat (future dict) :=
  match fs !! a with
  | Some Pending => <[a := Failed (MessageError "Protocol handler stopped")]> fs
  | _ => fs
  end.

(** [for future in self._pending_requests.values(): ...] *)
Definition cancel_pending (table : gmap string nat) (fs : gmap nat (future dict))
  : gmap nat (future dict) :=
  foldr (λ ka, fail_if_pending ka.2) fs (map_to_list table).

(** [if self._message_task and not self._message_task.done():] cancel
    the task and await it.  A task that is in its loop is ended through
    the [finally] clause of [_message_loop]; a task that has not begun
    never enters it. *)
Definition cancel_message_task : M unit :=
  h <~ get;;
  match message_task h with
  | TaskCreated => modify (set_message_task TaskCancelled)
  | TaskActive =>
      modify (set_message_task TaskCancelled);;;
      logger "Message loop stopped"
  | NoTask | TaskDone | TaskCancelled => ret tt
  end.

(** [stop] *)
Definition stop : M unit :=
  h <~ get;;
  if negb (running h) then ret tt
  else
    modify (λ h, set_running false (message_task h) h);;;
    cancel_message_task;;;
    modify (λ h, set_futures (cancel_pending (pending_requests h))
                   (next_future h) h);;;
    modify (set_pending (λ _, ∅));;;
    logger "Protocol handler stopped".

(** [_next_sequence_number] *)
Definition next_sequence_number : M Z :=
  h <~ get;;
  modify (set_sequence_number (sequence_number h + 1)%Z);;;
  ret (sequence_number h + 1)%Z.

(** [asyncio.Future()] *)
Definition new_future : M nat :=
  h <~ get;;
  modify (set_futures (<[next_future h := Pending]>) (S (next_future h)));;;
  ret (next_future h).

(** [await asyncio.wait_for(future, timeout)] seen from the moment the
    caller runs again: a done future gives its result or exception; a
    future still pending means the deadline passed, so [wait_for]
    cancels it and raises [TimeoutError]. *)
Definition wait_for (a : nat) : M dict :=
  h <~ get;;
  match futures h !! a with
  | Some (Resolved v) => ret v
  | Some (Failed e) => raise e
  | Some Pending =>
      modify (set_futures (<[a := Cancelled]>) (next_future h));;;
      raise TimeoutError
  | Some Cancelled | None => raise CancelledError
  end.

(** [send_request].  [others] is whatever the rest of the program does
    to the state while this caller is suspended in [wait_for]. *)
Definition send_request (method : string) (params : option dict)
    (timeout : duration) (others : state → state) : M dict :=
  h <~ get;;
  if negb (running h) then raise (MessageError "Protocol handler not running")
  else
    request_id <~ next_sequence_number;;
    let request := {| req_id := IdInt request_id; req_method := method;
                      req_params := params |} in
    a <~ new_future;;
    modify (set_pending (<[pretty request_id := a]>));;;
    try_finally
      (try_except_timeout
         (transport_send_message (MCPRequest_dump request);;;
          modify others;;;
          wait_for a)
         (λ _, logger "Request timeout";;;
               raise (MessageError ("Request " +:+ method +:+ " timed out after "
                                    +:+ duration_str timeout +:+ "s"))))
      (set_pending (delete (pretty request_id))).

(** [send_notification] *)
Definition send_notification (method : string) (params : option dict) : M unit :=
  h <~ get;;
  if negb (running h) then raise (MessageError "Protocol handler not running")
  else transport_send_message
         (MCPNotification_dump {| ntf_method := method; ntf_params := params |}).

(** [send_response] *)
Definition send_response (request_id result : json) (error : option MCPError)
  : M unit :=
  h <~ get;;
  if negb (running h) then raise (MessageError "Protocol handler not running")
  else
    response <~ lift (MCPResponse_init request_id result error);;
    transport_send_message (MCPResponse_dump response).

(** [_send_error_response] *)
Definition send_error_response (request_id : json) (code : Z) (message : string)
    (data : option dict) : M unit :=
  match request_id with
  | JNull => ret tt
  | _ =>
      let error := {| Messages.code := code; Messages.message := message;
                      Messages.data := data |} in
      send_response request_id JNull (Some error)
  end.

(** [request.params or {}] *)
Definition params_or_empty (p : option dict) : dict := default ∅ p.

(** [_handle_request] *)
Definition handle_request (raw : dict) : M unit :=
  try_except_validation
    (request <~ lift (MCPRequest_model_validate raw);;
     logger "Request received";;;
     h <~ get;;
     match request_handlers h !! req_method request with
     | None =>
         send_error_response (id_json (req_id request)) METHOD_NOT_FOUND
           ("Method '" +:+ req_method request +:+ "' not found") None
     | Some handler =>
         try_except
           (result <~ await_callable handler (params_or_empty (req_params request));;
            send_response (JStr (id_str (req_id request))) result None)
           (λ e, logger "Request handler failed";;;
                 send_error_response (id_json (req_id request)) INTERNAL_ERROR
                   (exn_str e) None)
     end)
    (λ e, logger "Invalid request format";;;
          send_error_response (py_get raw "id") INVALID_REQUEST
            "Invalid request format" None).

(** [future.set_exception(e)] and [future.set_result(v)] on a future
    that [_handle_response] has found not done *)
Definition complete_future (a : nat) (f : future dict) : M unit :=
  h <~ get;; modify (set_futures (<[a := f]>) (next_future h)).

(** [_handle_response] *)
Definition handle_response (raw : dict) : M unit :=
  try_except_validation
    (response <~ lift (MCPResponse_model_validate raw);;
     logger "Response received";;;
     h <~ get;;
     match pending_requests h !! id_str (resp_id response) with
     | None => logger "Unexpected response"
     | Some a =>
         match futures h !! a with
         | Some Pending =>
             match error response with
             | Some err =>
                 complete_future a
                   (Failed (MessageError ("RPC Error " +:+ pretty (code err) +:+ ": "
                                          +:+ message err)))
             | None =>
                 complete_future a (Resolved (params_or_empty (result response)))
             end
         | _ => logger "Unexpected response"
         end
     end)
    (λ e, logger "Invalid response format").

(** [_handle_notification] *)
Definition handle_notification (raw : dict) : M unit :=
  try_except_validation
    (notification <~ lift (MCPNotification_model_validate raw);;
     logger "Notification received";;;
     h <~ get;;
     match notification_handlers h !! ntf_method notification with
     | None => logger "No handler for notification"
     | Some handler =>
         try_except
           (_ <~ await_callable handler (params_or_empty (ntf_params notification));;
            ret tt)
           (λ e, logger "Notification handler failed")
     end)
    (λ e, logger "Invalid notification format").

(** [_process_message].  The [except ValidationError] clause comes
    first, [except Exception] takes what is left. *)
Definition process_message (raw_message : json) : M unit :=
  try_except
    (match raw_message with
     | JObj d =>
         if negb (json_is_str (py_get d "jsonrpc") "2.0")
         then raise (ValueError "Invalid JSON-RPC version")
         else if py_in "id" d then
           if py_in "method" d then handle_request d else handle_response d
         else if py_in "method" d then handle_notification d
         else raise (ValueError "Invalid message structure")
     | _ => raise (ValueError "Message must be a JSON object")
     end)
    (λ e,
       if is_ValidationError e then
         logger "Message validation failed";;;
         request_id <~ raw_get raw_message "id";;
         send_error_response request_id INVALID_REQUEST "Invalid request"
           (Some {[ "validation_errors" :=
                      match e with
                      | ValidationError model input => validation_errors model input
                      | _ => JNull
                      end ]})
       else
         logger "Message processing failed";;;
         request_id <~ raw_get raw_message "id";;
         send_error_response request_id INTERNAL_ERROR "Internal error" None).

(** One turn of [_message_loop]: an exception that escapes
    [_process_message] is logged and the loop goes on. *)
Definition message_loop_step (raw_message : json) : M unit :=
  try_except (process_message raw_message)
    (λ e, logger "Error processing message").

(** The [async for] of [_message_loop]: one turn for each message of
    [inbound], the messages the transport yields, then [last], the way
    [receive_messages()] ends. *)
Definition message_turns (inbound : list json) (last : res unit) : M unit :=
  foldr (λ raw k, message_loop_step raw;;; k) (lift last) inbound.

(** [_message_loop], the body of the task: from its first step the task
    is in its loop, and it is done when the body is left. *)
Definition message_loop (inbound : list json) (last : res unit) : M unit :=
  modify (set_message_task TaskActive);;;
  try_finally
    (try_except (message_turns inbound last) (λ e, logger "Message loop failed"))
    (λ h, set_message_task TaskDone (push_log "Message loop stopped" h)).
End Operations.

(** Reading a sent message back: the error code of a Response. *)
Definition sent_error_code (m : dict) : option Z :=
  match m !! "error" with
  | Some (JObj e) => match e !! "code" with Some (JInt c) => Some c | _ => None end
  | _ => None
  end.
End Handler.

(** * transport/base.py *)

Module Transport.

(** The [Transport] base class with the futures its table points to.
    [send_fault] and [sent] stand for the abstract [send_message]. *)
Record state := {
  connected : bool;
  closed : bool;
  message_id : Z;
  pending_requests : gmap string nat;
  futures : gmap nat (future json);
  next_future : nat;
  send_fault : option exn;
  sent : list dict;
  log : list string;
}.

Definition set_message_id (n : Z) (t : state) : state :=
  {| connected := connected t; closed := closed t; message_id := n;
     pending_requests := pending_requests t; futures := futures t;
     next_future := next_future t; send_fault := send_fault t;
     sent := sent t; log := log t |}.

Definition set_pending (f : gmap string nat → gmap string nat) (t : state) : state :=
  {| connected := connected t; closed := closed t; message_id := message_id t;
     pending_requests := f (pending_requests t); futures := futures t;
     next_future := next_future t; send_fault := send_fault t;
     sent := sent t; log := log t |}.

Definition set_futures (f : gmap nat (future json) → gmap nat (future json))
    (n : nat) (t : state) : state :=
  {| connected := connected t; closed := closed t; message_id := message_id t;
     pending_requests := pending_requests t; futures := f (futures t);
     next_future := n; send_fault := send_fault t;
     sent := sent t; log := log t |}.

Definition push_sent (m : dict) (t : state) : state :=
  {| connected := connected t; closed := closed t; message_id := message_id t;
     pending_requests := pending_requests t; futures := futures t;
     next_future := next_future t; send_fault := send_fault t;
     sent := sent t ++ [m]; log := log t |}.

Definition push_log (ev : string) (t : state) : state :=
  {| connected := connected t; closed := closed t; message_id := message_id t;
     pending_requests := pending_requests t; futures := futures t;
     next_future := next_future t; send_fault := send_fault t;
     sent := sent t; log := log t ++ [ev] |}.

(** [Transport(config)] *)
Definition init (fault : option exn) : state :=
  {| connected := false; closed := false; message_id := 0%Z;
     pending_requests := ∅; futures := ∅; next_future := 0;
     send_fault := fault; sent := []; log := [] |}.

(** [_next_message_id]: the counter after the increment, as a string *)
Definition next_message_id (t : state) : state * string :=
  (set_message_id (message_id t + 1)%Z t, pretty (message_id t + 1)%Z).

(** [await self.send_message(message)] *)
Definition send_message (m : dict) (t : state) : state * res unit :=
  match send_fault t with
  | Some e => (t, Raise e)
  | None => (push_sent m t, Ok tt)
  end.

(** [await asyncio.wait_for(future, timeout)], as in the handler *)
Definition wait_for (a : nat) (t : state) : state * res json :=
  match futures t !! a with
  | Some (Resolved v) => (t, Ok v)
  | Some (Failed e) => (t, Raise e)
  | Some Pending => (set_futures (<[a := Cancelled]>) (next_future t) t, Raise TimeoutError)
  | Some Cancelled | None => (t, Raise CancelledError)
  end.

(** [message_id in self._pending_requests] for a decoded id: a string is
    looked up as it is, an integer equals no string key, and a list or a
    dict is not hashable. *)
Definition id_in_table (v : json) (table : gmap string nat) : res (option nat) :=
  match v with
  | JStr s => Ok (table !! s)
  | JInt _ | JNull => Ok None
  | JList _ => Raise (TypeError "unhashable type: 'list'")
  | JObj _ => Raise (TypeError "unhashable type: 'dict'")
  end.

(** [future.set_result] and [future.set_exception] *)
Definition complete (a : nat) (f : future json) (t : state) : state * res unit :=
  match futures t !! a with
  | Some Pending => (set_futures (<[a := f]>) (next_future t) t, Ok tt)
  | _ => (t, Raise (InvalidStateError "invalid state"))
  end.

Section Operations.
Context `{PyRuntime}.

(** [send_request].  [others] is what happens to the transport while
    the caller is suspended. *)
Definition send_request (method : string) (params : option dict)
    (timeout : duration) (others : state → state) (t : state)
  : state * res json :=
  if closed t then (t, Raise (ConnectionError "Transport is closed"))
  else
    let '(t1, message_id) := next_message_id t in
    let message : dict :=
      {[ "jsonrpc" := JStr "2.0"; "id" := JStr message_id;
         "method" := JStr method; "params" := JObj (default ∅ params) ]} in
    let a := next_future t1 in
    let t2 := set_pending (<[message_id := a]>)
                (set_futures (<[a := Pending]>) (S a) t1) in
    let '(t3, r) :=
      match
        match send_message message t2 with
        | (t', Raise e) => (t', Raise e)
        | (t', Ok _) => wait_for a (others t')
        end
      with
      | (t'', Raise TimeoutError) =>
          (push_log "Request timeout" t'',
           Raise (MessageError ("Request " +:+ method +:+ " timed out after "
                                +:+ duration_str timeout +:+ "s")))
      | out => out
      end in
    (set_pending (delete message_id) t3, r).

(** [_handle_response] *)
Definition handle_response (message : dict) (t : state) : state * res unit :=
  let message_id := py_get message "id" in
  if negb (py_truthy message_id) then (t, Ok tt)
  else
    match id_in_table message_id (pending_requests t) with
    | Raise e => (t, Raise e)
    | Ok None => (t, Ok tt)
    | Ok (Some a) =>
        match message !! "error" with
        | Some (JObj error) =>
            complete a
              (Failed (MessageError ("RPC Error " +:+ py_str (py_get error "code")
                                     +:+ ": " +:+ py_str (py_get error "message")))) t
        | Some error =>
            (t, Raise (AttributeError
                         ("'" +:+ Handler.py_type_name error
                          +:+ "' object has no attribute 'get'")))
        | None =>
            complete a (Resolved (default (JObj ∅) (message !! "result"))) t
        end
    end.
End Operations.

Definition set_connection (c cl : bool) (t : state) : state :=
  {| connected := c; closed := cl; message_id := message_id t;
     pending_requests := pending_requests t; futures := futures t;
     next_future := next_future t; send_fault := send_fault t;
     sent := sent t; log := log t |}.

(** [send_notification] *)
Definition send_notification (method : string) (params : option dict) (t : state)
  : state * res unit :=
  if closed t then (t, Raise (ConnectionError "Transport is closed"))
  else
    send_message {[ "jsonrpc" := JStr "2.0"; "method" := JStr method;
                    "params" := JObj (default ∅ params) ]} t.

(** [future.set_exception(ConnectionError("Connection closed"))] guarded
    by [if not future.done()] *)
Definition close_if_pending (a : nat) (fs : gmap nat (future json))
  : gmap nat (future json) :=
  match fs !! a with
  | Some Pending => <[a := Failed (ConnectionError "Connection closed")]> fs
  | _ => fs
  end.

(** The end of [disconnect] in the three transports: every future of the
    table that is not done is failed, then the table is cleared. *)
Definition cancel_pending (t : state) : state :=
  set_pending (λ _, ∅)
    (set_futures
       (λ fs, foldr (λ ka, close_if_pending ka.2) fs (map_to_list (pending_requests t)))
       (next_future t) t).

Section Receiver.
Context `{PyRuntime}.

(** The body of the loop of [_message_receiver] (stdio.py, websocket.py):
    [if "id" in message and message["id"] in self._pending_requests:
    self._handle_response(message)] *)
Definition receiver_step (message : dict) (t : state) : state * res unit :=
  if py_in "id" message then
    match id_in_table (py_get message "id") (pending_requests t) with
    | Raise e => (t, Raise e)
    | Ok None => (t, Ok tt)
    | Ok (Some _) => handle_response message t
    end
  else (t, Ok tt).

(** [_message_receiver] over the messages [receive_messages] yields and
    the way the generator ends: the first exception ends the task. *)
Fixpoint message_receiver (messages : list dict) (last : res unit) (t : state)
  : state :=
  let failed (e : exn) (t' : state) :=
    push_log "Message receiver task stopped"
      (if is_Exception e then push_log "Message receiver task failed" t' else t') in
  match messages with
  | [] =>
      match last with
      | Ok _ => push_log "Message receiver task stopped" t
      | Raise e => failed e t
      end
  | m :: messages' =>
      match receiver_step m t with
      | (t', Ok _) => message_receiver messages' last t'
      | (t', Raise e) => failed e t'
      end
  end.
End Receiver.
End Transport.

(** * transport/http.py *)

Module Http.

(** What one [GET /messages] poll does: the decoded body of a 2xx
    answer, or an exception: an [httpx.HTTPError] from the request or
    from [raise_for_status], or any other one. *)
Inductive poll :=
  | PollBody (data : json)
  | PollRaises (e : exn).

Definition is_HTTPError (e : exn) : bool :=
  match e with HTTPError _ => true | _ => false end.

(** A length of time in seconds: a number, here a rational. *)
Abbreviation seconds := Qcanon.Qc.

(** [self.config]: the numeric settings of the transport *)
Abbreviation config := (gmap string seconds).

(** [self.config.get("poll_interval", 1.0)] *)
Definition poll_interval (cfg : config) : seconds :=
  default 1%Qc (cfg !! "poll_interval").

(** What the generator does, in order; [EvSleep d] is
    [await asyncio.sleep(d)]. *)
Inductive event :=
  | EvPoll
  | EvYield (message : json)
  | EvSleep (delay : seconds)
  | EvLog (ev : string).

(** [data.get("messages", [])] *)
Definition messages_of (data : json) : res json :=
  match data with
  | JObj d => Ok (default (JList []) (d !! "messages"))
  | _ => Raise (AttributeError
                  ("'" +:+ Handler.py_type_name data +:+ "' object has no attribute 'get'"))
  end.

(** [for message in messages]: what iterating the value gives *)
Definition iterate (messages : json) : res (list json) :=
  match messages with
  | JList l => Ok l
  | JStr s => Ok ((λ c, JStr (String c EmptyString)) <$> String.list_ascii_of_string s)
  | JObj d => Ok (JStr <$> (map_to_list d).*1)
  | JInt _ | JNull =>
      Raise (TypeError ("'" +:+ Handler.py_type_name messages
                        +:+ "' object is not iterable"))
  end.

(** The loop body over the messages: [message.get(...)] for the debug
    log needs a dict; each message is then yielded. *)
Fixpoint yield_all (l : list json) : list event * res unit :=
  match l with
  | [] => ([], Ok tt)
  | JObj d :: l' =>
      let '(evs, r) := yield_all l' in
      (EvLog "Message received" :: EvYield (JObj d) :: evs, r)
  | v :: _ =>
      ([], Raise (AttributeError
                    ("'" +:+ Handler.py_type_name v +:+ "' object has no attribute 'get'")))
  end.

Section Operations.
Context `{PyRuntime}.

(** [except Exception as e: ... raise MessageError(...)] around the loop *)
Definition receive_failed (e : exn) : list event * res unit :=
  if is_Exception e then
    ([EvLog "Error receiving messages"],
     Raise (MessageError ("Failed to receive messages: " +:+ exn_str e)))
  else ([], Raise e).

(** [while not self._closed: ...]; [interval] is the local
    [poll_interval], [polls] are the polls made before the transport is
    closed. *)
Fixpoint receive_loop (interval : seconds) (polls : list poll)
  : list event * res unit :=
  match polls with
  | [] => ([], Ok tt)
  | p :: polls' =>
      let continue (evs : list event) :=
        let '(evs', r) := receive_loop interval polls' in (EvPoll :: evs ++ evs', r) in
      let abort (evs : list event) (e : exn) :=
        let '(evs', r) := receive_failed e in (EvPoll :: evs ++ evs', r) in
      match p with
      | PollRaises e =>
          if is_HTTPError e
          then continue [EvLog "HTTP error receiving messages"; EvSleep interval]
          else abort [] e
      | PollBody data =>
          match messages_of data with
          | Raise e => abort [] e
          | Ok messages =>
              match iterate messages with
              | Raise e => abort [] e
              | Ok l =>
                  match yield_all l with
                  | (evs, Raise e) => abort evs e
                  | (evs, Ok _) =>
                      continue (evs ++ if py_truthy messages then []
                                       else [EvSleep interval])
                  end
              end
          end
      end
  end.

(** [receive_messages] *)
Definition receive_messages (cfg : config) (is_connected : bool) (polls : list poll)
  : list event * res unit :=
  if negb is_connected then ([], Raise (ConnectionError "Not connected"))
  else receive_loop (poll_interval cfg) polls.
End Operations.

(** The messages a trace yields. *)
Definition yielded (tr : list event) : list json :=
  omap (λ ev, match ev with EvYield m => Some m | _ => None end) tr.

(** For each poll of a trace, the sleeps before the next poll (or before
    the end of the trace), with their lengths. *)
Fixpoint sleeps_until_poll (tr : list event) : list seconds :=
  match tr with
  | [] | EvPoll :: _ => []
  | EvSleep d :: tr' => d :: sleeps_until_poll tr'
  | _ :: tr' => sleeps_until_poll tr'
  end.

Fixpoint sleeps_after_polls (tr : list event) : list (list seconds) :=
  match tr with
  | [] => []
  | EvPoll :: tr' => sleeps_until_poll tr' :: sleeps_after_polls tr'
  | _ :: tr' => sleeps_after_polls tr'
  end.

(** The [HttpTransport] instance: the base class state, whether an
    [httpx] client is held, and the session id. *)
Record session := {
  base : Transport.state;
  client : bool;
  session_id : option string;
}.

Definition set_base (f : Transport.state → Transport.state) (s : session) : session :=
  {| base := f (base s); client := client s; session_id := session_id s |}.

(** [disconnect].  [post_close] is what the POST to [/session/close]
    does, [aclose] what closing the client does. *)
Definition disconnect (post_close aclose : res unit) (s : session)
  : session * res unit :=
  if negb (Transport.connected (base s)) then (s, Ok tt)
  else
    let failed (e : exn) (s' : session) :=
      if is_Exception e
      then (set_base (Transport.push_log "Error during HTTP disconnect") s', Ok tt)
      else (s', Raise e) in
    let s1 := set_base (Transport.set_connection false true) s in
    let has_session :=
      match session_id s1 with Some i => negb (bool_decide (i = "")) | None => false end in
    let after_post : session * res unit :=
      if has_session && client s1 then
        match post_close with
        | Ok _ => (s1, Ok tt)
        | Raise e =>
            if is_Exception e
            then (set_base (Transport.push_log "Failed to close session gracefully") s1,
                  Ok tt)
            else (s1, Raise e)
        end
      else (s1, Ok tt) in
    match after_post with
    | (s2, Raise e) => failed e s2
    | (s2, Ok _) =>
        let after_close : session * res unit :=
          if client s2 then
            match aclose with
            | Ok _ => ({| base := base s2; client := false;
                          session_id := session_id s2 |}, Ok tt)
            | Raise e => (s2, Raise e)
            end
          else (s2, Ok tt) in
        match after_close with
        | (s3, Raise e) => failed e s3
        | (s3, Ok _) =>
            (set_base (λ t, Transport.push_log "HTTP transport disconnected"
                              (Transport.cancel_pending t)) s3, Ok tt)
        end
    end.

(** What [send_message] does, in order: a POST to [/message], a wait
    between two attempts, a log entry. *)
Inductive send_event :=
  | SePost
  | SeWait
  | SeLog (ev : string).

Fixpoint count_posts (tr : list send_event) : nat :=
  match tr with
  | [] => 0
  | SePost :: tr' => S (count_posts tr')
  | _ :: tr' => count_posts tr'
  end.

Section Sending.
Context `{PyRuntime}.

(** [str(e)] of tenacity's [RetryError]: it shows the last attempt. *)
Variable retry_error_str : exn → string.

(** The body of [send_message], one attempt.  [post] is what
    [await self._client.post("/message", json=payload)] followed by
    [response.raise_for_status()] does. *)
Definition send_attempt (s : session) (post : res unit)
  : list send_event * res unit :=
  if negb (Transport.connected (base s)) || negb (client s)
  then ([], Raise (ConnectionError "Not connected"))
  else
    match post with
    | Ok _ => ([SePost; SeLog "Message sent"], Ok tt)
    | Raise e =>
        if is_HTTPError e then
          ([SePost; SeLog "HTTP error sending message"],
           Raise (MessageError ("Failed to send message: " +:+ exn_str e)))
        else if is_Exception e then
          ([SePost; SeLog "Failed to send message"],
           Raise (MessageError ("Failed to send message: " +:+ exn_str e)))
        else ([SePost], Raise e)
    end.

(** [@retry(stop=stop_after_attempt(n), wait=...)] of tenacity around a
    coroutine function, with [more = n - 1]: the call is made again, after
    a wait, when an attempt raised an [Exception], until an attempt
    returns or the last one has failed, and then [RetryError] is raised
    ([reraise] is not set); an exception that is not an [Exception]
    passes through.  [attempt k] is what the call number [k] does. *)
Fixpoint retrying (more k : nat) (attempt : nat → list send_event * res unit)
  : list send_event * res unit :=
  let '(evs, r) := attempt k in
  match r with
  | Ok v => (evs, Ok v)
  | Raise e =>
      if is_Exception e then
        match more with
        | 0 => (evs, Raise (OtherError "RetryError" (retry_error_str e)))
        | S more' =>
            let '(evs', r') := retrying more' (S k) attempt in
            (evs ++ SeWait :: evs', r')
        end
      else (evs, Raise e)
  end.

(** [send_message] with its decorator: at most three attempts.
    [posts k] is what the POST of attempt [k] does. *)
Definition send_message (posts : nat → res unit) (s : session)
  : list send_event * res unit :=
  retrying 2 0 (λ k, send_attempt s (posts k)).
End Sending.
End Http.

(** * transport/stdio.py *)

Module Stdio.

Inductive event :=
  | EvYield (message : json)
  | EvLog (ev : string).

(** [json.JSONDecodeError] *)
Definition is_JSONDecodeError (e : exn) : bool :=
  match e with
  | OtherError cls _ => bool_decide (cls = "JSONDecodeError")
  | _ => false
  end.

(** The messages a trace yields. *)
Definition yielded (tr : list event) : list json :=
  omap (λ ev, match ev with EvYield m => Some m | _ => None end) tr.

Section Operations.
Context `{PyRuntime}.

(** [json.loads(line.decode().strip())] for a line read from stdin: the
    decoded value, or the exception raised ([JSONDecodeError] for text
    that is not JSON). *)
Variable json_loads : string → res json.

(** [except Exception as e: ... raise MessageError(...)] around the loop *)
Definition receive_failed (e : exn) : list event * res unit :=
  if is_Exception e then
    ([EvLog "Error receiving messages"],
     Raise (MessageError ("Failed to receive messages: " +:+ exn_str e)))
  else ([], Raise e).

(** [while not self._closed: line = await readline(); if not line: break;
    ...]; [lines] are the lines read before the end of the stream. *)
Fixpoint receive_loop (lines : list string) : list event * res unit :=
  match lines with
  | [] => ([], Ok tt)
  | line :: lines' =>
      match json_loads line with
      | Ok (JObj d) =>
          let '(evs, r) := receive_loop lines' in
          (EvLog "Message received" :: EvYield (JObj d) :: evs, r)
      | Ok v =>
          receive_failed
            (AttributeError ("'" +:+ Handler.py_type_name v
                             +:+ "' object has no attribute 'get'"))
      | Raise e =>
          if is_JSONDecodeError e then
            let '(evs, r) := receive_loop lines' in
            (EvLog "Invalid JSON received" :: evs, r)
          else receive_failed e
      end
  end.

(** [receive_messages] *)
Definition receive_messages (is_connected : bool) (lines : list string)
  : list event * res unit :=
  if negb is_connected then ([], Raise (ConnectionError "Not connected"))
  else receive_loop lines.
End Operations.
End Stdio.

(** * transport/websocket.py *)

Module WebSocket.

(** [websockets.exceptions.ConnectionClosed] and its two subclasses *)
Definition is_ConnectionClosed (e : exn) : bool :=
  match e with
  | OtherError cls _ =>
      bool_decide (cls = "ConnectionClosed")
      || bool_decide (cls = "ConnectionClosedOK")
      || bool_decide (cls = "ConnectionClosedError")
  | _ => false
  end.

Section Operations.
Context `{PyRuntime}.

(** [json.loads(raw_message)] *)
Variable json_loads : string → res json.

(** [send_message].  [socket] tells whether [self._websocket] is set,
    [send] is what [await self._websocket.send(payload)] does. *)
Definition send_message (socket : bool) (send : res unit) (message : dict)
    (t : Transport.state) : Transport.state * res unit :=
  if negb (Transport.connected t) || negb socket
  then (t, Raise (ConnectionError "Not connected"))
  else
    match send with
    | Ok _ => (Transport.push_log "Message sent" (Transport.push_sent message t), Ok tt)
    | Raise e =>
        if is_ConnectionClosed e then
          (Transport.set_connection false (Transport.closed t) t,
           Raise (ConnectionError "WebSocket connection closed"))
        else if is_Exception e then
          (Transport.push_log "Failed to send message" t,
           Raise (MessageError ("Failed to send message: " +:+ exn_str e)))
        else (t, Raise e)
    end.

(** The two [except] clauses around the loop of [receive_messages] *)
Definition receive_failed (e : exn) (t : Transport.state)
  : list Stdio.event * res unit * Transport.state :=
  if is_ConnectionClosed e then
    ([Stdio.EvLog "WebSocket connection closed by peer"], Ok tt,
     Transport.set_connection false (Transport.closed t) t)
  else if is_Exception e then
    ([Stdio.EvLog "Error receiving messages"],
     Raise (MessageError ("Failed to receive messages: " +:+ exn_str e)), t)
  else ([], Raise e, t).

(** [async for raw_message in self._websocket: ...]; [raws] are the
    texts the socket gives and [ending] is the way its iteration ends. *)
Fixpoint receive_loop (raws : list string) (ending : res unit) (t : Transport.state)
  : list Stdio.event * res unit * Transport.state :=
  match raws with
  | [] =>
      match ending with
      | Ok _ => ([], Ok tt, t)
      | Raise e => receive_failed e t
      end
  | raw :: raws' =>
      match json_loads raw with
      | Ok (JObj d) =>
          let '(evs, r, t') := receive_loop raws' ending t in
          (Stdio.EvLog "Message received" :: Stdio.EvYield (JObj d) :: evs, r, t')
      | Ok v =>
          receive_failed
            (AttributeError ("'" +:+ Handler.py_type_name v
                             +:+ "' object has no attribute 'get'")) t
      | Raise e =>
          if Stdio.is_JSONDecodeError e then
            let '(evs, r, t') := receive_loop raws' ending t in
            (Stdio.EvLog "Invalid JSON received" :: evs, r, t')
          else receive_failed e t
      end
  end.

(** [receive_messages] *)
Definition receive_messages (socket : bool) (raws : list string) (ending : res unit)
    (t : Transport.state) : list Stdio.event * res unit * Transport.state :=
  if negb (Transport.connected t) || negb socket
  then ([], Raise (ConnectionError "Not connected"), t)
  else receive_loop raws ending t.
End Operations.
End WebSocket.

(** * Vocabulary of the statements

    Definitions used to state the properties below; none of them is
    part of the program. *)

Section Vocabulary.
Context `{PyRuntime}.
Import Messages Handler.

(** Exactly one of [result] and [error] is present. *)
Definition exactly_one (r : MCPResponse) : Prop :=
  (is_Some (result r) ∧ error r = None) ∨ (result r = None ∧ is_Some (error r)).

(** The Response that [_send_error_response] builds. *)
Definition error_response (i : rpc_id) (c : Z) (msg : string) : MCPResponse :=
  {| resp_id := i; result := None;
     error := Some {| code := c; message := msg; data := None |} |}.

Definition stopped_error : exn := MessageError "Protocol handler stopped".

(** What [stop] does to one future. *)
Definition fail_spec (o : option (future dict)) : option (future dict) :=
  match o with
  | Some Pending => Some (Failed stopped_error)
  | _ => o
  end.

(** The state in which the caller of [send_request] is suspended: the
    id is allocated, the future is in the table, the Request is sent. *)
Definition suspended (method : string) (params : option dict) (h : state) : state :=
  let request_id := (sequence_number h + 1)%Z in
  push_outbox
    (MCPRequest_dump {| req_id := IdInt request_id; req_method := method;
                        req_params := params |})
    (set_pending (<[pretty request_id := next_future h]>)
       (set_futures (<[next_future h := Pending]>) (S (next_future h))
          (set_sequence_number request_id h))).

Definition timeout_error (method : string) (timeout : duration) : exn :=
  MessageError ("Request " +:+ method +:+ " timed out after "
                +:+ duration_str timeout +:+ "s").

(** What [_handle_response] puts into the future it finds. *)
Definition completion (resp : MCPResponse) : future dict :=
  match error resp with
  | Some err => Failed (MessageError ("RPC Error " +:+ pretty (code err) +:+ ": "
                                      +:+ message err))
  | None => Resolved (params_or_empty (result resp))
  end.
End Vocabulary.

Section PollingVocabulary.
Import Http.

Definition is_dict (v : json) : bool :=
  match v with JObj _ => true | _ => false end.

(** The messages a poll hands over, when its body has the expected
    shape: a mapping whose [messages] iterate to mappings. *)
Definition poll_messages (p : poll) : option (list json) :=
  match p with
  | PollBody data =>
      match messages_of data with
      | Ok messages =>
          match iterate messages with
          | Ok l => if forallb is_dict l then Some l else None
          | Raise _ => None
          end
      | Raise _ => None
      end
  | PollRaises _ => None
  end.

(** A poll the loop survives: an HTTP error, or a well-shaped body. *)
Definition poll_ok (p : poll) : bool :=
  match p with
  | PollRaises e => is_HTTPError e
  | PollBody _ => bool_decide (is_Some (poll_messages p))
  end.

(** A poll that returned at least one message. *)
Definition delivers (p : poll) : bool :=
  match p with
  | PollBody data =>
      match messages_of data with
      | Ok messages => py_truthy messages
      | Raise _ => false
      end
  | PollRaises _ => false
  end.

Definition is_poll (ev : event) : bool :=
  match ev with EvPoll => true | _ => false end.

(** The sleeps of a trace, with their lengths. *)
Fixpoint sleeps_of (evs : list event) : list seconds :=
  match evs with
  | [] => []
  | EvSleep d :: evs' => d :: sleeps_of evs'
  | _ :: evs' => sleeps_of evs'
  end.

(** The time a list of sleeps takes. *)
Definition slept (ds : list seconds) : seconds :=
  foldr Qcanon.Qcplus (Qc_of_Z 0) ds.

(** A trace that is empty or begins with a poll. *)
Definition at_poll (tr : list event) : Prop :=
  match tr with [] | EvPoll :: _ => True | _ => False end.
End PollingVocabulary.

(** * A runtime instance for evaluating the definitions

    Integers and strings print as Python prints them; a duration is held
    as the text Python prints for it; [model_post_init] failures arrive as
    [ValidationError]. *)

Definition reference_runtime : PyRuntime := {|
  py_str := λ v, match v with
                 | JNull => "None" | JInt n => pretty n | JStr s => s
                 | JList _ => "[...]" | JObj _ => "{...}"
                 end;
  lax_int := λ _, None;
  post_init_error := λ _ input, ValidationError "MCPResponse" input;
  validation_text := λ model _, "1 validation error for " +:+ model;
  validation_errors := λ _ _, JList [];
  duration := string;
  duration_str := λ s, s;
  post_init_error_class := λ _ _, or_intror eq_refl;
|}.

(** A handler that was started, with its message loop waiting for a
    message, on a transport that accepts every message. *)
Definition started : Handler.state :=
  Handler.set_running true Handler.TaskActive (Handler.init None).

(** Concrete messages and states for the instances at the end. *)

Section Inputs.
Import Messages Handler.

(** [{"jsonrpc": "2.0", "id": 5, "method": m}] *)
Definition request_5 (m : string) : dict :=
  {[ "jsonrpc" := JStr "2.0"; "id" := JInt 5; "method" := JStr m ]}.

Definition request_5_model (m : string) : MCPRequest :=
  {| req_id := IdInt 5; req_method := m; req_params := None |}.

(** A started handler with one request handler registered. *)
Definition with_handler (m : string) (f : callable) : state :=
  set_request_handlers (<[m := f]>) started.

(** [{"jsonrpc": "2.0", "method": "notifications/progress"}] *)
Definition progress_notification : dict :=
  {[ "jsonrpc" := JStr "2.0"; "method" := JStr "notifications/progress" ]}.

Definition failing_callable : callable :=
  λ _, HRaise (OtherError "RuntimeError" "bad").

(** [{"jsonrpc": "2.0", "id": i, "result": {"tools": []}}] *)
Definition tools_reply (i : json) : dict :=
  {[ "jsonrpc" := JStr "2.0"; "id" := i;
     "result" := JObj {[ "tools" := JList [] ]} ]}.

Definition tools_reply_model (i : rpc_id) : MCPResponse :=
  {| resp_id := i; result := Some {[ "tools" := JList [] ]}; error := None |}.

(** A transport that is not closed and accepts every message. *)
Definition open_transport : Transport.state := Transport.init None.

(** A poll that returns a message, one that returns none, and one that
    fails with an HTTP error. *)
Definition busy_then_idle : list Http.poll :=
  [ Http.PollBody (JObj {[ "messages" := JList [JObj progress_notification] ]});
    Http.PollBody (JObj {[ "messages" := JList [] ]});
    Http.PollRaises (HTTPError "503") ].

(** [{"jsonrpc": "2.0", "id": 5, "method": 1}]: the method is not a string. *)
Definition malformed_request : dict :=
  {[ "jsonrpc" := JStr "2.0"; "id" := JInt 5; "method" := JInt 1 ]}.

(** A transport with request "1" outstanding. *)
Definition waiting_transport : Transport.state :=
  Transport.set_pending (<["1" := 0]>)
    (Transport.set_futures (<[0 := Pending]>) 1
       (Transport.set_connection true false open_transport)).

(** A connected polling transport with a client, a session, and request
    "1" outstanding. *)
Definition waiting_session : Http.session :=
  {| Http.base := waiting_transport; Http.client := true;
     Http.session_id := Some "s1" |}.

(** POSTs that meet a server error once and succeed afterwards. *)
Definition flaky_posts (k : nat) : res unit :=
  match k with
  | 0 => Raise (HTTPError "503 Service Unavailable")
  | _ => Ok tt
  end.

(** A decoder for three lines: an empty mapping, a list, and anything
    else, which is not JSON. *)
Definition sample_loads (line : string) : res json :=
  if bool_decide (line = "{}") then Ok (JObj ∅)
  else if bool_decide (line = "[1]") then Ok (JList [JInt 1])
  else Raise (OtherError "JSONDecodeError" "Expecting value").
End Inputs.

(** * Vocabulary of the further properties *)

Section ConversationVocabulary.
Context `{PyRuntime}.
Import Messages Handler.

(** What the caller of [send_request] gets from a Response. *)
Definition response_outcome (resp : MCPResponse) : res dict :=
  match error resp with
  | Some err => Raise (MessageError ("RPC Error " +:+ pretty (code err) +:+ ": "
                                     +:+ message err))
  | None => Ok (params_or_empty (result resp))
  end.

(** An inbound message reaches the handler. *)
Definition deliver (raw : dict) (h : state) : state :=
  (process_message (JObj raw) h).1.

(** The last message a peer sent reaches the handler. *)
Definition deliver_last (hs : state) (hc : state) : state :=
  match last (outbox hs) with
  | Some m => deliver m hc
  | None => hc
  end.

(** No turn of the message loop over [inbound] is ended by an exception
    that is not an [Exception] (a cancellation). *)
Fixpoint turns_survive (inbound : list json) (h : state) : Prop :=
  match inbound with
  | [] => True
  | raw :: rest =>
      (∀ e, (process_message raw h).2 = Raise e → is_Exception e = true) ∧
      turns_survive rest (message_loop_step raw h).1
  end.

(** The state after one turn of the message loop for each message. *)
Definition processed (inbound : list json) (h : state) : state :=
  foldl (λ s raw, (message_loop_step raw s).1) h inbound.

(** What leaving the message loop makes of a state, and what the task
    ends with, when [receive_messages()] ended with [last]. *)
Definition loop_end (last : res unit) (h : state) : state * res unit :=
  match last with
  | Ok _ =>
      (set_message_task TaskDone (push_log "Message loop stopped" h), Ok tt)
  | Raise e =>
      if is_Exception e
      then (set_message_task TaskDone
              (push_log "Message loop stopped" (push_log "Message loop failed" h)),
            Ok tt)
      else (set_message_task TaskDone (push_log "Message loop stopped" h), Raise e)
  end.
End ConversationVocabulary.

Section StreamVocabulary.
Import Stdio.

(** The message a line of the stream gives: the mapping it decodes to. *)
Definition line_message (json_loads : string → res json) (line : string)
  : option json :=
  match json_loads line with
  | Ok (JObj d) => Some (JObj d)
  | _ => None
  end.

(** A line the stream loop survives: a mapping, or text that is not JSON. *)
Definition line_ok (json_loads : string → res json) (line : string) : bool :=
  match json_loads line with
  | Ok (JObj _) => true
  | Ok _ => false
  | Raise e => is_JSONDecodeError e
  end.

(** A message the receiver task passes by, for a given table: it has no
    id, a null or an integer id, or a string id that is not a key. *)
Definition passes_by (table : gmap string nat) (m : dict) : bool :=
  match m !! "id" with
  | None | Some JNull | Some (JInt _) => true
  | Some (JStr s) => bool_decide (table !! s = None)
  | _ => false
  end.
End StreamVocabulary.

(** * Properties of the message models *)

(** Lookups in dumped messages: maps built from inserts and singletons. *)
Ltac dump_lookup :=
  repeat first
    [ rewrite lookup_insert_eq
    | rewrite lookup_singleton_eq
    | rewrite lookup_insert_ne by done
    | rewrite lookup_singleton_ne by done ];
  try done.

Section MessageFacts.
Context `{PyRuntime}.
Import Messages.

Lemma model_post_init_ok r : model_post_init r = Ok tt ↔ exactly_one r.
Proof.
  unfold model_post_init, exactly_one.
  destruct (result r), (error r); split; intros Hx; try done.
  - destruct Hx as [[_ ?]|[? _]]; done.
  - left; eauto.
  - right; eauto.
  - destruct Hx as [[[] _]|[_ []]]; done.
Qed.

Lemma run_post_init_ok input r r' :
  run_post_init input r = Ok r' → r' = r ∧ exactly_one r.
Proof.
  unfold run_post_init. destruct (model_post_init r) as [[]|e] eqn:E.
  - intros [= <-]. split; [done|]. by apply model_post_init_ok.
  - by destruct e.
Qed.

Lemma run_post_init_raise input r :
  ¬ exactly_one r → ∃ msg, run_post_init input r = Raise (post_init_error msg input).
Proof.
  intros Hn. unfold run_post_init, model_post_init.
  destruct (result r) eqn:E1, (error r) eqn:E2; eauto.
  - exfalso. apply Hn. left. rewrite E1, E2. eauto.
  - exfalso. apply Hn. right. rewrite E1, E2. eauto.
Qed.

Lemma post_init_error_is_Exception msg input :
  is_Exception (post_init_error msg input) = true.
Proof.
  destruct (post_init_error_class msg input) as [-> | Hv]; [done|].
  by destruct (post_init_error msg input).
Qed.

Lemma MCPResponse_init_ok i r e resp :
  MCPResponse_init i r e = Ok resp →
  id_json (resp_id resp) = i ∧ error resp = e ∧
  r = from_option JObj JNull (result resp) ∧ exactly_one resp.
Proof.
  unfold MCPResponse_init, res_bind.
  destruct i; simpl; try done; destruct r; simpl; try done;
    intros [-> Hx]%run_post_init_ok; done.
Qed.

Lemma MCPResponse_init_error i err :
  MCPResponse_init (id_json i) JNull (Some err)
  = Ok {| resp_id := i; result := None; error := Some err |}.
Proof. by destruct i. Qed.

Lemma MCPResponse_init_result i r :
  MCPResponse_init (id_json i) (JObj r) None
  = Ok {| resp_id := i; result := Some r; error := None |}.
Proof. by destruct i. Qed.

Lemma MCPResponse_model_validate_ok raw resp :
  MCPResponse_model_validate raw = Ok resp →
  py_get raw "id" = id_json (resp_id resp) ∧ exactly_one resp.
Proof.
  unfold MCPResponse_model_validate, res_bind.
  destruct (validate_jsonrpc _ _ _); [|done].
  destruct (py_get raw "id"); simpl; try done;
    destruct (validate_opt_dict _ _ _); try done;
    destruct (validate_opt_error _ _ _); try done;
    intros [-> Hx]%run_post_init_ok; done.
Qed.

Lemma MCPRequest_model_validate_ok d req :
  MCPRequest_model_validate d = Ok req →
  py_get d "id" = id_json (req_id req) ∧ py_get d "method" = JStr (req_method req)
  ∧ py_in "id" d = true ∧ py_in "method" d = true.
Proof.
  unfold MCPRequest_model_validate, res_bind, py_in, py_get.
  destruct (validate_jsonrpc _ _ _); [|done].
  destruct (d !! "id") as [[]|] eqn:E1; simpl; try done;
  destruct (d !! "method") as [[]|] eqn:E2; simpl; try done;
  destruct (validate_opt_dict _ _ _); try done; intros [= <-]; simpl;
    repeat split; apply bool_decide_eq_true; eauto.
Qed.

Lemma MCPResponse_dump_id r : MCPResponse_dump r !! "id" = Some (id_json (resp_id r)).
Proof.
  unfold MCPResponse_dump, put_opt.
  destruct (error r), (result r); simpl; dump_lookup.
Qed.

Lemma MCPResponse_dump_result r :
  MCPResponse_dump r !! "result" = JObj <$> result r.
Proof.
  unfold MCPResponse_dump, put_opt.
  destruct (error r), (result r); simpl; dump_lookup.
Qed.

Lemma MCPResponse_dump_error r :
  MCPResponse_dump r !! "error" = (λ e, JObj (MCPError_dump e)) <$> error r.
Proof.
  unfold MCPResponse_dump, put_opt.
  destruct (error r), (result r); simpl; dump_lookup.
Qed.

Lemma MCPError_dump_code e : MCPError_dump e !! "code" = Some (JInt (code e)).
Proof. unfold MCPError_dump. destruct (data e); dump_lookup. Qed.

Lemma sent_error_code_dump r :
  Handler.sent_error_code (MCPResponse_dump r) = code <$> error r.
Proof.
  unfold Handler.sent_error_code. rewrite MCPResponse_dump_error.
  destruct (error r); simpl; [|done]. by rewrite MCPError_dump_code.
Qed.
End MessageFacts.

(** * Properties of the protocol handler *)

Section HandlerFacts.
Context `{PyRuntime}.
Import Messages Handler.
Local Open Scope handler_scope.

Lemma send_response_ok h i r e resp :
  running h = true → transport_fault h = None →
  MCPResponse_init i r e = Ok resp →
  send_response i r e h = (push_outbox (MCPResponse_dump resp) h, Ok tt).
Proof.
  intros Hr Hf Hi. unfold send_response, bind, get, lift, transport_send_message.
  rewrite Hr. simpl. rewrite Hi. by rewrite Hf.
Qed.

Lemma send_response_raise h i r e x :
  running h = true → MCPResponse_init i r e = Raise x →
  send_response i r e h = (h, Raise x).
Proof.
  intros Hr Hi. unfold send_response, bind, get, lift. rewrite Hr. simpl.
  by rewrite Hi.
Qed.

Lemma send_response_invalid h i r e :
  (∃ x, MCPResponse_init i r e = Raise x) →
  (send_response i r e h).1 = h ∧ ∃ x, (send_response i r e h).2 = Raise x.
Proof.
  intros [x Hi]. unfold send_response, bind, get, lift.
  destruct (running h); simpl; [rewrite Hi|]; eauto.
Qed.

Lemma send_error_response_ok h i c msg d :
  running h = true → transport_fault h = None →
  send_error_response (id_json i) c msg d h =
  (push_outbox (MCPResponse_dump
     {| resp_id := i; result := None;
        error := Some {| code := c; message := msg; data := d |} |}) h, Ok tt).
Proof. intros Hr Hf. destruct i; simpl; by apply send_response_ok. Qed.

Lemma send_error_response_none h c msg d :
  send_error_response JNull c msg d h = (h, Ok tt).
Proof. done. Qed.

(** C6: every constructed Response has exactly one of [result] and
    [error], whether built by the constructor or validated from a decoded
    mapping; building one with neither or with both raises, and
    [send_response] then hands nothing to the transport. *)
Theorem response_exactly_one_of (i r : json) (e : option MCPError) :
  (∀ resp, MCPResponse_init i r e = Ok resp → exactly_one resp) ∧
  (∀ raw resp, MCPResponse_model_validate raw = Ok resp → exactly_one resp) ∧
  ((r = JNull ∧ e = None) ∨ (r ≠ JNull ∧ e ≠ None) →
   (∃ x, MCPResponse_init i r e = Raise x) ∧
   ∀ h, (send_response i r e h).1 = h ∧ ∃ x, (send_response i r e h).2 = Raise x).
Proof.
  split; [|split].
  - intros resp Hi. by apply MCPResponse_init_ok in Hi as (_ & _ & _ & ?).
  - intros raw resp Hv. by apply MCPResponse_model_validate_ok in Hv as [_ ?].
  - intros Hbad.
    assert (∃ x, MCPResponse_init i r e = Raise x) as Hx.
    { destruct (MCPResponse_init i r e) as [resp|x] eqn:Hi; [|eauto].
      exfalso. apply MCPResponse_init_ok in Hi as (_ & He & Hr & Hone).
      destruct Hbad as [[-> ->]|[Hr' He']].
      - destruct Hone as [[[? Hs] _]|[_ [? Hs]]].
        + rewrite Hs in Hr. done.
        + rewrite Hs in He. done.
      - destruct Hone as [[_ Hs]|[Hs _]].
        + apply He'. by rewrite <-He.
        + apply Hr'. rewrite Hr, Hs. done. }
    split; [done|]. intros h. by apply send_response_invalid.
Qed.

(** C7: a Request whose method has no registered request handler is
    answered, on a running handler whose transport accepts the message,
    with one Response that echoes the id and carries the error code
    METHOD_NOT_FOUND (-32601). *)
Theorem unregistered_method_not_found d h req :
  running h = true → transport_fault h = None →
  json_is_str (py_get d "jsonrpc") "2.0" = true →
  MCPRequest_model_validate d = Ok req →
  request_handlers h !! req_method req = None →
  let out := process_message (JObj d) h in
  out.2 = Ok tt ∧
  ∃ m, outbox out.1 = outbox h ++ [m] ∧
       sent_error_code m = Some METHOD_NOT_FOUND ∧
       sent_error_code m = Some (-32601)%Z ∧
       m !! "id" = Some (id_json (req_id req)) ∧
       m = MCPResponse_dump (error_response (req_id req) METHOD_NOT_FOUND
                               ("Method '" +:+ req_method req +:+ "' not found")).
Proof.
  intros Hr Hf Hv Hreq Hno.
  destruct (MCPRequest_model_validate_ok _ _ Hreq) as (Hid & Hm & Hi1 & Hi2).
  unfold process_message, try_except, try_catch. rewrite Hv, Hi1, Hi2. simpl.
  unfold handle_request, try_except_validation, try_catch, bind, lift.
  rewrite Hreq. simpl. rewrite Hno.
  rewrite send_error_response_ok by done. simpl. split; [done|].
  eexists. split; [done|].
  rewrite sent_error_code_dump, MCPResponse_dump_id. done.
Qed.

(** What [send_response] raises when the constructor rejects its
    arguments is an [Exception]. *)
Lemma MCPResponse_init_raise_is_Exception i r e x :
  MCPResponse_init i r e = Raise x → is_Exception x = true.
Proof.
  unfold MCPResponse_init, res_bind, run_post_init, model_post_init.
  destruct i; simpl; try (by intros [= <-]);
    destruct r; simpl; try (by intros [= <-]);
    destruct e; simpl; try done; intros [= <-];
    apply post_init_error_is_Exception.
Qed.

(** The request path up to the call of a registered handler. *)
Lemma process_request_found d h req f :
  json_is_str (py_get d "jsonrpc") "2.0" = true →
  MCPRequest_model_validate d = Ok req →
  request_handlers h !! req_method req = Some f →
  process_message (JObj d) h =
  try_except
    (try_except_validation
       (try_except
          (result <~ await_callable f (params_or_empty (req_params req));;
           send_response (JStr (id_str (req_id req))) result None)
          (λ e, logger "Request handler failed";;;
                send_error_response (id_json (req_id req)) INTERNAL_ERROR
                  (exn_str e) None))
       (λ e, logger "Invalid request format";;;
             send_error_response (py_get d "id") INVALID_REQUEST
               "Invalid request format" None))
    (λ e, if is_ValidationError e then
            logger "Message validation failed";;;
            request_id <~ raw_get (JObj d) "id";;
            send_error_response request_id INVALID_REQUEST "Invalid request"
              (Some {[ "validation_errors" :=
                         match e with
                         | ValidationError model input => validation_errors model input
                         | _ => JNull
                         end ]})
          else
            logger "Message processing failed";;;
            request_id <~ raw_get (JObj d) "id";;
            send_error_response request_id INTERNAL_ERROR "Internal error" None)
    (push_log "Request received" h).
Proof.
  intros Hv Hreq Hf.
  destruct (MCPRequest_model_validate_ok _ _ Hreq) as (Hid & Hm & Hi1 & Hi2).
  unfold process_message. rewrite Hv, Hi1, Hi2. simpl.
  unfold handle_request, try_except, try_except_validation, try_catch.
  unfold bind at 1 2 3 4 5 6, lift, logger, modify, get. rewrite Hreq. simpl.
  rewrite Hf. done.
Qed.

(** C10: when the registered handler returns [None], the peer gets an
    error Response with code INTERNAL_ERROR and no success Response: the
    constructor rejects a Response with neither result nor error, and the
    handler-failure path answers. *)
Theorem handler_returning_none_internal_error d h req f :
  running h = true → transport_fault h = None →
  json_is_str (py_get d "jsonrpc") "2.0" = true →
  MCPRequest_model_validate d = Ok req →
  request_handlers h !! req_method req = Some f →
  f (params_or_empty (req_params req)) = HReturn JNull →
  let out := process_message (JObj d) h in
  out.2 = Ok tt ∧
  ∃ m msg, outbox out.1 = outbox h ++ [m] ∧
           m = MCPResponse_dump (error_response (req_id req) INTERNAL_ERROR msg) ∧
           sent_error_code m = Some INTERNAL_ERROR ∧
           m !! "result" = None.
Proof.
  intros Hr Hf Hv Hreq Hh Hnone. simpl.
  rewrite (process_request_found _ _ _ _ Hv Hreq Hh).
  unfold try_except, try_except_validation, try_catch, bind, await_callable.
  rewrite Hnone. simpl.
  destruct (MCPResponse_init (JStr (id_str (req_id req))) JNull None)
    as [resp|x] eqn:Hi.
  { apply MCPResponse_init_ok in Hi as (_ & He & Hres & Hone). exfalso.
    destruct Hone as [[[? Hs] _]|[_ [? Hs]]].
    - rewrite Hs in Hres. done.
    - rewrite Hs in He. done. }
  rewrite (send_response_raise _ _ _ _ x) by done.
  rewrite (MCPResponse_init_raise_is_Exception _ _ _ _ Hi).
  unfold logger, modify. rewrite send_error_response_ok by done. simpl.
  split; [done|]. eexists _, _. split; [done|]. split; [done|].
  rewrite sent_error_code_dump, MCPResponse_dump_result. done.
Qed.

(** C9 (amended): for a Request with integer id [n], the Response to a
    handler that returns a mapping carries the id as the decimal string
    of [n]; the error Response to a handler that raises carries the
    integer [n] itself. *)
Theorem response_id_string_on_success_integer_on_failure d h req f n :
  running h = true → transport_fault h = None →
  json_is_str (py_get d "jsonrpc") "2.0" = true →
  MCPRequest_model_validate d = Ok req →
  req_id req = IdInt n →
  request_handlers h !! req_method req = Some f →
  let out := process_message (JObj d) h in
  (∀ r, f (params_or_empty (req_params req)) = HReturn (JObj r) →
     out.2 = Ok tt ∧
     ∃ m, outbox out.1 = outbox h ++ [m] ∧
          m !! "id" = Some (JStr (pretty n)) ∧
          m !! "result" = Some (JObj r) ∧ m !! "error" = None) ∧
  (∀ e, f (params_or_empty (req_params req)) = HRaise e → is_Exception e = true →
     out.2 = Ok tt ∧
     ∃ m, outbox out.1 = outbox h ++ [m] ∧
          m !! "id" = Some (JInt n) ∧
          sent_error_code m = Some INTERNAL_ERROR ∧
          m = MCPResponse_dump (error_response (IdInt n) INTERNAL_ERROR (exn_str e))).
Proof.
  intros Hr Hf Hv Hreq Hid Hh. simpl.
  rewrite (process_request_found _ _ _ _ Hv Hreq Hh), Hid.
  unfold try_except, try_except_validation, try_catch, bind, await_callable.
  split.
  - intros r Hret. rewrite Hret. simpl.
    rewrite (send_response_ok (push_log "Request received" h)
               (JStr (pretty n)) (JObj r) None _ Hr Hf
               (MCPResponse_init_result (IdStr (pretty n)) r)).
    simpl. split; [done|]. eexists. split; [done|].
    rewrite MCPResponse_dump_id, MCPResponse_dump_result, MCPResponse_dump_error.
    done.
  - intros e Hraise He. rewrite Hraise. simpl. rewrite He.
    unfold logger, modify.
    unshelve erewrite (send_response_ok _ (JInt n) JNull (Some _) _ _ _
                         (MCPResponse_init_error (IdInt n) _)); try done.
    simpl.
    split; [done|]. eexists. split; [done|].
    rewrite MCPResponse_dump_id, sent_error_code_dump. done.
Qed.

(** A mapping whose version field is absent or wrong is answered, when
    its id is a string or an integer, through the general
    [except Exception] clause: the code sent is INTERNAL_ERROR. *)
Lemma version_mismatch_response d h i :
  running h = true → transport_fault h = None →
  json_is_str (py_get d "jsonrpc") "2.0" = false →
  py_get d "id" = id_json i →
  process_message (JObj d) h =
  (push_outbox (MCPResponse_dump (error_response i INTERNAL_ERROR "Internal error"))
     (push_log "Message processing failed" h), Ok tt).
Proof.
  intros Hr Hf Hv Hid.
  unfold process_message, try_except, try_catch. rewrite Hv. simpl.
  unfold bind, logger, modify, raw_get, ret. simpl. rewrite Hid.
  by rewrite send_error_response_ok.
Qed.

(** With no id to answer to, such a mapping is dropped. *)
Lemma version_mismatch_dropped d h :
  json_is_str (py_get d "jsonrpc") "2.0" = false →
  py_get d "id" = JNull →
  process_message (JObj d) h = (push_log "Message processing failed" h, Ok tt).
Proof.
  intros Hv Hid.
  unfold process_message, try_except, try_catch. rewrite Hv. simpl.
  unfold bind, logger, modify, raw_get, ret. simpl. by rewrite Hid.
Qed.

(** C1 (code at the failing input): the mapping [{"id": 7}], with no
    version field and no method, is answered with one error Response that
    echoes id 7 and carries code INTERNAL_ERROR (-32603), which is not
    INVALID_REQUEST (-32600). *)
Theorem missing_version_answered_with_internal_error :
  let out := process_message (JObj {[ "id" := JInt 7 ]}) started in
  out.2 = Ok tt ∧
  outbox out.1 =
    [MCPResponse_dump (error_response (IdInt 7) INTERNAL_ERROR "Internal error")] ∧
  sent_error_code <$> outbox out.1 = [Some (-32603)%Z] ∧
  (λ m : dict, m !! "id") <$> outbox out.1 = [Some (JInt 7)] ∧
  sent_error_code <$> outbox out.1 ≠ [Some INVALID_REQUEST].
Proof.
  simpl. rewrite (version_mismatch_response _ _ (IdInt 7)) by done. simpl.
  rewrite sent_error_code_dump, MCPResponse_dump_id. done.
Qed.

Lemma MCPNotification_model_validate_ok d n :
  MCPNotification_model_validate d = Ok n → py_in "method" d = true.
Proof.
  unfold MCPNotification_model_validate, res_bind, py_in, py_get.
  destruct (validate_jsonrpc _ _ _); [|done].
  destruct (d !! "method") as [[]|]; simpl; try done;
    intros _; apply bool_decide_eq_true; eauto.
Qed.

(** [_handle_notification] hands nothing to the transport. *)
Lemma handle_notification_silent d h :
  outbox (handle_notification d h).1 = outbox h.
Proof.
  unfold handle_notification, try_except_validation, try_except, try_catch,
    bind, lift, logger, modify, get, await_callable, ret, raise.
  destruct (MCPNotification_model_validate d) as [n|e]; simpl.
  - destruct (notification_handlers h !! ntf_method n) as [f|]; simpl; [|done].
    destruct (f _) as [v|e]; simpl; [done|].
    destruct (is_Exception e) eqn:He; simpl; [done|].
    by destruct e.
  - by destruct (is_ValidationError e).
Qed.

(** C5: a message without an id is never answered.  For a Notification
    in particular: with no handler registered the message is logged and
    discarded, and an exception raised by the registered handler is
    logged and swallowed; neither reaches the peer or the caller. *)
Theorem notification_never_answered d h :
  d !! "id" = None →
  let out := process_message (JObj d) h in
  outbox out.1 = outbox h ∧
  (∀ n, json_is_str (py_get d "jsonrpc") "2.0" = true →
        MCPNotification_model_validate d = Ok n →
     (notification_handlers h !! ntf_method n = None →
        out = (push_log "No handler for notification"
                 (push_log "Notification received" h), Ok tt)) ∧
     (∀ f e, notification_handlers h !! ntf_method n = Some f →
             f (params_or_empty (ntf_params n)) = HRaise e →
             is_Exception e = true →
        out = (push_log "Notification handler failed"
                 (push_log "Notification received" h), Ok tt))).
Proof.
  intros Hid. simpl.
  assert (py_in "id" d = false) as Hin.
  { unfold py_in. rewrite Hid. apply bool_decide_eq_false. by intros [? ?]. }
  assert (py_get d "id" = JNull) as Hget by (unfold py_get; by rewrite Hid).
  split.
  - unfold process_message, try_except, try_catch.
    destruct (json_is_str (py_get d "jsonrpc") "2.0") eqn:Hv; simpl.
    + rewrite Hin. destruct (py_in "method" d) eqn:Hm.
      * pose proof (handle_notification_silent d h) as Hs.
        destruct (handle_notification d h) as [h' [[]|e]] eqn:Hn; simpl in *; [done|].
        destruct (is_Exception e); simpl; [|done].
        destruct (is_ValidationError e);
          unfold bind, logger, modify, raw_get, ret; simpl; by rewrite Hget.
      * unfold bind, logger, modify, raw_get, ret; simpl. by rewrite Hget.
    + unfold bind, logger, modify, raw_get, ret; simpl. by rewrite Hget.
  - intros n Hv Hn.
    pose proof (MCPNotification_model_validate_ok _ _ Hn) as Hm.
    unfold process_message. rewrite Hv, Hin, Hm. simpl.
    unfold handle_notification, try_except_validation, try_except, try_catch,
      bind, lift, logger, modify, get, await_callable, ret, raise.
    rewrite Hn. simpl. split.
    + intros Hnone. simpl in Hnone. by rewrite Hnone.
    + intros f e Hsome Hraise He. simpl in Hsome. rewrite Hsome, Hraise.
      simpl. by rewrite He.
Qed.

(** ** [stop] and the futures of the correlation table *)

Lemma fail_spec_idemp o : fail_spec (fail_spec o) = fail_spec o.
Proof. by destruct o as [[]|]. Qed.

Lemma fail_if_pending_lookup b fs a :
  fail_if_pending b fs !! a
  = if decide (a = b) then fail_spec (fs !! a) else fs !! a.
Proof.
  unfold fail_if_pending, fail_spec, stopped_error.
  destruct (decide (a = b)) as [->|Hne].
  - destruct (fs !! b) as [[]|] eqn:E; rewrite ?lookup_insert_eq, ?E; done.
  - destruct (fs !! b) as [[]|] eqn:E; try done.
    by rewrite lookup_insert_ne.
Qed.

Lemma cancel_list_lookup (l : list (string * nat)) fs a :
  foldr (λ ka, fail_if_pending ka.2) fs l !! a
  = if decide (a ∈ l.*2) then fail_spec (fs !! a) else fs !! a.
Proof.
  induction l as [|[k b] l IH].
  - rewrite decide_False; [done|]. apply not_elem_of_nil.
  - rewrite fmap_cons. cbn [foldr snd].
    rewrite fail_if_pending_lookup, IH.
    destruct (decide (a = b)) as [->|Hne].
    + rewrite (decide_True (P := b ∈ b :: l.*2)) by (apply elem_of_cons; by left).
      destruct (decide (b ∈ l.*2)); [apply fail_spec_idemp|done].
    + destruct (decide (a ∈ l.*2)) as [Hin|Hnin].
      * rewrite (decide_True (P := a ∈ b :: l.*2)) by (apply elem_of_cons; by right).
        done.
      * rewrite (decide_False (P := a ∈ b :: l.*2)); [done|].
        intros [?|?]%elem_of_cons; done.
Qed.

Lemma cancel_pending_hit table fs k a :
  table !! k = Some a →
  cancel_pending table fs !! a = fail_spec (fs !! a).
Proof.
  intros Hk. unfold cancel_pending. rewrite cancel_list_lookup.
  rewrite decide_True; [done|].
  apply list_elem_of_fmap. exists (k, a). split; [done|].
  by apply elem_of_map_to_list.
Qed.

Lemma cancel_pending_other table fs a :
  cancel_pending table fs !! a = fs !! a ∨
  cancel_pending table fs !! a = fail_spec (fs !! a).
Proof.
  unfold cancel_pending. rewrite cancel_list_lookup. case_decide; eauto.
Qed.

(** Ending the loop task touches the task and the log only. *)
Lemma cancel_message_task_keeps h :
  (cancel_message_task h).2 = Ok tt ∧
  running (cancel_message_task h).1 = running h ∧
  pending_requests (cancel_message_task h).1 = pending_requests h ∧
  futures (cancel_message_task h).1 = futures h ∧
  next_future (cancel_message_task h).1 = next_future h ∧
  outbox (cancel_message_task h).1 = outbox h ∧
  (match message_task h with
   | TaskActive | TaskCreated => False
   | _ => True
   end → cancel_message_task h = (h, Ok tt)).
Proof.
  unfold cancel_message_task, bind, get, modify, logger, ret.
  by destruct (message_task h).
Qed.

Lemma stop_running h :
  running h = true →
  stop h =
  (push_log "Protocol handler stopped"
     (set_pending (λ _, ∅)
        (set_futures (cancel_pending (pending_requests h)) (next_future h)
           (cancel_message_task (set_running false (message_task h) h)).1)), Ok tt).
Proof.
  intros Hr. unfold stop, bind, get, modify, logger. rewrite Hr. cbn [negb].
  destruct (cancel_message_task_keeps (set_running false (message_task h) h))
    as (Hok & _ & Hp & _ & Hn & _).
  destruct (cancel_message_task _) as [h' r]. simpl in *. by rewrite Hok, Hp, Hn.
Qed.

(** ** [send_request] *)

Lemma send_request_sent method params timeout others h :
  running h = true → transport_fault h = None →
  send_request method params timeout others h =
  let key := pretty (sequence_number h + 1)%Z in
  let s := others (suspended method params h) in
  match futures s !! next_future h with
  | Some (Resolved v) => (set_pending (delete key) s, Ok v)
  | Some (Failed e) =>
      if is_TimeoutError e
      then (set_pending (delete key) (push_log "Request timeout" s),
            Raise (timeout_error method timeout))
      else (set_pending (delete key) s, Raise e)
  | Some Pending =>
      (set_pending (delete key)
         (push_log "Request timeout"
            (set_futures (<[next_future h := Cancelled]>) (next_future s) s)),
       Raise (timeout_error method timeout))
  | Some Cancelled | None => (set_pending (delete key) s, Raise CancelledError)
  end.
Proof.
  intros Hr Hf.
  unfold send_request, wait_for, next_sequence_number, new_future, logger,
    try_finally, try_except_timeout, try_catch.
  unfold bind, get, modify, ret, raise, transport_send_message.
  rewrite Hr. simpl. rewrite Hf. simpl.
  fold (suspended method params h).
  destruct (futures (others (suspended method params h)) !! next_future h)
    as [[| v | e |]|]; simpl; try done.
  by destruct (is_TimeoutError e).
Qed.

Lemma send_request_not_running method params timeout others h :
  running h = false →
  send_request method params timeout others h
  = (h, Raise (MessageError "Protocol handler not running")).
Proof. intros Hr. unfold send_request, bind, get. by rewrite Hr. Qed.

(** While the caller is suspended its id is in the table, bound to the
    fresh pending future. *)
Lemma suspended_entry method params h :
  pending_requests (suspended method params h) !! pretty (sequence_number h + 1)%Z
  = Some (next_future h) ∧
  futures (suspended method params h) !! next_future h = Some Pending ∧
  running (suspended method params h) = running h.
Proof.
  unfold suspended. simpl. by rewrite !lookup_insert_eq.
Qed.

(** Whatever happens, [send_request] leaves without its id in the table. *)
Lemma send_request_cleanup method params timeout others h :
  running h = true →
  pending_requests (send_request method params timeout others h).1
    !! pretty (sequence_number h + 1)%Z = None.
Proof.
  intros Hr. unfold send_request, next_sequence_number, new_future, try_finally.
  unfold bind, get, modify, ret. rewrite Hr. simpl.
  match goal with |- context [try_except_timeout ?m ?k ?s] =>
    destruct (try_except_timeout m k s) as [h' r] end.
  simpl. apply lookup_delete_eq.
Qed.

(** C3: a [send_request] whose future nobody completes before the
    deadline raises a timeout error that names the method and the
    duration; and on every way out of [send_request] (result, failure,
    timeout, failed send) its id is no longer in the correlation table. *)
Theorem send_request_timeout_and_cleanup method params timeout others h :
  running h = true →
  let out := send_request method params timeout others h in
  pending_requests out.1 !! pretty (sequence_number h + 1)%Z = None ∧
  (transport_fault h = None →
   (∀ s, futures s !! next_future h = Some Pending →
         futures (others s) !! next_future h = Some Pending) →
   out.2 = Raise (MessageError ("Request " +:+ method +:+ " timed out after "
                                +:+ duration_str timeout +:+ "s"))).
Proof.
  intros Hr. simpl. split; [by apply send_request_cleanup|].
  intros Hf Hkeep. rewrite send_request_sent by done. simpl.
  rewrite (Hkeep _ (proj1 (proj2 (suspended_entry method params h)))). done.
Qed.

(** C4: [stop] on a running handler fails every future of the table that
    is still pending with the "Protocol handler stopped" error and
    empties the table; a caller suspended in [send_request] is woken by
    that error and raises it. *)
Theorem stop_fails_pending_requests h :
  running h = true →
  let h' := (stop h).1 in
  running h' = false ∧
  pending_requests h' = ∅ ∧
  (∀ k a, pending_requests h !! k = Some a → futures h !! a = Some Pending →
          futures h' !! a = Some (Failed (MessageError "Protocol handler stopped"))) ∧
  (∀ method params timeout, transport_fault h = None →
     (send_request method params timeout (λ s, (stop s).1) h).2
     = Raise (MessageError "Protocol handler stopped")).
Proof.
  intros Hr. cbv zeta. rewrite stop_running by done.
  destruct (cancel_message_task_keeps (set_running false (message_task h) h))
    as (_ & Hrun & _ & Hfs & _).
  cbn [fst running pending_requests futures push_log set_pending set_futures].
  rewrite Hrun, Hfs. cbn [running futures set_running].
  split; [done|]. split; [done|]. split.
  - intros k a Hk Ha. rewrite (cancel_pending_hit _ _ k) by done.
    by rewrite Ha.
  - intros method params timeout Hf.
    rewrite send_request_sent by done. cbv zeta.
    destruct (suspended_entry method params h) as (Hk & Ha & Hrun').
    rewrite stop_running by (by rewrite Hrun').
    destruct (cancel_message_task_keeps
                (set_running false (message_task (suspended method params h))
                   (suspended method params h))) as (_ & _ & _ & Hfs' & _).
    cbn [fst futures push_log set_pending set_futures].
    rewrite Hfs'. cbn [futures set_running].
    rewrite (cancel_pending_hit _ _ _ _ Hk), Ha. done.
Qed.

(** ** Correlation of inbound Responses *)

Lemma py_get_id_in d k i : py_get d k = id_json i → py_in k d = true.
Proof.
  unfold py_get, py_in. intros Hk. apply bool_decide_eq_true.
  destruct (d !! k); [eauto|]. by destruct i.
Qed.

(** An inbound Response is looked up under [str(response.id)]. *)
Lemma process_response_lookup raw h resp a :
  json_is_str (py_get raw "jsonrpc") "2.0" = true →
  raw !! "method" = None →
  MCPResponse_model_validate raw = Ok resp →
  pending_requests h !! id_str (resp_id resp) = Some a →
  futures h !! a = Some Pending →
  process_message (JObj raw) h =
  (set_futures (<[a := completion resp]>) (next_future h)
     (push_log "Response received" h), Ok tt).
Proof.
  intros Hv Hm Hresp Hk Ha.
  destruct (MCPResponse_model_validate_ok _ _ Hresp) as [Hid _].
  assert (py_in "method" raw = false) as Hin.
  { unfold py_in. rewrite Hm. apply bool_decide_eq_false. by intros [? ?]. }
  unfold process_message. rewrite Hv, (py_get_id_in _ _ _ Hid), Hin. simpl.
  unfold handle_response, complete_future, try_except, try_except_validation,
    try_catch, logger.
  unfold bind, lift, get, modify. rewrite Hresp. simpl.
  rewrite Hk, Ha. unfold completion. by destruct (error resp).
Qed.
End HandlerFacts.

(** * Properties of the transport base class *)

Section TransportFacts.
Context `{PyRuntime}.
Import Transport.

(** An integer id is in no table: the keys are strings. *)
Lemma handle_response_integer_id message t n :
  py_get message "id" = JInt n →
  handle_response message t = (t, Ok tt).
Proof.
  intros Hid. unfold handle_response. rewrite Hid. simpl.
  by destruct (negb (bool_decide (n = 0%Z))).
Qed.

(** A string id is looked up as it is. *)
Lemma handle_response_string_id message t key a :
  py_get message "id" = JStr key → key ≠ "" →
  pending_requests t !! key = Some a →
  futures t !! a = Some Pending →
  message !! "error" = None →
  handle_response message t =
  (set_futures (<[a := Resolved (default (JObj ∅) (message !! "result"))]>)
     (next_future t) t, Ok tt).
Proof.
  intros Hid Hne Hk Ha He. unfold handle_response, complete. rewrite Hid. simpl.
  rewrite bool_decide_eq_false_2 by done. simpl. by rewrite Hk, He, Ha.
Qed.
End TransportFacts.

(** * Correlation ids in the handler and in the transport base class *)

Lemma pretty_N_go_nonempty (x : N) (s : string) : s ≠ "" → pretty_N_go x s ≠ "".
Proof.
  revert s. induction (N.lt_wf_0 x) as [x _ IH]; intros s Hs.
  assert (x = 0 ∨ 0 < x)%N as [->|Hpos] by lia.
  - by rewrite pretty_N_go_0.
  - rewrite pretty_N_go_step by done. apply IH; [by apply N.div_lt|done].
Qed.

(** The decimal numeral of an integer is not the empty string. *)
Lemma pretty_Z_nonempty (n : Z) : pretty n ≠ "".
Proof.
  destruct n as [|p|p]; [done| |done].
  unfold pretty, pretty_Z, pretty, pretty_positive, pretty, pretty_N.
  rewrite decide_False by done.
  rewrite pretty_N_go_step by lia. by apply pretty_N_go_nonempty.
Qed.

Section Correlation.
Context `{PyRuntime}.
Import Messages.

(** C2: the protocol handler keys its table of pending requests by
    [str(id)], both when [send_request] inserts and when
    [_handle_response] looks up.  A Response that carries the id
    [send_request] allocated, as the integer or as its decimal string,
    names the slot [send_request] filled, completes the future in it, and
    the caller gets the outcome of that Response. *)
Theorem pending_request_id_canonical method params timeout h raw resp :
  Handler.running h = true → Handler.transport_fault h = None →
  json_is_str (py_get raw "jsonrpc") "2.0" = true →
  raw !! "method" = None →
  MCPResponse_model_validate raw = Ok resp →
  resp_id resp = IdInt (Handler.sequence_number h + 1)%Z ∨
  resp_id resp = IdStr (pretty (Handler.sequence_number h + 1)%Z) →
  let waiting := suspended method params h in
  Handler.pending_requests waiting !! id_str (resp_id resp)
  = Some (Handler.next_future h) ∧
  Handler.futures (Handler.process_message (JObj raw) waiting).1
    !! Handler.next_future h
  = Some (completion resp) ∧
  (Handler.send_request method params timeout
     (λ s, (Handler.process_message (JObj raw) s).1) h).2
  = match error resp with
    | Some err => Raise (MessageError ("RPC Error " +:+ pretty (code err) +:+ ": "
                                       +:+ message err))
    | None => Ok (Handler.params_or_empty (result resp))
    end.
Proof.
  intros Hr Hf Hv Hm Hresp Hid waiting.
  destruct (suspended_entry method params h) as (Hk & Ha & _).
  assert (Handler.pending_requests waiting !! id_str (resp_id resp)
          = Some (Handler.next_future h)) as Hk'.
  { by destruct Hid as [-> | ->]. }
  split; [exact Hk'|].
  assert (Handler.futures (Handler.process_message (JObj raw) waiting).1
            !! Handler.next_future h = Some (completion resp)) as Hdone.
  { rewrite (process_response_lookup _ _ _ _ Hv Hm Hresp Hk' Ha).
    cbn [fst Handler.futures Handler.set_futures]. apply lookup_insert_eq. }
  split; [exact Hdone|].
  rewrite send_request_sent by done. cbn zeta. fold waiting.
  rewrite Hdone. unfold completion. by destruct (error resp).
Qed.

(** X27: the transport base class keeps its own table, keyed by the
    string ids it allocates, and [_handle_response] looks the received id
    up as it is.  A Response with the allocated id as a string completes
    the request; the same Response with the id as an integer is passed
    over, and the caller of [send_request] runs into its timeout. *)
Theorem transport_lookup_takes_id_as_received method params timeout t message :
  Transport.closed t = false → Transport.send_fault t = None →
  message !! "error" = None →
  (py_get message "id" = JStr (pretty (Transport.message_id t + 1)%Z) →
   (Transport.send_request method params timeout
      (λ s, (Transport.handle_response message s).1) t).2
   = Ok (default (JObj ∅) (message !! "result"))) ∧
  (py_get message "id" = JInt (Transport.message_id t + 1)%Z →
   (Transport.send_request method params timeout
      (λ s, (Transport.handle_response message s).1) t).2
   = Raise (MessageError ("Request " +:+ method +:+ " timed out after "
                          +:+ duration_str timeout +:+ "s"))).
Proof.
  intros Hc Hf He.
  unfold Transport.send_request, Transport.next_message_id,
    Transport.send_message.
  rewrite Hc. cbn. rewrite Hf. split; intros Hid.
  - erewrite handle_response_string_id; eauto using pretty_Z_nonempty;
      cbn; rewrite ?lookup_insert_eq; try done.
    unfold Transport.wait_for. cbn. by rewrite lookup_insert_eq.
  - erewrite handle_response_integer_id by done.
    unfold Transport.wait_for. cbn. by rewrite lookup_insert_eq.
Qed.
End Correlation.

(** * Properties of the polling loop *)

Section HttpFacts.
Context `{PyRuntime}.
Import Http.

Lemma sleeps_until_poll_app evs rest :
  forallb (λ ev, negb (is_poll ev)) evs = true → at_poll rest →
  sleeps_until_poll (evs ++ rest) = sleeps_of evs.
Proof.
  intros Hq Hrest. induction evs as [|ev evs IH]; simpl in *.
  - by destruct rest as [|[] ?].
  - apply andb_prop in Hq as [Hev Hq]. destruct ev; simpl in *; auto; [done|].
    by rewrite IH.
Qed.

Lemma sleeps_after_polls_app evs rest :
  forallb (λ ev, negb (is_poll ev)) evs = true →
  sleeps_after_polls (evs ++ rest) = sleeps_after_polls rest.
Proof.
  intros Hq. induction evs as [|ev evs IH]; simpl in *; [done|].
  apply andb_prop in Hq as [Hev Hq]. destruct ev; simpl in *; auto. done.
Qed.

Lemma sleeps_of_app evs evs' :
  sleeps_of (evs ++ evs') = sleeps_of evs ++ sleeps_of evs'.
Proof.
  induction evs as [|ev evs IH]; simpl; [done|]. destruct ev; simpl; by rewrite ?IH.
Qed.

Lemma yielded_app tr tr' : yielded (tr ++ tr') = yielded tr ++ yielded tr'.
Proof. unfold yielded. apply omap_app. Qed.

(** Yielding a list of mappings: no poll, no sleep, every message. *)
Lemma yield_all_dicts l :
  forallb is_dict l = true →
  ∃ evs, yield_all l = (evs, Ok tt) ∧
         forallb (λ ev, negb (is_poll ev)) evs = true ∧
         sleeps_of evs = [] ∧ yielded evs = l.
Proof.
  induction l as [|v l IH]; simpl; intros Hd.
  - by exists [].
  - apply andb_prop in Hd as [Hv Hd]. destruct v; try done.
    destruct (IH Hd) as (evs & -> & Hq & Hs & Hy).
    eexists. split; [done|]. simpl. rewrite Hq, Hs.
    repeat split. unfold yielded in *. simpl. by rewrite Hy.
Qed.

Lemma receive_loop_at_poll interval polls : at_poll (receive_loop interval polls).1.
Proof.
  destruct polls as [|p polls]; simpl; [done|].
  destruct p as [data|e].
  - destruct (messages_of data) as [m|]; [|by destruct (receive_failed _)].
    destruct (iterate m) as [l|]; [|by destruct (receive_failed _)].
    destruct (yield_all l) as [evs [[]|]].
    + by destruct (receive_loop interval polls).
    + by destruct (receive_failed _).
  - destruct (is_HTTPError e).
    + by destruct (receive_loop interval polls).
    + by destruct (receive_failed _).
Qed.

Lemma sleeps_after_poll_step evs tr :
  forallb (λ ev, negb (is_poll ev)) evs = true → at_poll tr →
  sleeps_after_polls (EvPoll :: evs ++ tr) = sleeps_of evs :: sleeps_after_polls tr.
Proof.
  intros Hq Htr. simpl.
  by rewrite sleeps_until_poll_app, sleeps_after_polls_app.
Qed.

(** C8 (amended): as long as every poll either fails with an HTTP error
    or returns a well-shaped body, the loop goes on until the transport
    is closed and yields every message.  After a poll that failed or
    returned no message it sleeps once, for the configured poll interval
    (one second when none is configured), before the next poll; after a
    poll that returned messages the next poll follows with no sleep. *)
Theorem polling_sleeps_after_idle_polls_only cfg polls :
  forallb poll_ok polls = true →
  let out := receive_messages cfg true polls in
  out.2 = Ok tt ∧
  sleeps_after_polls out.1
  = (λ p, if delivers p then [] else [poll_interval cfg]) <$> polls ∧
  yielded out.1 = mjoin ((λ p, default [] (poll_messages p)) <$> polls).
Proof.
  unfold receive_messages. simpl. generalize (poll_interval cfg) as interval.
  intros interval. induction polls as [|p polls IH]; [done|].
  intros [Hp Hall]%andb_prop. specialize (IH Hall).
  pose proof (receive_loop_at_poll interval polls) as Hat.
  cbn [receive_loop fmap list_fmap mjoin list_join].
  destruct (receive_loop interval polls) as [tr r]. simpl in IH, Hat.
  destruct IH as (-> & IHs & IHy).
  destruct p as [data|e]; simpl in Hp.
  - apply bool_decide_eq_true in Hp as [l Hl].
    unfold poll_messages, delivers in *.
    destruct (messages_of data) as [m|]; [|done].
    destruct (iterate m) as [l'|]; [|done].
    destruct (forallb is_dict l') eqn:Hd; [|done]. injection Hl as ->.
    destruct (yield_all_dicts _ Hd) as (evs & -> & Hq & Hs & Hy).
    cbn [fst snd default]. split; [done|].
    assert (forallb (λ ev, negb (is_poll ev))
              (evs ++ if py_truthy m then [] else [EvSleep interval]) = true) as Hq'.
    { rewrite forallb_app, Hq. by destruct (py_truthy m). }
    split.
    + rewrite sleeps_after_poll_step, sleeps_of_app, Hs, IHs by done.
      by destruct (py_truthy m).
    + change (EvPoll :: ?a ++ tr) with ([EvPoll] ++ a ++ tr).
      rewrite !yielded_app, Hy, IHy.
      destruct (py_truthy m); simpl; by rewrite ?app_nil_r.
  - rewrite Hp. cbn [fst snd]. split; [done|]. split.
    + rewrite sleeps_after_poll_step by done. simpl. by rewrite IHs.
    + done.
Qed.
End HttpFacts.

(** * The theorems at concrete inputs *)

Section Instances.
Import Messages Handler.
Local Existing Instance reference_runtime.

(** Neither result nor error: the constructor raises and nothing is sent. *)
Lemma response_exactly_one_of_witness :
  (∃ x, MCPResponse_init (JInt 1) JNull None = Raise x) ∧
  (send_response (JInt 1) JNull None started).1 = started.
Proof.
  destruct (response_exactly_one_of (JInt 1) JNull None) as (_ & _ & Hbad).
  destruct Hbad as [Hx Hs]; [by left|].
  split; [exact Hx | exact (proj1 (Hs started))].
Defined.

Lemma unregistered_method_not_found_witness :
  let out := process_message (JObj (request_5 "nope")) started in
  out.2 = Ok tt ∧
  ∃ m, outbox out.1 = [m] ∧ sent_error_code m = Some (-32601)%Z.
Proof.
  destruct (unregistered_method_not_found (request_5 "nope") started
              (request_5_model "nope")) as (Hok & m & Hout & _ & Hcode & _);
    [reflexivity..|].
  split; [exact Hok|]. exists m. split; [exact Hout | exact Hcode].
Defined.

Lemma handler_returning_none_internal_error_witness :
  let h := with_handler "tools/list" (λ _, HReturn JNull) in
  let out := process_message (JObj (request_5 "tools/list")) h in
  ∃ m, outbox out.1 = [m] ∧ sent_error_code m = Some (-32603)%Z ∧
       m !! "result" = None.
Proof.
  destruct (handler_returning_none_internal_error (request_5 "tools/list")
              (with_handler "tools/list" (λ _, HReturn JNull))
              (request_5_model "tools/list") (λ _, HReturn JNull))
    as (_ & m & msg & Hout & _ & Hcode & Hres); [reflexivity..|].
  exists m. split; [exact Hout|]. split; [exact Hcode | exact Hres].
Defined.

Lemma response_id_string_on_success_integer_on_failure_witness :
  (let out := process_message (JObj (request_5 "ok"))
                (with_handler "ok" (λ _, HReturn (JObj ∅))) in
   ∃ m, outbox out.1 = [m] ∧ m !! "id" = Some (JStr "5")) ∧
  (let out := process_message (JObj (request_5 "boom"))
                (with_handler "boom" (λ _, HRaise (OtherError "RuntimeError" "bad"))) in
   ∃ m, outbox out.1 = [m] ∧ m !! "id" = Some (JInt 5)).
Proof.
  split.
  - destruct (response_id_string_on_success_integer_on_failure
                (request_5 "ok") (with_handler "ok" (λ _, HReturn (JObj ∅)))
                (request_5_model "ok") (λ _, HReturn (JObj ∅)) 5)
      as [Hs _]; [reflexivity..|].
    destruct (Hs ∅ eq_refl) as (_ & m & Hout & Hid & _).
    exists m. split; [exact Hout | exact Hid].
  - destruct (response_id_string_on_success_integer_on_failure
                (request_5 "boom")
                (with_handler "boom" (λ _, HRaise (OtherError "RuntimeError" "bad")))
                (request_5_model "boom")
                (λ _, HRaise (OtherError "RuntimeError" "bad")) 5)
      as [_ Hf]; [reflexivity..|].
    destruct (Hf _ eq_refl eq_refl) as (_ & m & Hout & Hid & _).
    exists m. split; [exact Hout | exact Hid].
Defined.

(** The claim of C9 fails where the handler raises: the error Response
    to the Request with integer id 5 carries the integer 5, not the
    string "5". *)
Lemma failing_handler_echoes_integer_id :
  let out := process_message (JObj (request_5 "boom"))
               (with_handler "boom" (λ _, HRaise (OtherError "RuntimeError" "bad"))) in
  ∃ m, outbox out.1 = [m] ∧ m !! "id" = Some (JInt 5) ∧
       m !! "id" ≠ Some (JStr (pretty 5%Z)).
Proof.
  eexists. split; [by vm_compute|]. split; [by vm_compute|].
  by vm_compute.
Qed.

Lemma notification_never_answered_witness :
  let h := set_notification_handlers
             (<["notifications/progress" := failing_callable]>) started in
  (process_message (JObj progress_notification) started).2 = Ok tt ∧
  outbox (process_message (JObj progress_notification) started).1 = [] ∧
  (process_message (JObj progress_notification) h).2 = Ok tt ∧
  outbox (process_message (JObj progress_notification) h).1 = [].
Proof.
  set (h := set_notification_handlers
              (<["notifications/progress" := failing_callable]>) started).
  set (n := {| ntf_method := "notifications/progress"; ntf_params := None |}).
  destruct (notification_never_answered progress_notification started eq_refl)
    as [Hout Hn].
  destruct (Hn n eq_refl eq_refl) as [Hnone _].
  destruct (notification_never_answered progress_notification h eq_refl)
    as [Hout' Hn'].
  destruct (Hn' n eq_refl eq_refl) as [_ Hraise].
  split; [exact (f_equal snd (Hnone eq_refl))|]. split; [exact Hout|].
  split; [exact (f_equal snd (Hraise failing_callable _ eq_refl eq_refl eq_refl))|].
  exact Hout'.
Defined.

(** Nobody answers: the caller is woken by the deadline. *)
Lemma send_request_timeout_and_cleanup_witness :
  let out := send_request (H := reference_runtime)
               "slow" None "0.05" (λ s, s) started in
  pending_requests out.1 !! "1" = None ∧
  out.2 = Raise (MessageError "Request slow timed out after 0.05s").
Proof.
  destruct (send_request_timeout_and_cleanup (H := reference_runtime)
              "slow" None "0.05" (λ s, s) started eq_refl) as [Hclean Htimeout].
  split; [exact Hclean|]. exact (Htimeout eq_refl (λ s Hs, Hs)).
Defined.

(** [stop] while one request is outstanding. *)
Lemma stop_fails_pending_requests_witness :
  let h := suspended "slow" None started in
  pending_requests h !! "1" = Some 0 ∧
  pending_requests (stop h).1 = ∅ ∧
  futures (stop h).1 !! 0 = Some (Failed (MessageError "Protocol handler stopped")) ∧
  (send_request (H := reference_runtime) "slow" None "30.0" (λ s, (stop s).1) h).2
  = Raise (MessageError "Protocol handler stopped").
Proof.
  destruct (stop_fails_pending_requests (H := reference_runtime)
              (suspended "slow" None started) eq_refl)
    as (_ & Hempty & Hfail & Hcaller).
  split; [reflexivity|]. split; [exact Hempty|].
  split; [exact (Hfail "1" 0 eq_refl eq_refl)|].
  exact (Hcaller "slow" None "30.0" eq_refl).
Defined.

(** The integer 1 and the string "1" complete request 1. *)
Lemma pending_request_id_canonical_witness :
  (send_request (H := reference_runtime) "tools/list" None "30.0"
     (λ s, (process_message (JObj (tools_reply (JInt 1))) s).1) started).2
  = Ok {[ "tools" := JList [] ]} ∧
  (send_request (H := reference_runtime) "tools/list" None "30.0"
     (λ s, (process_message (JObj (tools_reply (JStr "1"))) s).1) started).2
  = Ok {[ "tools" := JList [] ]}.
Proof.
  split.
  - exact (proj2 (proj2
             (pending_request_id_canonical (H := reference_runtime)
                "tools/list" None "30.0" started (tools_reply (JInt 1))
                (tools_reply_model (IdInt 1)) eq_refl eq_refl eq_refl eq_refl eq_refl
                (or_introl eq_refl)))).
  - exact (proj2 (proj2
             (pending_request_id_canonical (H := reference_runtime)
                "tools/list" None "30.0" started (tools_reply (JStr "1"))
                (tools_reply_model (IdStr "1")) eq_refl eq_refl eq_refl eq_refl eq_refl
                (or_intror eq_refl)))).
Defined.

(** In the transport base class the string "1" completes request "1";
    the integer 1 does not, and the caller times out. *)
Lemma transport_lookup_takes_id_as_received_witness :
  (Transport.send_request (H := reference_runtime) "tools/list" None "30.0"
     (λ s, (Transport.handle_response (tools_reply (JStr "1")) s).1) open_transport).2
  = Ok (JObj {[ "tools" := JList [] ]}) ∧
  (Transport.send_request (H := reference_runtime) "tools/list" None "30.0"
     (λ s, (Transport.handle_response (tools_reply (JInt 1)) s).1) open_transport).2
  = Raise (MessageError "Request tools/list timed out after 30.0s").
Proof.
  split.
  - exact (proj1 (transport_lookup_takes_id_as_received (H := reference_runtime)
                    "tools/list" None "30.0" open_transport (tools_reply (JStr "1"))
                    eq_refl eq_refl eq_refl) eq_refl).
  - exact (proj2 (transport_lookup_takes_id_as_received (H := reference_runtime)
                    "tools/list" None "30.0" open_transport (tools_reply (JInt 1))
                    eq_refl eq_refl eq_refl) eq_refl).
Defined.

Lemma polling_sleeps_after_idle_polls_only_witness :
  let out := Http.receive_messages {[ "poll_interval" := 2%Qc ]} true busy_then_idle in
  out.2 = Ok tt ∧
  Http.sleeps_after_polls out.1 = [[]; [2%Qc]; [2%Qc]] ∧
  Http.yielded out.1 = [JObj progress_notification].
Proof.
  exact (polling_sleeps_after_idle_polls_only {[ "poll_interval" := 2%Qc ]}
           busy_then_idle eq_refl).
Defined.

(** The claim of C8 fails after a poll that returned messages: with the
    interval left at its default of one second, the next poll follows
    with no sleep in between, so less than the interval after it. *)
Lemma poll_after_messages_without_sleep :
  let out := Http.receive_messages ∅ true busy_then_idle in
  take 4 out.1 = [ Http.EvPoll; Http.EvLog "Message received";
                   Http.EvYield (JObj progress_notification); Http.EvPoll ] ∧
  Http.sleeps_after_polls out.1 = [[]; [1%Qc]; [1%Qc]] ∧
  ¬ Forall (λ ds, Qcanon.Qcle (Http.poll_interval ∅) (slept ds))
      (Http.sleeps_after_polls out.1).
Proof.
  split; [by vm_compute|]. split; [by vm_compute|].
  intros Hall. apply Forall_cons_1 in Hall as [Hle _].
  vm_compute in Hle. by apply Hle.
Qed.
End Instances.

(** * Further properties: the message models *)

Section RoundTrips.
Context `{PyRuntime}.
Import Messages.

Lemma lookup_put_opt (k k' : string) (v : option json) (d : dict) :
  put_opt k v d !! k'
  = if decide (k = k') then from_option Some (d !! k') v else d !! k'.
Proof.
  unfold put_opt. destruct v as [x|]; simpl.
  - case_decide as Hk; [subst; by rewrite lookup_insert_eq|by rewrite lookup_insert_ne].
  - by case_decide.
Qed.

Lemma MCPError_round_trip (e : MCPError) :
  MCPError_model_validate (JObj (MCPError_dump e)) = Ok e.
Proof.
  destruct e as [c m [dt|]]; unfold MCPError_model_validate, MCPError_dump, py_get;
    simpl; dump_lookup.
Qed.

(** X11: a Request and a Notification survive the wire: validating what
    [model_dump(exclude_none=True)] produced gives the message back, and
    the dumped message carries the version tag "2.0". *)
Theorem request_notification_round_trip (r : MCPRequest) (n : MCPNotification) :
  MCPRequest_model_validate (MCPRequest_dump r) = Ok r ∧
  MCPNotification_model_validate (MCPNotification_dump n) = Ok n ∧
  MCPRequest_dump r !! "jsonrpc" = Some (JStr "2.0") ∧
  MCPNotification_dump n !! "jsonrpc" = Some (JStr "2.0") ∧
  MCPNotification_dump n !! "id" = None.
Proof.
  destruct r as [i m [p|]], n as [m' [p'|]];
    unfold MCPRequest_model_validate, MCPNotification_model_validate,
      MCPRequest_dump, MCPNotification_dump, validate_jsonrpc, py_get, put_opt;
    simpl; dump_lookup; simpl; by destruct i.
Qed.

Lemma MCPResponse_round_trip (r : MCPResponse) :
  exactly_one r → MCPResponse_model_validate (MCPResponse_dump r) = Ok r.
Proof.
  intros Hone. unfold MCPResponse_model_validate, validate_jsonrpc, py_get.
  rewrite MCPResponse_dump_id, MCPResponse_dump_result, MCPResponse_dump_error.
  assert (MCPResponse_dump r !! "jsonrpc" = Some (JStr "2.0")) as ->.
  { unfold MCPResponse_dump. rewrite !lookup_put_opt. simpl. dump_lookup. }
  destruct r as [i res err]. unfold exactly_one in Hone. simpl in *.
  destruct Hone as [[[x ->] ->]|[-> [x ->]]].
  - by destruct i.
  - unfold validate_opt_error. cbn -[MCPError_model_validate MCPError_dump].
    rewrite MCPError_round_trip. by destruct i.
Qed.

(** X12: a Response survives the wire exactly when it has one of result
    and error: validating the dump of such a Response gives it back, and no
    decoded mapping validates to any other kind of Response. *)
Theorem response_round_trip (r : MCPResponse) :
  (exactly_one r → MCPResponse_model_validate (MCPResponse_dump r) = Ok r) ∧
  (∀ raw, MCPResponse_model_validate raw = Ok r → exactly_one r) ∧
  MCPResponse_dump r !! "method" = None.
Proof.
  split; [apply MCPResponse_round_trip|]. split.
  - intros raw Hv. by apply MCPResponse_model_validate_ok in Hv as [_ ?].
  - unfold MCPResponse_dump. rewrite !lookup_put_opt. simpl. dump_lookup.
Qed.
End RoundTrips.

(** * Further properties: the protocol handler *)

Section HandlerMore.
Context `{PyRuntime}.
Import Messages Handler.
Local Open Scope handler_scope.

Lemma process_request_returns d h req f r :
  running h = true → transport_fault h = None →
  json_is_str (py_get d "jsonrpc") "2.0" = true →
  MCPRequest_model_validate d = Ok req →
  request_handlers h !! req_method req = Some f →
  f (params_or_empty (req_params req)) = HReturn (JObj r) →
  process_message (JObj d) h =
  (push_outbox (MCPResponse_dump {| resp_id := IdStr (id_str (req_id req));
                                    result := Some r; error := None |})
     (push_log "Request received" h), Ok tt).
Proof.
  intros Hr Hf Hv Hreq Hh Hret.
  rewrite (process_request_found _ _ _ _ Hv Hreq Hh).
  unfold try_except, try_except_validation, try_catch, bind, await_callable.
  rewrite Hret. simpl.
  by rewrite (send_response_ok (push_log "Request received" h)
                (JStr (id_str (req_id req))) (JObj r) None _ Hr Hf
                (MCPResponse_init_result (IdStr (id_str (req_id req))) r)).
Qed.

Lemma process_request_raises d h req f e :
  running h = true → transport_fault h = None →
  json_is_str (py_get d "jsonrpc") "2.0" = true →
  MCPRequest_model_validate d = Ok req →
  request_handlers h !! req_method req = Some f →
  f (params_or_empty (req_params req)) = HRaise e → is_Exception e = true →
  process_message (JObj d) h =
  (push_outbox (MCPResponse_dump (error_response (req_id req) INTERNAL_ERROR (exn_str e)))
     (push_log "Request handler failed" (push_log "Request received" h)), Ok tt).
Proof.
  intros Hr Hf Hv Hreq Hh Hraise He.
  rewrite (process_request_found _ _ _ _ Hv Hreq Hh).
  unfold try_except, try_except_validation, try_catch, bind, await_callable.
  rewrite Hraise. simpl. rewrite He. unfold logger, modify.
  by rewrite send_error_response_ok.
Qed.

Lemma process_request_not_found d h req :
  running h = true → transport_fault h = None →
  json_is_str (py_get d "jsonrpc") "2.0" = true →
  MCPRequest_model_validate d = Ok req →
  request_handlers h !! req_method req = None →
  process_message (JObj d) h =
  (push_outbox (MCPResponse_dump
                  (error_response (req_id req) METHOD_NOT_FOUND
                     ("Method '" +:+ req_method req +:+ "' not found")))
     (push_log "Request received" h), Ok tt).
Proof.
  intros Hr Hf Hv Hreq Hno.
  destruct (MCPRequest_model_validate_ok _ _ Hreq) as (Hid & Hm & Hi1 & Hi2).
  unfold process_message, try_except, try_catch. rewrite Hv, Hi1, Hi2. simpl.
  unfold handle_request, try_except_validation, try_catch, bind, lift.
  rewrite Hreq. simpl. rewrite Hno.
  by rewrite send_error_response_ok.
Qed.

Lemma process_notification_no_handler d h n :
  d !! "id" = None →
  json_is_str (py_get d "jsonrpc") "2.0" = true →
  MCPNotification_model_validate d = Ok n →
  notification_handlers h !! ntf_method n = None →
  process_message (JObj d) h =
  (push_log "No handler for notification" (push_log "Notification received" h), Ok tt).
Proof.
  intros Hid Hv Hn Hnone.
  assert (py_in "id" d = false) as Hin.
  { unfold py_in. rewrite Hid. apply bool_decide_eq_false. by intros [? ?]. }
  pose proof (MCPNotification_model_validate_ok _ _ Hn) as Hm.
  unfold process_message. rewrite Hv, Hin, Hm. simpl.
  unfold handle_notification, try_except_validation, try_except, try_catch,
    bind, lift, logger, modify, get, await_callable, ret, raise.
  rewrite Hn. simpl. simpl in Hnone. by rewrite Hnone.
Qed.

(** X1: the last registration for a method wins: once a request handler
    is registered, a valid Request for that method is answered with the
    result that handler returns, whatever was registered before; handlers
    of other methods and the notification handlers are left as they were. *)
Theorem register_request_handler_wins method f d h req r :
  running h = true → transport_fault h = None →
  json_is_str (py_get d "jsonrpc") "2.0" = true →
  MCPRequest_model_validate d = Ok req → req_method req = method →
  f (params_or_empty (req_params req)) = HReturn (JObj r) →
  let h1 := (register_request_handler method f h).1 in
  let out := process_message (JObj d) h1 in
  out.2 = Ok tt ∧
  outbox out.1 = outbox h ++
    [MCPResponse_dump {| resp_id := IdStr (id_str (req_id req));
                         result := Some r; error := None |}] ∧
  (∀ m, m ≠ method → request_handlers h1 !! m = request_handlers h !! m) ∧
  notification_handlers h1 = notification_handlers h.
Proof.
  intros Hr Hf Hv Hreq <- Hret. simpl.
  rewrite (process_request_returns d _ req f r); try done.
  - simpl. repeat split; try done. intros m Hm. by rewrite lookup_insert_ne.
  - simpl. by rewrite lookup_insert_eq.
Qed.

(** X2: [unregister_handler] removes the request handler and the
    notification handler of a method: afterwards a Request for it is
    answered METHOD_NOT_FOUND and a Notification for it is discarded, while
    the handlers of every other method stay. *)
Theorem unregister_handler_removes_both method h :
  let h1 := (unregister_handler method h).1 in
  (∀ d req, running h = true → transport_fault h = None →
     json_is_str (py_get d "jsonrpc") "2.0" = true →
     MCPRequest_model_validate d = Ok req → req_method req = method →
     process_message (JObj d) h1 =
     (push_outbox (MCPResponse_dump
                     (error_response (req_id req) METHOD_NOT_FOUND
                        ("Method '" +:+ method +:+ "' not found")))
        (push_log "Request received" h1), Ok tt)) ∧
  (∀ d n, d !! "id" = None → json_is_str (py_get d "jsonrpc") "2.0" = true →
     MCPNotification_model_validate d = Ok n → ntf_method n = method →
     process_message (JObj d) h1 =
     (push_log "No handler for notification" (push_log "Notification received" h1),
      Ok tt)) ∧
  (∀ m, m ≠ method →
     request_handlers h1 !! m = request_handlers h !! m ∧
     notification_handlers h1 !! m = notification_handlers h !! m).
Proof.
  simpl. split; [|split].
  - intros d req Hr Hf Hv Hreq <-.
    apply process_request_not_found; try done. simpl. apply lookup_delete_eq.
  - intros d n Hid Hv Hn <-.
    apply (process_notification_no_handler _ _ n); try done. simpl.
    apply lookup_delete_eq.
  - intros m Hm. simpl. by rewrite !lookup_delete_ne.
Qed.

Lemma send_response_stopped i r e h :
  running h = false → send_response i r e h = (h, Raise (MessageError "Protocol handler not running")).
Proof. intros Hr. unfold send_response, bind, get. by rewrite Hr. Qed.

Lemma send_error_response_stopped i c m d h :
  running h = false →
  send_error_response i c m d h
  = (h, match i with JNull => Ok tt | _ => Raise (MessageError "Protocol handler not running") end).
Proof.
  intros Hr. unfold send_error_response.
  destruct i; try done; by rewrite send_response_stopped.
Qed.

Lemma handle_response_silent d h :
  outbox (handle_response d h).1 = outbox h ∧
  running (handle_response d h).1 = running h.
Proof.
  unfold handle_response, try_except_validation, try_catch, complete_future,
    bind, lift, logger, modify, get.
  destruct (MCPResponse_model_validate d) as [resp|e]; simpl.
  - destruct (pending_requests h !! id_str (resp_id resp)) as [a|]; simpl; [|done].
    destruct (futures h !! a) as [[]|]; simpl; try done.
    by destruct (error resp).
  - by destruct (is_ValidationError e).
Qed.

Lemma handle_notification_keeps_running d h :
  running (handle_notification d h).1 = running h.
Proof.
  unfold handle_notification, try_except_validation, try_except, try_catch,
    bind, lift, logger, modify, get, await_callable, ret, raise.
  destruct (MCPNotification_model_validate d) as [n|e]; simpl.
  - destruct (notification_handlers h !! ntf_method n) as [f|]; simpl; [|done].
    destruct (f _) as [v|e]; simpl; [done|].
    destruct (is_Exception e) eqn:He; simpl; [done|].
    by destruct e.
  - by destruct (is_ValidationError e).
Qed.

Lemma handle_request_stopped d h :
  running h = false →
  outbox (handle_request d h).1 = outbox h ∧ running (handle_request d h).1 = false.
Proof.
  intros Hr.
  unfold handle_request, try_except_validation, try_except, try_catch,
    bind, lift, logger, modify, get, await_callable, ret, raise.
  destruct (MCPRequest_model_validate d) as [req|e]; simpl.
  - destruct (request_handlers h !! req_method req) as [f|]; simpl.
    + destruct (f _) as [v|e]; simpl.
      * rewrite send_response_stopped by done. simpl.
        rewrite send_error_response_stopped by done.
        by destruct (req_id req).
      * destruct (is_Exception e) eqn:He; simpl.
        -- rewrite send_error_response_stopped by done. by destruct (req_id req).
        -- destruct (is_ValidationError e) eqn:Hv; [by destruct e|done].
    + rewrite send_error_response_stopped by done. by destruct (req_id req).
  - destruct (is_ValidationError e); simpl; [|done].
    rewrite send_error_response_stopped by done. by destruct (py_get d "id").
Qed.

Lemma process_message_stopped raw h :
  running h = false → outbox (process_message raw h).1 = outbox h.
Proof.
  intros Hr.
  assert (∀ e h', outbox h' = outbox h → running h' = false →
            outbox ((if is_ValidationError e then
               logger "Message validation failed";;;
               request_id <~ raw_get raw "id";;
               send_error_response request_id INVALID_REQUEST "Invalid request"
                 (Some {[ "validation_errors" :=
                            match e with
                            | ValidationError model input => validation_errors model input
                            | _ => JNull
                            end ]})
             else
               logger "Message processing failed";;;
               request_id <~ raw_get raw "id";;
               send_error_response request_id INTERNAL_ERROR "Internal error" None) h').1
            = outbox h) as Hhandler.
  { intros e h' Ho Hr'. unfold bind, logger, modify, raw_get, ret, raise.
    destruct (is_ValidationError e); simpl; destruct raw; simpl; try done;
      rewrite send_error_response_stopped by done; done. }
  unfold process_message, try_except, try_catch.
  destruct raw as [|z|s|l|d]; simpl; try done.
  destruct (json_is_str (py_get d "jsonrpc") "2.0"); simpl;
    [|exact (Hhandler (ValueError "Invalid JSON-RPC version") h eq_refl Hr)].
  destruct (py_in "id" d); [destruct (py_in "method" d)|destruct (py_in "method" d)].
  - destruct (handle_request_stopped d h Hr) as [Ho Hr'].
    destruct (handle_request d h) as [h' [[]|e]]; simpl in *; [done|].
    destruct (is_Exception e); [by apply Hhandler|done].
  - destruct (handle_response_silent d h) as [Ho Hr'].
    destruct (handle_response d h) as [h' [[]|e]]; simpl in *; [done|].
    destruct (is_Exception e); [apply Hhandler; congruence|done].
  - pose proof (handle_notification_silent d h) as Ho.
    pose proof (handle_notification_keeps_running d h) as Hr'.
    destruct (handle_notification d h) as [h' [[]|e]]; simpl in *; [done|].
    destruct (is_Exception e); [apply Hhandler; congruence|done].
  - exact (Hhandler (ValueError "Invalid message structure") h eq_refl Hr).
Qed.
(** X3: [start] and [stop] are idempotent and leave the other state
    alone: starting a running handler and stopping a stopped one change
    nothing, [start] keeps the table and the futures, and after [stop] the
    handler is not running and a stop that found it running left the table
    empty. *)
Theorem start_stop_idempotent h :
  (running h = true → start h = (h, Ok tt)) ∧
  (running h = false → stop h = (h, Ok tt)) ∧
  running (start h).1 = true ∧
  pending_requests (start h).1 = pending_requests h ∧
  futures (start h).1 = futures h ∧
  running (stop h).1 = false ∧
  (running h = true → pending_requests (stop h).1 = ∅) ∧
  start (start h).1 = ((start h).1, Ok tt) ∧
  stop (stop h).1 = ((stop h).1, Ok tt).
Proof.
  unfold start, stop, cancel_message_task, bind, get, modify, logger, ret.
  destruct (running h) eqn:Hr, (message_task h) eqn:Ht;
    simpl; rewrite ?Hr, ?Ht; simpl; repeat split; done.
Qed.

(** X4: nothing leaves a handler that is not running: [send_request],
    [send_notification] and [send_response] raise "Protocol handler not
    running" and change nothing (no id is consumed), and an inbound message
    processed in that state is never answered. *)
Theorem stopped_handler_sends_nothing h :
  running h = false →
  (∀ method params timeout others,
     send_request method params timeout others h
     = (h, Raise (MessageError "Protocol handler not running"))) ∧
  (∀ method params,
     send_notification method params h
     = (h, Raise (MessageError "Protocol handler not running"))) ∧
  (∀ i r e,
     send_response i r e h = (h, Raise (MessageError "Protocol handler not running"))) ∧
  (∀ raw, outbox (process_message raw h).1 = outbox h).
Proof.
  intros Hr. split; [|split; [|split]].
  - intros. by apply send_request_not_running.
  - intros. unfold send_notification, bind, get. by rewrite Hr.
  - intros. by apply send_response_stopped.
  - intros. by apply process_message_stopped.
Qed.

Lemma process_response_unexpected raw h resp :
  json_is_str (py_get raw "jsonrpc") "2.0" = true →
  raw !! "method" = None →
  MCPResponse_model_validate raw = Ok resp →
  (pending_requests h !! id_str (resp_id resp) = None ∨
   ∃ a, pending_requests h !! id_str (resp_id resp) = Some a ∧
        futures h !! a ≠ Some Pending) →
  process_message (JObj raw) h =
  (push_log "Unexpected response" (push_log "Response received" h), Ok tt).
Proof.
  intros Hv Hm Hresp Hk.
  destruct (MCPResponse_model_validate_ok _ _ Hresp) as [Hid _].
  assert (py_in "method" raw = false) as Hin.
  { unfold py_in. rewrite Hm. apply bool_decide_eq_false. by intros [? ?]. }
  unfold process_message. rewrite Hv, (py_get_id_in _ _ _ Hid), Hin. simpl.
  unfold handle_response, complete_future, try_except, try_except_validation,
    try_catch, logger.
  unfold bind, lift, get, modify. rewrite Hresp. simpl.
  destruct Hk as [Hk|(a & Hk & Ha)]; rewrite Hk; simpl; [done|].
  by destruct (futures h !! a) as [[]|].
Qed.

(** X5: a Response whose id matches no entry of the correlation table is
    discarded: nothing is raised, nothing is sent, and the table and the
    futures stay as they were; only the log grows. *)
Theorem unmatched_response_discarded raw h resp :
  json_is_str (py_get raw "jsonrpc") "2.0" = true →
  raw !! "method" = None →
  MCPResponse_model_validate raw = Ok resp →
  pending_requests h !! id_str (resp_id resp) = None →
  process_message (JObj raw) h =
  (push_log "Unexpected response" (push_log "Response received" h), Ok tt).
Proof. intros Hv Hm Hresp Hk. apply (process_response_unexpected _ _ resp); auto. Qed.

(** X6: the first Response for an id wins: once a Response has completed
    the pending future, a second Response with the same id (integer or
    string) is logged as unexpected and the future keeps what the first one
    put there. *)
Theorem first_response_wins raw1 raw2 h resp1 resp2 a :
  json_is_str (py_get raw1 "jsonrpc") "2.0" = true → raw1 !! "method" = None →
  json_is_str (py_get raw2 "jsonrpc") "2.0" = true → raw2 !! "method" = None →
  MCPResponse_model_validate raw1 = Ok resp1 →
  MCPResponse_model_validate raw2 = Ok resp2 →
  id_str (resp_id resp2) = id_str (resp_id resp1) →
  pending_requests h !! id_str (resp_id resp1) = Some a →
  futures h !! a = Some Pending →
  let h1 := (process_message (JObj raw1) h).1 in
  let out := process_message (JObj raw2) h1 in
  out = (push_log "Unexpected response" (push_log "Response received" h1), Ok tt) ∧
  futures out.1 !! a = Some (completion resp1).
Proof.
  intros Hv1 Hm1 Hv2 Hm2 Hr1 Hr2 Hid Hk Ha. simpl.
  rewrite (process_response_lookup _ _ _ _ Hv1 Hm1 Hr1 Hk Ha). simpl.
  rewrite (process_response_unexpected raw2 _ resp2); try done.
  - simpl. split; [done|]. by rewrite lookup_insert_eq.
  - right. exists a. simpl. rewrite Hid, lookup_insert_eq. split; [done|].
    unfold completion. by destruct (error resp1).
Qed.

Lemma MCPRequest_model_validate_raise d e :
  MCPRequest_model_validate d = Raise e → is_ValidationError e = true.
Proof.
  unfold MCPRequest_model_validate, res_bind, validate_jsonrpc, validate_id,
    validate_str, validate_opt_dict.
  intros Hx. repeat case_match; simplify_eq; done.
Qed.

(** X9: a message with an id and a method that does not validate as a
    Request (the method is not a string, or params is not a mapping) is
    answered with INVALID_REQUEST (-32600) and the message "Invalid request
    format", echoing the id when it is a string or an integer. *)
Theorem invalid_request_format_answered d h i e :
  running h = true → transport_fault h = None →
  json_is_str (py_get d "jsonrpc") "2.0" = true →
  py_in "method" d = true → py_get d "id" = id_json i →
  MCPRequest_model_validate d = Raise e →
  process_message (JObj d) h =
  (push_outbox (MCPResponse_dump
                  (error_response i INVALID_REQUEST "Invalid request format"))
     (push_log "Invalid request format" h), Ok tt).
Proof.
  intros Hr Hf Hv Hm Hid Hreq.
  pose proof (MCPRequest_model_validate_raise _ _ Hreq) as He.
  unfold process_message. rewrite Hv, (py_get_id_in _ _ _ Hid), Hm. simpl.
  unfold handle_request, try_except, try_except_validation, try_catch.
  unfold bind, lift, logger, modify, get. rewrite Hreq. simpl. rewrite He, Hid.
  by rewrite send_error_response_ok.
Qed.

Lemma message_loop_step_raise raw h e :
  (message_loop_step raw h).2 = Raise e → is_Exception e = false.
Proof.
  unfold message_loop_step, try_except, try_catch, logger, modify.
  destruct (process_message raw h) as [h' [[]|e']]; simpl; [done|].
  destruct (is_Exception e') eqn:He; simpl; [done|]. by intros [= <-].
Qed.

Lemma message_loop_step_logs raw h h' e :
  process_message raw h = (h', Raise e) → is_Exception e = true →
  message_loop_step raw h = (push_log "Error processing message" h', Ok tt).
Proof.
  intros Hp He. unfold message_loop_step, try_except, try_catch, logger, modify.
  by rewrite Hp, He.
Qed.

Lemma message_turns_raise inbound last h e :
  (message_turns inbound last h).2 = Raise e →
  last = Raise e ∨ is_Exception e = false.
Proof.
  revert h. induction inbound as [|raw inbound IH]; intros h; simpl.
  - intros ->. by left.
  - unfold bind at 1.
    pose proof (message_loop_step_raise raw h) as Hstep.
    destruct (message_loop_step raw h) as [h' [[]|e']]; simpl in *.
    + apply IH.
    + intros [= <-]. right. by apply Hstep.
Qed.

Lemma message_turns_processed inbound last h :
  turns_survive inbound h →
  message_turns inbound last h = (processed inbound h, last).
Proof.
  revert h. induction inbound as [|raw inbound IH]; intros h; [done|].
  intros [Hraw Hrest]. cbn [message_turns foldr]. unfold bind at 1.
  change (foldr _ _ inbound) with (message_turns inbound last).
  unfold processed. cbn [foldl]. fold (processed inbound (message_loop_step raw h).1).
  pose proof (message_loop_step_raise raw h) as Hstep.
  assert ((message_loop_step raw h).2 = Ok tt) as Hok.
  { unfold message_loop_step, try_except, try_catch, logger, modify in *.
    destruct (process_message raw h) as [h' [[]|e]]; [done|]. simpl in *.
    by rewrite (Hraw e eq_refl). }
  destruct (message_loop_step raw h) as [h' r]. simpl in *. subst r.
  by apply IH.
Qed.

(** X10: no exception of class [Exception] escapes the message loop,
    whatever the transport yields and however its stream ends.  A failure
    while processing one message is logged ("Error processing message")
    and the turn ends normally; a message that is not a mapping is
    consumed that way, with nothing sent.  As long as no turn is
    cancelled the loop takes every message in turn: it ends in the state
    that one turn after the other leads to, with the log entries of its
    end. *)
Theorem message_loop_survives inbound last h :
  (∀ e, (message_loop inbound last h).2 = Raise e → is_Exception e = false) ∧
  (∀ raw s s' e,
     process_message raw s = (s', Raise e) → is_Exception e = true →
     message_loop_step raw s = (push_log "Error processing message" s', Ok tt)) ∧
  (∀ raw s, match raw with JObj _ => False | _ => True end →
     message_loop_step raw s =
     (push_log "Error processing message" (push_log "Message processing failed" s),
      Ok tt)) ∧
  (turns_survive inbound (set_message_task TaskActive h) →
   message_loop inbound last h
   = loop_end last (processed inbound (set_message_task TaskActive h))).
Proof.
  split; [|split; [|split]].
  - intros e. unfold message_loop, bind, modify, try_finally, try_except, try_catch.
    pose proof (message_turns_raise inbound last (set_message_task TaskActive h)) as Hraise.
    destruct (message_turns inbound last _) as [h' [[]|e']]; simpl in *; [done|].
    destruct (is_Exception e') eqn:He'; simpl; [done|]. by intros [= <-].
  - apply message_loop_step_logs.
  - intros raw s Hraw. destruct raw; done.
  - intros Hturns.
    unfold message_loop, bind, modify, try_finally, try_except, try_catch, logger.
    rewrite message_turns_processed by done. unfold loop_end.
    destruct last as [[]|e]; [done|]. by destruct (is_Exception e).
Qed.
End HandlerMore.

(** * Further properties: requests and their responses *)

Section Conversations.
Context `{PyRuntime}.
Import Messages Handler.
Local Open Scope handler_scope.

(** The caller of [send_request] is woken by the state of its future. *)
Lemma send_request_completed method params timeout others h resp :
  running h = true → transport_fault h = None →
  futures (others (suspended method params h)) !! next_future h
  = Some (completion resp) →
  send_request method params timeout others h
  = (set_pending (delete (pretty (sequence_number h + 1)%Z))
       (others (suspended method params h)), response_outcome resp).
Proof.
  intros Hr Hf Hfut. rewrite send_request_sent by done. cbn zeta.
  rewrite Hfut. unfold completion, response_outcome. by destruct (error resp).
Qed.

Lemma deliver_completes raw h resp a :
  json_is_str (py_get raw "jsonrpc") "2.0" = true →
  raw !! "method" = None →
  MCPResponse_model_validate raw = Ok resp →
  pending_requests h !! id_str (resp_id resp) = Some a →
  futures h !! a = Some Pending →
  deliver raw h = set_futures (<[a := completion resp]>) (next_future h)
                    (push_log "Response received" h).
Proof.
  intros. unfold deliver. by erewrite process_response_lookup.
Qed.

Lemma MCPRequest_dump_validates (r : MCPRequest) :
  MCPRequest_model_validate (MCPRequest_dump r) = Ok r ∧
  json_is_str (py_get (MCPRequest_dump r) "jsonrpc") "2.0" = true.
Proof.
  destruct r as [i m [p|]];
    unfold MCPRequest_model_validate, MCPRequest_dump, validate_jsonrpc, py_get, put_opt;
    simpl; dump_lookup; simpl; by destruct i.
Qed.

Lemma MCPResponse_dump_envelope (r : MCPResponse) :
  json_is_str (py_get (MCPResponse_dump r) "jsonrpc") "2.0" = true ∧
  MCPResponse_dump r !! "method" = None.
Proof.
  unfold py_get, MCPResponse_dump. rewrite !lookup_put_opt. simpl. dump_lookup.
Qed.

(** The caller of [send_request] whose Response is the dump of [resp]. *)
Lemma send_request_answered method params timeout h resp :
  running h = true → transport_fault h = None →
  exactly_one resp →
  id_str (resp_id resp) = pretty (sequence_number h + 1)%Z →
  (send_request method params timeout (deliver (MCPResponse_dump resp)) h).2
  = response_outcome resp.
Proof.
  intros Hr Hf Hone Hid.
  destruct (MCPResponse_dump_envelope resp) as [Hv Hm].
  destruct (suspended_entry method params h) as (Hk & Ha & _).
  erewrite send_request_completed; try done.
  erewrite deliver_completes; eauto using MCPResponse_round_trip.
  - simpl. apply lookup_insert_eq.
  - by rewrite Hid.
Qed.

(** X7: a request sent with [send_request] to a peer that runs the same
    handler comes back: the peer validates the Request that was sent, and
    the caller returns the mapping the peer's handler returned, or raises
    "RPC Error -32601: Method ... not found" when the peer has no handler,
    or "RPC Error -32603: ..." with the handler's message when it raised.
    The peer echoes the integer id as a string; the lookup by [str(id)]
    still finds the pending request. *)
Theorem loopback_request method params timeout hc hs :
  running hc = true → transport_fault hc = None →
  running hs = true → transport_fault hs = None →
  let request := MCPRequest_dump {| req_id := IdInt (sequence_number hc + 1)%Z;
                                    req_method := method; req_params := params |} in
  let hs' := (process_message (JObj request) hs).1 in
  let answer := (send_request method params timeout (deliver_last hs') hc).2 in
  last (outbox (suspended method params hc)) = Some request ∧
  match request_handlers hs !! method with
  | None =>
      answer = Raise (MessageError ("RPC Error " +:+ pretty METHOD_NOT_FOUND
                                    +:+ ": Method '" +:+ method +:+ "' not found"))
  | Some f =>
      match f (params_or_empty params) with
      | HReturn (JObj r) => answer = Ok r
      | HReturn _ => True
      | HRaise e =>
          is_Exception e = true →
          answer = Raise (MessageError ("RPC Error " +:+ pretty INTERNAL_ERROR
                                        +:+ ": " +:+ exn_str e))
      end
  end.
Proof.
  intros Hrc Hfc Hrs Hfs. cbn zeta.
  set (req := {| req_id := IdInt (sequence_number hc + 1)%Z;
                 req_method := method; req_params := params |}).
  destruct (MCPRequest_dump_validates req) as [Hreq Hv].
  split; [unfold suspended; simpl; apply last_snoc|].
  assert (∀ resp log_state,
            (process_message (JObj (MCPRequest_dump req)) hs).1
            = push_outbox (MCPResponse_dump resp) log_state →
            exactly_one resp →
            id_str (resp_id resp) = pretty (sequence_number hc + 1)%Z →
            (send_request method params timeout
               (deliver_last (process_message (JObj (MCPRequest_dump req)) hs).1) hc).2
            = response_outcome resp) as Hanswer.
  { intros resp ls Hs Hone Hid.
    replace (deliver_last (process_message (JObj (MCPRequest_dump req)) hs).1)
      with (deliver (MCPResponse_dump resp)).
    - by apply send_request_answered.
    - unfold deliver_last. rewrite Hs. simpl. by rewrite last_snoc. }
  destruct (request_handlers hs !! method) as [f|] eqn:Hh.
  - destruct (f (params_or_empty params)) as [v|e] eqn:Hf.
    + destruct v as [| | | |r]; try done.
      rewrite (Hanswer {| resp_id := IdStr (id_str (req_id req));
                          result := Some r; error := None |}
                 (push_log "Request received" hs)).
      * done.
      * by rewrite (process_request_returns _ hs req f r).
      * left; simpl; eauto.
      * done.
    + intros He.
      rewrite (Hanswer (error_response (req_id req) INTERNAL_ERROR (exn_str e))
                 (push_log "Request handler failed" (push_log "Request received" hs))).
      * done.
      * by rewrite (process_request_raises _ hs req f e).
      * right; simpl; eauto.
      * done.
  - rewrite (Hanswer (error_response (req_id req) METHOD_NOT_FOUND
                        ("Method '" +:+ req_method req +:+ "' not found"))
               (push_log "Request received" hs)).
    + done.
    + by rewrite (process_request_not_found _ hs req).
    + right; simpl; eauto.
    + done.
Qed.

(** X8: two requests in flight are completed independently: when the
    Response to the second request arrives before the Response to the
    first, each caller still gets the outcome of its own Response. *)
Theorem out_of_order_responses h m1 p1 t1 m2 p2 t2 raw1 raw2 resp1 resp2 :
  running h = true → transport_fault h = None →
  json_is_str (py_get raw1 "jsonrpc") "2.0" = true → raw1 !! "method" = None →
  json_is_str (py_get raw2 "jsonrpc") "2.0" = true → raw2 !! "method" = None →
  MCPResponse_model_validate raw1 = Ok resp1 →
  MCPResponse_model_validate raw2 = Ok resp2 →
  id_str (resp_id resp1) = pretty (sequence_number h + 1)%Z →
  id_str (resp_id resp2) = pretty (sequence_number h + 2)%Z →
  let second := send_request m2 p2 t2 (λ s, deliver raw1 (deliver raw2 s)) in
  (send_request m1 p1 t1 (λ s, (second s).1) h).2 = response_outcome resp1 ∧
  (second (suspended m1 p1 h)).2 = response_outcome resp2.
Proof.
  intros Hr Hf Hv1 Hm1 Hv2 Hm2 Hr1 Hr2 Hid1 Hid2. cbn zeta.
  set (S1 := suspended m1 p1 h).
  set (T := suspended m2 p2 S1).
  assert (pretty (sequence_number h + 1)%Z ≠@{string} pretty (sequence_number h + 2)%Z) as Hkeys.
  { intros Heq%(inj pretty). lia. }
  assert (pending_requests T
          = <[pretty (sequence_number h + 2)%Z := S (next_future h)]> (<[pretty (sequence_number h + 1)%Z := (next_future h)]> (pending_requests h)))
    as HTp.
  { unfold T, S1, suspended. cbn. by replace (sequence_number h + 1 + 1)%Z with (sequence_number h + 2)%Z by lia. }
  assert (futures T = <[S (next_future h) := Pending]> (<[(next_future h) := Pending]> (futures h))) as HTf by done.
  assert (running S1 = true ∧ transport_fault S1 = None ∧ next_future S1 = S (next_future h) ∧
          (sequence_number S1 + 1 = sequence_number h + 2)%Z) as (HrS & HfS & HnS & HsS).
  { unfold S1, suspended. cbn. repeat split; try done. lia. }
  assert (deliver raw2 T = set_futures (<[S (next_future h) := completion resp2]>)
                             (next_future T) (push_log "Response received" T)) as HT2.
  { apply deliver_completes; try done.
    - rewrite Hid2, HTp. apply lookup_insert_eq.
    - rewrite HTf. apply lookup_insert_eq. }
  assert (deliver raw1 (deliver raw2 T)
          = set_futures (<[(next_future h) := completion resp1]>) (next_future T)
              (push_log "Response received" (deliver raw2 T))) as HT3.
  { rewrite (deliver_completes raw1 (deliver raw2 T) resp1 (next_future h)); try done.
    - by rewrite HT2.
    - rewrite HT2. cbn [pending_requests set_futures push_log].
      rewrite Hid1, HTp, lookup_insert_ne by done. apply lookup_insert_eq.
    - rewrite HT2. cbn [futures set_futures push_log].
      rewrite HTf, !lookup_insert_ne by lia. apply lookup_insert_eq. }
  assert (send_request m2 p2 t2 (λ s, deliver raw1 (deliver raw2 s)) S1
          = (set_pending (delete (pretty (sequence_number S1 + 1)%Z))
               (deliver raw1 (deliver raw2 T)), response_outcome resp2)) as Hsecond.
  { apply send_request_completed; try done. fold T.
    rewrite HT3, HnS. cbn [futures set_futures push_log].
    rewrite lookup_insert_ne by lia.
    rewrite HT2. cbn [futures set_futures push_log]. apply lookup_insert_eq. }
  split.
  - erewrite send_request_completed; try done. fold S1.
    rewrite Hsecond. cbn [fst futures set_pending]. rewrite HT3.
    cbn [futures set_futures push_log]. apply lookup_insert_eq.
  - by rewrite Hsecond.
Qed.
End Conversations.

(** * Further properties: the transport base class *)

Section TransportMore.
Context `{PyRuntime}.
Import Transport.

(** X13: [Transport.send_request] on a closed transport raises
    "Transport is closed" and changes nothing; on an open one its id, the
    decimal string of the incremented counter, is out of the table on every
    way out, and a future nobody completes gives the timeout error that
    names the method and the duration. *)
Theorem transport_send_request_exits method params timeout others t :
  (closed t = true →
   send_request method params timeout others t
   = (t, Raise (ConnectionError "Transport is closed"))) ∧
  (closed t = false →
   pending_requests (send_request method params timeout others t).1
     !! pretty (message_id t + 1)%Z = None) ∧
  (closed t = false → send_fault t = None →
   (∀ s, futures s !! next_future t = Some Pending →
         futures (others s) !! next_future t = Some Pending) →
   (send_request method params timeout others t).2
   = Raise (MessageError ("Request " +:+ method +:+ " timed out after "
                          +:+ duration_str timeout +:+ "s"))).
Proof.
  unfold send_request, next_message_id, send_message. split; [|split].
  - by intros ->.
  - intros ->. cbn.
    destruct (send_fault t) as [e|]; cbn; [destruct e; apply lookup_delete_eq|].
    match goal with |- context [wait_for ?a ?s] => destruct (wait_for a s) as [t' [v|e]] end;
      [|destruct e]; cbn; apply lookup_delete_eq.
  - intros Hc Hf Hkeep. rewrite Hc. cbn. rewrite Hf. unfold wait_for.
    rewrite Hkeep; [done|]. cbn. apply lookup_insert_eq.
Qed.

(** X14: [Transport._handle_response] ignores a message whose id is
    absent, null, zero or the empty string, any integer id, and a string
    id that is not in the table: nothing changes and nothing is raised. *)
Theorem transport_handle_response_ignores message t :
  py_truthy (py_get message "id") = false ∨
  (∃ n, py_get message "id" = JInt n) ∨
  (∃ s, py_get message "id" = JStr s ∧ pending_requests t !! s = None) →
  handle_response message t = (t, Ok tt).
Proof.
  unfold handle_response. intros [Hf|[[n Hn]|(s & Hs & Hk)]].
  - by rewrite Hf.
  - rewrite Hn. simpl. by destruct (negb _).
  - rewrite Hs. simpl. rewrite Hk. by destruct (negb _).
Qed.

(** X15: for a Response whose string id is in the table with a pending
    future: an [error] mapping fails the future with "RPC Error <code>:
    <message>" built from whatever the mapping holds; a missing [error] key
    resolves it with [result], or with an empty mapping when there is no
    result; but an [error] that is present and not a mapping (null
    included) raises [AttributeError] and leaves the future pending. *)
Theorem transport_handle_response_completes message t key a :
  py_get message "id" = JStr key → key ≠ "" →
  pending_requests t !! key = Some a →
  futures t !! a = Some Pending →
  match message !! "error" with
  | Some (JObj error) =>
      handle_response message t =
      (set_futures
         (<[a := Failed (MessageError ("RPC Error " +:+ py_str (py_get error "code")
                                       +:+ ": " +:+ py_str (py_get error "message")))]>)
         (next_future t) t, Ok tt)
  | Some v =>
      handle_response message t =
      (t, Raise (AttributeError ("'" +:+ Handler.py_type_name v
                                 +:+ "' object has no attribute 'get'")))
  | None =>
      handle_response message t =
      (set_futures (<[a := Resolved (default (JObj ∅) (message !! "result"))]>)
         (next_future t) t, Ok tt)
  end.
Proof.
  intros Hid Hne Hk Ha. unfold handle_response, complete. rewrite Hid. simpl.
  rewrite bool_decide_eq_false_2 by done. simpl. rewrite Hk.
  destruct (message !! "error") as [[]|]; by rewrite ?Ha.
Qed.

(** X16: [Transport._handle_response] does not check [done()]: when a
    Response has completed a pending future and the same Response arrives
    again before the caller has left [send_request], the second one raises
    [InvalidStateError] and the first outcome stays. *)
Theorem transport_duplicate_response_raises message t key a :
  py_get message "id" = JStr key → key ≠ "" →
  match message !! "error" with Some (JObj _) | None => True | _ => False end →
  pending_requests t !! key = Some a →
  futures t !! a = Some Pending →
  let t1 := (handle_response message t).1 in
  (handle_response message t).2 = Ok tt ∧
  handle_response message t1 = (t1, Raise (InvalidStateError "invalid state")).
Proof.
  intros Hid Hne He Hk Ha.
  assert (∀ f, done f = true →
            handle_response message (set_futures (<[a := f]>) (next_future t) t)
            = (set_futures (<[a := f]>) (next_future t) t,
               Raise (InvalidStateError "invalid state"))) as Hsecond.
  { intros f Hdone. unfold handle_response, complete. rewrite Hid. simpl.
    rewrite bool_decide_eq_false_2 by done. simpl. rewrite Hk, lookup_insert_eq.
    destruct (message !! "error") as [[]|]; try done; by destruct f. }
  assert (∃ f, done f = true ∧
               handle_response message t
               = (set_futures (<[a := f]>) (next_future t) t, Ok tt)) as (f & Hdone & Hfirst).
  { unfold handle_response, complete. rewrite Hid. simpl.
    rewrite bool_decide_eq_false_2 by done. simpl. rewrite Hk.
    destruct (message !! "error") as [[]|]; simpl in He; try done;
      rewrite Ha; eexists; (split; [|reflexivity]); done. }
  simpl. rewrite Hfirst. simpl. split; [done|]. by apply Hsecond.
Qed.

(** X17: the receiver task of the stream and socket transports ends at
    the first message it cannot handle.  A message whose id is a list or a
    mapping makes the table lookup raise, so the task logs its failure and
    stops: no later message is looked at, and the futures stay as they
    were. *)
Theorem receiver_stops_on_unhashable_id m rest last t :
  match m !! "id" with Some (JList _) | Some (JObj _) => True | _ => False end →
  message_receiver (m :: rest) last t
  = push_log "Message receiver task stopped"
      (push_log "Message receiver task failed" t).
Proof.
  intros Hid. simpl. unfold receiver_step, py_in, py_get.
  destruct (m !! "id") as [[]|]; try done; simpl;
    rewrite bool_decide_eq_true_2 by eauto; done.
Qed.
Lemma complete_keeps a f t :
  pending_requests (complete a f t).1 = pending_requests t ∧
  (∀ b g, futures t !! b = Some g → done g = true →
          futures (complete a f t).1 !! b = Some g) ∧
  (∀ b, futures t !! b = None → futures (complete a f t).1 !! b = None).
Proof.
  unfold complete. destruct (futures t !! a) as [[]|] eqn:Ha; simpl; try done.
  split; [done|]. split.
  - intros b g Hb Hg. destruct (decide (b = a)) as [->|Hne].
    + rewrite Ha in Hb. by injection Hb as <-.
    + by rewrite lookup_insert_ne.
  - intros b Hb. destruct (decide (b = a)) as [->|Hne]; [congruence|].
    by rewrite lookup_insert_ne.
Qed.

Lemma handle_response_keeps message t :
  pending_requests (handle_response message t).1 = pending_requests t ∧
  (∀ b g, futures t !! b = Some g → done g = true →
          futures (handle_response message t).1 !! b = Some g) ∧
  (∀ b, futures t !! b = None → futures (handle_response message t).1 !! b = None).
Proof.
  unfold handle_response. destruct (negb _); [done|].
  destruct (id_in_table _ _) as [[a|]|e]; try done.
  destruct (message !! "error") as [[]|]; try done; apply complete_keeps.
Qed.

Lemma receiver_step_keeps message t :
  pending_requests (receiver_step message t).1 = pending_requests t ∧
  (∀ b g, futures t !! b = Some g → done g = true →
          futures (receiver_step message t).1 !! b = Some g) ∧
  (∀ b, futures t !! b = None → futures (receiver_step message t).1 !! b = None).
Proof.
  unfold receiver_step. destruct (py_in _ _); [|done].
  destruct (id_in_table _ _) as [[a|]|e]; try done. apply handle_response_keeps.
Qed.

Lemma message_receiver_keeps msgs last t :
  pending_requests (message_receiver msgs last t) = pending_requests t ∧
  (∀ b g, futures t !! b = Some g → done g = true →
          futures (message_receiver msgs last t) !! b = Some g) ∧
  (∀ b, futures t !! b = None → futures (message_receiver msgs last t) !! b = None).
Proof.
  revert t. induction msgs as [|m msgs IH]; intros t.
  - simpl. destruct last as [[]|e]; [done|]. by destruct (is_Exception e).
  - simpl. destruct (receiver_step_keeps m t) as (Hp & Hd & Hn).
    destruct (receiver_step m t) as [t' [[]|e]]; simpl in *.
    + destruct (IH t') as (Hp' & Hd' & Hn'). split; [congruence|]. split.
      * intros b g Hb Hg. apply Hd'; [by apply Hd|done].
      * intros b Hb. apply Hn'. by apply Hn.
    + by destruct (is_Exception e).
Qed.

(** X23: the receiver task of the stream and socket transports, over any
    messages and whatever way the stream ends, never changes the table of
    pending requests (only [send_request] removes its own entry), never
    overwrites a future that is done, and creates no future. *)
Theorem receiver_keeps_table_and_done_futures msgs last t :
  let t' := message_receiver msgs last t in
  pending_requests t' = pending_requests t ∧
  (∀ a f, futures t !! a = Some f → done f = true → futures t' !! a = Some f) ∧
  (∀ a, futures t !! a = None → futures t' !! a = None).
Proof. apply message_receiver_keeps. Qed.

Lemma receiver_step_passes_by m t :
  passes_by (pending_requests t) m = true → receiver_step m t = (t, Ok tt).
Proof.
  unfold passes_by, receiver_step, py_in, py_get.
  destruct (m !! "id") as [v|] eqn:Hid.
  - rewrite bool_decide_eq_true_2 by eauto.
    destruct v; try done; simpl.
    intros Hs%bool_decide_eq_true. by rewrite Hs.
  - intros _. rewrite bool_decide_eq_false_2; [done|]. by intros [? ?].
Qed.

(** X24: a Response read by the receiver task whose non-empty string id
    is in the table with a pending future settles that future, whatever
    passed-by messages came before it and whatever comes after it: with
    no [error] key the future holds the result (an empty mapping when it
    is missing), with an [error] mapping it holds "RPC Error <code>:
    <message>".  With an [error] that is not a mapping the task stops and
    the future stays pending. *)
Theorem receiver_completes_pending pre m post last t key a :
  forallb (passes_by (pending_requests t)) pre = true →
  m !! "id" = Some (JStr key) → key ≠ "" →
  pending_requests t !! key = Some a →
  futures t !! a = Some Pending →
  futures (message_receiver (pre ++ m :: post) last t) !! a
  = Some (match m !! "error" with
          | None => Resolved (default (JObj ∅) (m !! "result"))
          | Some (JObj error) =>
              Failed (MessageError ("RPC Error " +:+ py_str (py_get error "code")
                                    +:+ ": " +:+ py_str (py_get error "message")))
          | Some _ => Pending
          end).
Proof.
  intros Hpre Hid Hne Hk Ha.
  assert (receiver_step m t = handle_response m t) as Hstep.
  { unfold receiver_step, py_in, py_get. rewrite Hid.
    rewrite bool_decide_eq_true_2 by eauto. simpl. by rewrite Hk. }
  assert (py_get m "id" = JStr key) as Hget by (unfold py_get; by rewrite Hid).
  induction pre as [|m' pre IH].
  - cbn [app message_receiver]. rewrite Hstep. unfold handle_response.
    rewrite Hget. simpl. rewrite bool_decide_eq_false_2 by done. simpl.
    rewrite Hk. unfold complete. rewrite Ha.
    destruct (m !! "error") as [[]|] eqn:He; cbn [fst snd].
    1-4: by destruct (is_Exception _).
    + apply message_receiver_keeps; [|done]. simpl. apply lookup_insert_eq.
    + apply message_receiver_keeps; [|done]. simpl. apply lookup_insert_eq.
  - simpl in Hpre. apply andb_prop in Hpre as [Hm' Hpre].
    cbn [app message_receiver]. rewrite receiver_step_passes_by by done. by apply IH.
Qed.
End TransportMore.

(** * Further properties: the stream transport *)

Section StdioFacts.
Context `{PyRuntime}.
Import Stdio.
Variable json_loads : string → res json.

Lemma stdio_receive_loop_good lines :
  forallb (line_ok json_loads) lines = true →
  (receive_loop json_loads lines).2 = Ok tt ∧
  yielded (receive_loop json_loads lines).1 = omap (line_message json_loads) lines.
Proof.
  induction lines as [|line lines IH]; [done|].
  intros [Hl Hall]%andb_prop. specialize (IH Hall).
  unfold line_ok, line_message in *. simpl.
  destruct (receive_loop json_loads lines) as [evs r]. simpl in IH.
  destruct IH as [-> IHy].
  destruct (json_loads line) as [[]|e]; try done; simpl.
  - split; [done|]. unfold yielded in *. simpl. by rewrite IHy.
  - by rewrite Hl.
Qed.

(** X18: the stream transport skips lines that are not JSON and goes on:
    when every line read before the end of the stream is either a JSON
    mapping or not JSON at all, the sequence ends normally and yields the
    mappings, in the order of the lines. *)
Theorem stdio_receive_skips_invalid_json lines :
  forallb (line_ok json_loads) lines = true →
  let out := receive_messages json_loads true lines in
  out.2 = Ok tt ∧ yielded out.1 = omap (line_message json_loads) lines.
Proof. intros Hall. by apply stdio_receive_loop_good. Qed.

(** X19: a line that is valid JSON but not a mapping (a list, a number, a
    string, null) is not skipped: the sequence ends there with "Failed to
    receive messages: ...", after the messages of the earlier lines, and no
    later line is read.  The same holds for a decoding failure that is not
    a [JSONDecodeError]. *)
Theorem stdio_receive_stops_at_non_mapping good line rest :
  forallb (line_ok json_loads) good = true →
  line_ok json_loads line = false →
  (∀ e, json_loads line = Raise e → is_Exception e = true) →
  let out := receive_messages json_loads true (good ++ line :: rest) in
  (∃ msg, out.2 = Raise (MessageError ("Failed to receive messages: " +:+ msg))) ∧
  yielded out.1 = omap (line_message json_loads) good.
Proof.
  intros Hgood Hbad Hexn. unfold receive_messages. cbn [negb fst snd].
  induction good as [|l good IH].
  - simpl. unfold line_ok in Hbad. unfold receive_failed.
    destruct (json_loads line) as [[]|e] eqn:Hl; try done; simpl;
      try (rewrite Hbad, (Hexn e eq_refl); simpl); (split; [eauto|done]).
  - apply andb_prop in Hgood as [Hl Hgood]. specialize (IH Hgood).
    unfold line_ok, line_message in *. simpl.
    destruct (receive_loop json_loads (good ++ line :: rest)) as [evs r].
    simpl in IH. destruct IH as [[msg ->] IHy].
    destruct (json_loads l) as [[]|e]; try done; simpl.
    + split; [eauto|]. unfold yielded in *. simpl. by rewrite IHy.
    + rewrite Hl. eauto.
Qed.
End StdioFacts.

(** * Further properties: the socket transport *)

Section WebSocketFacts.
Context `{PyRuntime}.
Import WebSocket.
Variable json_loads : string → res json.

Lemma websocket_receive_loop_good raws ending t :
  forallb (line_ok json_loads) raws = true →
  ∃ evs,
    receive_loop json_loads raws ending t
    = (evs ++ (receive_loop json_loads [] ending t).1.1,
       (receive_loop json_loads [] ending t).1.2,
       (receive_loop json_loads [] ending t).2) ∧
    Stdio.yielded evs = omap (line_message json_loads) raws.
Proof.
  induction raws as [|raw raws IH].
  - intros _. exists []. split; [|done]. cbn [app].
    by destruct (receive_loop json_loads [] ending t) as [[] ?].
  - intros [Hl Hall]%andb_prop. destruct (IH Hall) as (evs & Heq & Hy).
    assert (omap (line_message json_loads) (raw :: raws)
            = match line_message json_loads raw with
              | Some y => y :: omap (line_message json_loads) raws
              | None => omap (line_message json_loads) raws
              end) as -> by done.
    cbn [receive_loop]. rewrite Heq. rewrite <-Hy. clear IH Hall Heq Hy.
    unfold line_ok, line_message in *.
    destruct (json_loads raw) as [[]|e] eqn:Hraw; try done.
    + by eexists (_ :: _ :: evs).
    + rewrite Hl. by eexists (_ :: evs).
Qed.

(** X25: when the peer closes the socket, [receive_messages] of the
    socket transport ends without an error, after the mappings of the
    texts received so far.  It marks the transport not connected, but not
    closed, and it leaves the table and the futures alone: a request that
    is waiting is not failed.  Every later [send_message] raises "Not
    connected" and changes nothing. *)
Theorem websocket_peer_close_ends_quietly raws e t :
  Transport.connected t = true →
  forallb (line_ok json_loads) raws = true →
  is_ConnectionClosed e = true →
  let out := receive_messages json_loads true raws (Raise e) t in
  out.1.2 = Ok tt ∧
  (∃ evs, out.1.1 = evs ++ [Stdio.EvLog "WebSocket connection closed by peer"] ∧
          Stdio.yielded evs = omap (line_message json_loads) raws) ∧
  Transport.connected out.2 = false ∧
  Transport.closed out.2 = Transport.closed t ∧
  Transport.pending_requests out.2 = Transport.pending_requests t ∧
  Transport.futures out.2 = Transport.futures t ∧
  ∀ send message,
    send_message true send message out.2 = (out.2, Raise (ConnectionError "Not connected")).
Proof.
  intros Hc Hall He. unfold receive_messages. rewrite Hc. cbn [negb orb].
  destruct (websocket_receive_loop_good raws (Raise e) t Hall) as (evs & -> & Hy).
  cbn [receive_loop]. unfold receive_failed. rewrite He. cbn [fst snd].
  split; [done|]. split; [eauto|]. split; [done|]. split; [done|].
  split; [done|]. split; [done|]. done.
Qed.

(** X26: a [send_message] of the socket transport that finds the
    connection closed raises "WebSocket connection closed", sends nothing,
    and leaves the closed flag and the futures as they were; from then on
    every [send_message] raises "Not connected" without using the
    socket. *)
Theorem websocket_send_after_close e message t :
  Transport.connected t = true →
  is_ConnectionClosed e = true →
  let out := send_message true (Raise e) message t in
  out.2 = Raise (ConnectionError "WebSocket connection closed") ∧
  Transport.sent out.1 = Transport.sent t ∧
  Transport.closed out.1 = Transport.closed t ∧
  Transport.futures out.1 = Transport.futures t ∧
  ∀ socket send message',
    send_message socket send message' out.1
    = (out.1, Raise (ConnectionError "Not connected")).
Proof.
  intros Hc He. unfold send_message. rewrite Hc, He. done.
Qed.
End WebSocketFacts.

(** * Further properties: the polling transport *)

Section HttpMore.
Context `{PyRuntime}.
Import Http.

Lemma yield_all_non_mapping l :
  forallb is_dict l = false →
  ∃ evs e, yield_all l = (evs, Raise e) ∧ is_Exception e = true ∧
           forallb (λ ev, negb (is_poll ev)) evs = true.
Proof.
  induction l as [|v l IH]; [done|]. simpl. intros Hd.
  destruct v as [| | | |d]; simpl in Hd; try (by eexists [], _).
  destruct (IH Hd) as (evs & e & -> & He & Hq).
  exists (EvLog "Message received" :: EvYield (JObj d) :: evs), e. by simpl.
Qed.

(** A poll the loop does not survive ends the generator. *)
Lemma receive_loop_bad_poll interval p rest :
  poll_ok p = false →
  (∀ e, p = PollRaises e → is_Exception e = true) →
  ∃ evs msg,
    receive_loop interval (p :: rest)
    = (EvPoll :: evs ++ [EvLog "Error receiving messages"],
       Raise (MessageError ("Failed to receive messages: " +:+ msg))) ∧
    forallb (λ ev, negb (is_poll ev)) evs = true.
Proof.
  intros Hbad Hexn. unfold poll_ok, poll_messages in Hbad. simpl.
  unfold receive_failed. destruct p as [data|e].
  - destruct (messages_of data) as [m|e] eqn:Hm.
    + destruct (iterate m) as [l|e] eqn:Hi.
      * destruct (forallb is_dict l) eqn:Hd.
        { exfalso. apply bool_decide_eq_false in Hbad. apply Hbad. eauto. }
        destruct (yield_all_non_mapping _ Hd) as (evs & e & -> & He & Hq).
        rewrite He. by exists evs, (exn_str e).
      * destruct m; simpl in Hi; try done; injection Hi as <-;
          eexists [], _; by simpl.
    + destruct data; simpl in Hm; try done; injection Hm as <-;
        eexists [], _; by simpl.
  - rewrite Hbad, (Hexn e eq_refl). eexists [], _; by simpl.
Qed.

Lemma receive_loop_app interval good polls :
  forallb poll_ok good = true →
  ∃ evs,
    receive_loop interval (good ++ polls)
    = (evs ++ (receive_loop interval polls).1, (receive_loop interval polls).2) ∧
    sleeps_after_polls (evs ++ (receive_loop interval polls).1)
    = ((λ p, if delivers p then [] else [interval]) <$> good)
      ++ sleeps_after_polls (receive_loop interval polls).1 ∧
    yielded evs = mjoin ((λ p, default [] (poll_messages p)) <$> good).
Proof.
  induction good as [|p good IH].
  - intros _. exists []. simpl. by destruct (receive_loop interval polls).
  - intros [Hp Hall]%andb_prop. destruct (IH Hall) as (evs & Heq & Hs & Hy).
    pose proof (receive_loop_at_poll interval polls) as Hat0.
    assert (at_poll (evs ++ (receive_loop interval polls).1)) as Hat.
    { pose proof (receive_loop_at_poll interval (good ++ polls)) as Hx.
      by rewrite Heq in Hx. }
    cbn [app receive_loop fmap list_fmap mjoin list_join]. rewrite Heq.
    destruct p as [data|e]; simpl in Hp.
    + apply bool_decide_eq_true in Hp as [l Hl].
      unfold poll_messages, delivers in *.
      destruct (messages_of data) as [m|]; [|done].
      destruct (iterate m) as [l'|]; [|done].
      destruct (forallb is_dict l') eqn:Hd; [|done]. injection Hl as ->.
      destruct (yield_all_dicts _ Hd) as (evs' & -> & Hq & Hsl & Hy').
      exists (EvPoll :: (evs' ++ if py_truthy m then [] else [EvSleep interval]) ++ evs).
      assert (forallb (λ ev, negb (is_poll ev))
                (evs' ++ if py_truthy m then [] else [EvSleep interval]) = true) as Hq'.
      { rewrite forallb_app, Hq. by destruct (py_truthy m). }
      split; [cbn [app]; by rewrite <-!app_assoc|]. split.
      * cbn [app]. rewrite <-app_assoc.
        rewrite sleeps_after_poll_step, sleeps_of_app, Hsl, Hs by done.
        by destruct (py_truthy m).
      * change (EvPoll :: ?x ++ evs) with ([EvPoll] ++ x ++ evs).
        rewrite !yielded_app, Hy', Hy. cbn [default].
        destruct (py_truthy m); simpl; by rewrite ?app_nil_r.
    + rewrite Hp.
      exists (EvPoll :: [EvLog "HTTP error receiving messages"; EvSleep interval] ++ evs).
      split; [done|]. split; [|done].
      cbn [app].
      change (EvPoll :: ?a :: ?b :: ?c) with (EvPoll :: [a; b] ++ c).
      rewrite sleeps_after_poll_step by done. simpl. by rewrite Hs.
Qed.

(** X20: the polling loop ends at the first poll it cannot handle: a
    failure that is not an HTTP error, a body that is not a mapping, or a
    batch holding something that is not a mapping.  The generator raises
    "Failed to receive messages: ...", the messages of the earlier polls
    have been yielded, and no later poll is made. *)
Theorem polling_stops_at_first_failure cfg good p rest :
  forallb poll_ok good = true →
  poll_ok p = false →
  (∀ e, p = PollRaises e → is_Exception e = true) →
  let out := receive_messages cfg true (good ++ p :: rest) in
  (∃ msg, out.2 = Raise (MessageError ("Failed to receive messages: " +:+ msg))) ∧
  length (sleeps_after_polls out.1) = S (length good) ∧
  (∃ more, yielded out.1
           = mjoin ((λ p, default [] (poll_messages p)) <$> good) ++ more).
Proof.
  intros Hgood Hbad Hexn. unfold receive_messages. cbn [negb].
  destruct (receive_loop_app (poll_interval cfg) good (p :: rest) Hgood)
    as (evs & -> & Hs & Hy).
  destruct (receive_loop_bad_poll (poll_interval cfg) p rest Hbad Hexn)
    as (evs' & msg & Hp & Hq).
  rewrite Hp in *. cbn [fst snd] in *. split; [eauto|]. split.
  - rewrite Hs, length_app, length_fmap.
    cbn [sleeps_after_polls length]. rewrite sleeps_after_polls_app by done.
    simpl. lia.
  - exists (yielded (EvPoll :: evs' ++ [EvLog "Error receiving messages"])).
    by rewrite yielded_app, Hy.
Qed.

Lemma close_if_pending_lookup b fs a :
  Transport.close_if_pending b fs !! a
  = if decide (a = b)
    then match fs !! a with
         | Some Pending => Some (Failed (ConnectionError "Connection closed"))
         | o => o
         end
    else fs !! a.
Proof.
  unfold Transport.close_if_pending.
  destruct (decide (a = b)) as [->|Hne].
  - destruct (fs !! b) as [[]|] eqn:E; rewrite ?lookup_insert_eq, ?E; done.
  - destruct (fs !! b) as [[]|] eqn:E; try done. by rewrite lookup_insert_ne.
Qed.

Lemma close_list_lookup (l : list (string * nat)) fs a :
  a ∈ l.*2 → fs !! a = Some Pending →
  foldr (λ ka, Transport.close_if_pending ka.2) fs l !! a
  = Some (Failed (ConnectionError "Connection closed")).
Proof.
  intros Hin Ha. induction l as [|[k b] l IH]; [by apply elem_of_nil in Hin|].
  rewrite fmap_cons in Hin. cbn [foldr snd]. rewrite close_if_pending_lookup.
  destruct (decide (a = b)) as [->|Hne].
  - destruct (decide (b ∈ l.*2)) as [Hb|Hb].
    + by rewrite IH.
    + assert (foldr (λ ka, Transport.close_if_pending ka.2) fs l !! b = fs !! b) as ->.
      { clear IH Hin. induction l as [|[k' c] l IH]; [done|].
        rewrite fmap_cons in Hb. apply not_elem_of_cons in Hb as [Hne Hb].
        cbn [foldr snd]. rewrite close_if_pending_lookup, decide_False by done.
        by apply IH. }
      by rewrite Ha.
  - apply elem_of_cons in Hin as [?|Hin]; [done|]. by apply IH.
Qed.

Lemma transport_cancel_pending t k a :
  Transport.pending_requests t !! k = Some a →
  Transport.futures t !! a = Some Pending →
  Transport.futures (Transport.cancel_pending t) !! a
  = Some (Failed (ConnectionError "Connection closed")) ∧
  Transport.pending_requests (Transport.cancel_pending t) = ∅.
Proof.
  intros Hk Ha. unfold Transport.cancel_pending. simpl. split; [|done].
  apply close_list_lookup; [|done].
  apply list_elem_of_fmap. exists (k, a). split; [done|].
  by apply elem_of_map_to_list.
Qed.

(** X21: [HttpTransport.disconnect] never raises an [Exception] and does
    nothing when the transport is not connected.  On a connected transport
    whose client closes without error it marks the transport closed, drops
    the client, fails every pending future with "Connection closed" and
    empties the table, whether or not the session-close call failed.  But
    when closing the client raises, the transport is marked closed while
    the pending requests stay pending and in the table. *)
Theorem http_disconnect_outcomes post_close aclose s :
  (Transport.connected (base s) = false → disconnect post_close aclose s = (s, Ok tt)) ∧
  (∀ e, (disconnect post_close aclose s).2 = Raise e → is_Exception e = false) ∧
  (Transport.connected (base s) = true →
   (∀ e, post_close = Raise e → is_Exception e = true) →
   let s' := (disconnect post_close aclose s).1 in
   Transport.connected (base s') = false ∧ Transport.closed (base s') = true ∧
   (client s = false ∨ aclose = Ok tt →
      client s' = false ∧ Transport.pending_requests (base s') = ∅ ∧
      ∀ k a, Transport.pending_requests (base s) !! k = Some a →
             Transport.futures (base s) !! a = Some Pending →
             Transport.futures (base s') !! a
             = Some (Failed (ConnectionError "Connection closed"))) ∧
   (client s = true → (∃ e, aclose = Raise e) →
      Transport.pending_requests (base s') = Transport.pending_requests (base s) ∧
      Transport.futures (base s') = Transport.futures (base s))).
Proof.
  destruct s as [b c sid].
  assert (∀ k a, Transport.pending_requests b !! k = Some a →
                 Transport.futures b !! a = Some Pending →
                 Transport.futures (Transport.cancel_pending b) !! a
                 = Some (Failed (ConnectionError "Connection closed"))) as Hfail.
  { intros k a Hk Ha. by apply (transport_cancel_pending _ k). }
  unfold disconnect. cbv zeta. cbn [base client session_id set_base].
  destruct (Transport.connected b) eqn:Hc; cbn [negb]; [|done].
  split; [done|].
  destruct (match sid with
            | Some i => negb (bool_decide (i = ""))
            | None => false
            end), c; cbn [andb].
  all: destruct post_close as [[]|e1]; try destruct (is_Exception e1) eqn:He1.
  all: cbn [client set_base base session_id].
  all: destruct aclose as [[]|e2]; try destruct (is_Exception e2) eqn:He2.
  all: cbn [client set_base base session_id fst snd].
  all: repeat match goal with
             | E : is_Exception _ = _ |- _ => rewrite E
             end; cbn [client set_base base session_id fst snd].
  all: split; [intros e He; congruence|].
  all: intros _ Hpost; try (specialize (Hpost _ eq_refl); congruence).
  all: (split; [done|]); (split; [done|]).
  all: split;
         [intros [?|?]; try done; (split; [done|]); (split; [done|]); exact Hfail
         |intros ? [? ?]; done].
Qed.
(** [str(e)] of the decorator's [RetryError] *)
Variable retry_error_str : exn → string.

Lemma count_posts_app tr tr' :
  count_posts (tr ++ tr') = count_posts tr + count_posts tr'.
Proof. induction tr as [|[] tr IH]; simpl; lia. Qed.

Lemma send_attempt_posts s post :
  count_posts (send_attempt s post).1
  = if Transport.connected (base s) && client s then 1 else 0.
Proof.
  unfold send_attempt.
  destruct (Transport.connected (base s)), (client s); simpl; try done.
  destruct post as [[]|e]; [done|].
  destruct (is_HTTPError e); [done|]. by destruct (is_Exception e).
Qed.

Lemma send_attempt_raises s post e :
  (send_attempt s post).2 = Raise e → is_Exception e = true →
  e = ConnectionError "Not connected" ∨
  ∃ cause, post = Raise cause ∧ is_Exception cause = true ∧
           e = MessageError ("Failed to send message: " +:+ exn_str cause).
Proof.
  unfold send_attempt.
  destruct (negb _ || negb _); simpl; [intros [= <-] _; by left|].
  destruct post as [[]|c]; [done|].
  destruct (is_HTTPError c) eqn:Hh; simpl.
  { intros [= <-] _. right. exists c. by destruct c. }
  destruct (is_Exception c) eqn:Hc; simpl.
  - intros [= <-] _. right. by exists c.
  - intros [= <-] He. congruence.
Qed.

Lemma retrying_raises more k attempt e :
  (retrying retry_error_str more k attempt).2 = Raise e → is_Exception e = true →
  ∃ last, e = OtherError "RetryError" (retry_error_str last) ∧
          (attempt (k + more)).2 = Raise last ∧
          ∀ i, i ≤ more → ∃ ei, (attempt (k + i)).2 = Raise ei ∧ is_Exception ei = true.
Proof.
  revert k. induction more as [|more IH]; intros k; simpl.
  - destruct (attempt k) as [evs [v|c]] eqn:Hk; [done|].
    destruct (is_Exception c) eqn:Hc; simpl.
    + intros [= <-] _. exists c. rewrite Nat.add_0_r, Hk. split; [done|]. split; [done|].
      intros i Hi. assert (i = 0) as -> by lia. rewrite Nat.add_0_r, Hk. eauto.
    + intros [= <-] He. congruence.
  - destruct (attempt k) as [evs [v|c]] eqn:Hk; [done|].
    destruct (is_Exception c) eqn:Hc; simpl.
    + specialize (IH (S k)).
      destruct (retrying retry_error_str more (S k) attempt) as [evs' r']. simpl in *.
      intros -> He. destruct (IH eq_refl He) as (last & -> & Hlast & Hall).
      exists last. split; [done|]. split.
      * by replace (k + S more) with (S k + more) by lia.
      * intros [|i] Hi.
        -- rewrite Nat.add_0_r, Hk. eauto.
        -- replace (k + S i) with (S k + i) by lia. apply Hall. lia.
    + intros [= <-] He. congruence.
Qed.

Lemma retrying_returns more k attempt n c :
  n ≤ more →
  (∀ i, count_posts (attempt i).1 = c) →
  (∀ i, i < n → ∃ ei, (attempt (k + i)).2 = Raise ei ∧ is_Exception ei = true) →
  (attempt (k + n)).2 = Ok tt →
  (retrying retry_error_str more k attempt).2 = Ok tt ∧
  count_posts (retrying retry_error_str more k attempt).1 = S n * c.
Proof.
  intros Hn Hc. revert k more Hn. induction n as [|n IH]; intros k more Hn Hfail Hok.
  - rewrite Nat.add_0_r in Hok. specialize (Hc k).
    destruct more; simpl; destruct (attempt k) as [evs [[]|e]]; simpl in *;
      try done; (split; [done|lia]).
  - destruct more as [|more]; [lia|]. simpl.
    destruct (Hfail 0) as (e0 & He0 & Hex0); [lia|]. rewrite Nat.add_0_r in He0.
    specialize (Hc k).
    destruct (attempt k) as [evs [v|e]] eqn:Hk; simpl in He0; [done|].
    injection He0 as ->. rewrite Hex0.
    destruct (IH (S k) more) as [Hr Hp].
    + lia.
    + intros i Hi. replace (S k + i) with (k + S i) by lia. apply Hfail. lia.
    + by replace (S k + n) with (k + S n) by lia.
    + destruct (retrying retry_error_str more (S k) attempt) as [evs' r'].
      simpl in *. split; [done|]. rewrite count_posts_app. simpl. lia.
Qed.

Lemma retrying_posts more k attempt :
  (∀ i, count_posts (attempt i).1 ≤ 1) →
  count_posts (retrying retry_error_str more k attempt).1 ≤ S more.
Proof.
  intros H1. revert k. induction more as [|more IH]; intros k; simpl.
  - specialize (H1 k). destruct (attempt k) as [evs [v|c]]; simpl in *; [done|].
    by destruct (is_Exception c).
  - specialize (IH (S k)). specialize (H1 k).
    destruct (attempt k) as [evs [v|c]]; simpl in *; [lia|].
    destruct (is_Exception c); simpl; [|lia].
    destruct (retrying retry_error_str more (S k) attempt) as [evs' r']. simpl in *.
    rewrite count_posts_app. simpl. lia.
Qed.

(** X22: [HttpTransport.send_message] under its retry decorator makes at
    most three POSTs.  The caller never gets the [ConnectionError] or the
    [MessageError] the body raises: an [Exception] that comes out is the
    decorator's [RetryError] about the third attempt.  A transport that is
    not connected makes no POST at all and still goes through the three
    attempts.  On a connected one, an attempt that succeeds after [n]
    failed ones ends the call normally after [n + 1] POSTs. *)
Theorem http_send_message_retries posts s :
  let out := send_message retry_error_str posts s in
  count_posts out.1 ≤ 3 ∧
  (∀ e, out.2 = Raise e → is_Exception e = true →
     ∃ last, e = OtherError "RetryError" (retry_error_str last) ∧
             (last = ConnectionError "Not connected" ∨
              ∃ cause, posts 2 = Raise cause ∧
                       last = MessageError ("Failed to send message: "
                                            +:+ exn_str cause))) ∧
  (Transport.connected (base s) && client s = false →
   out = ([SeWait; SeWait],
          Raise (OtherError "RetryError"
                   (retry_error_str (ConnectionError "Not connected"))))) ∧
  (Transport.connected (base s) && client s = true →
   ∀ n, n < 3 →
     (∀ i, i < n → ∃ ei, posts i = Raise ei ∧ is_Exception ei = true) →
     posts n = Ok tt →
     out.2 = Ok tt ∧ count_posts out.1 = S n).
Proof.
  unfold send_message. cbv zeta. split; [|split; [|split]].
  - apply retrying_posts. intros i. rewrite send_attempt_posts.
    destruct (_ && _); lia.
  - intros e He Hex.
    destruct (retrying_raises _ _ _ _ He Hex) as (last & -> & Hlast & Hall).
    exists last. split; [done|]. simpl in Hlast.
    destruct (Hall 2) as (e2 & He2 & Hex2); [lia|]. simpl in He2.
    rewrite Hlast in He2. injection He2 as <-.
    destruct (send_attempt_raises _ _ _ Hlast Hex2) as [->|(c & Hc & _ & ->)]; eauto.
  - intros Hoff. simpl. unfold send_attempt.
    assert (negb (Transport.connected (base s)) || negb (client s) = true) as ->.
    { by destruct (Transport.connected (base s)), (client s). }
    done.
  - intros Hon n Hn Hfail Hok.
    assert (negb (Transport.connected (base s)) || negb (client s) = false) as Hneg.
    { by destruct (Transport.connected (base s)), (client s). }
    destruct (retrying_returns 2 0 (λ k, send_attempt s (posts k)) n 1) as [Hr Hc].
    + lia.
    + intros i. by rewrite send_attempt_posts, Hon.
    + intros i Hi. destruct (Hfail i Hi) as (ei & Hei & Hexi). simpl.
      unfold send_attempt. rewrite Hneg, Hei.
      destruct (is_HTTPError ei); [eauto|]. rewrite Hexi. eauto.
    + simpl. unfold send_attempt. by rewrite Hneg, Hok.
    + split; [exact Hr|]. rewrite Hc. lia.
Qed.
End HttpMore.

(** * The further properties at concrete inputs *)

Section MoreInstances.
Import Messages Handler.
Local Existing Instance reference_runtime.

Lemma register_request_handler_wins_witness :
  let h1 := (register_request_handler "ok" (λ _, HReturn (JObj ∅)) started).1 in
  let out := process_message (JObj (request_5 "ok")) h1 in
  out.2 = Ok tt ∧
  outbox out.1 = [MCPResponse_dump {| resp_id := IdStr "5"; result := Some ∅;
                                      error := None |}].
Proof.
  destruct (register_request_handler_wins "ok" (λ _, HReturn (JObj ∅))
              (request_5 "ok") started (request_5_model "ok") ∅)
    as (Hok & Hout & _); [reflexivity..|].
  split; [exact Hok | exact Hout].
Defined.

Lemma unregister_handler_removes_both_witness :
  let h1 := (unregister_handler "ok" (with_handler "ok" (λ _, HReturn (JObj ∅)))).1 in
  sent_error_code <$> outbox (process_message (JObj (request_5 "ok")) h1).1
  = [Some (-32601)%Z].
Proof.
  destruct (unregister_handler_removes_both "ok"
              (with_handler "ok" (λ _, HReturn (JObj ∅)))) as (Hreq & _ & _).
  cbv zeta.
  rewrite (Hreq (request_5 "ok") (request_5_model "ok") eq_refl eq_refl eq_refl
             eq_refl eq_refl).
  reflexivity.
Defined.

Lemma start_stop_idempotent_witness :
  start started = (started, Ok tt) ∧
  stop (init None) = (init None, Ok tt) ∧
  pending_requests (stop (suspended "slow" None started)).1 = ∅.
Proof.
  split; [|split].
  - exact (proj1 (start_stop_idempotent started) eq_refl).
  - exact (proj1 (proj2 (start_stop_idempotent (init None))) eq_refl).
  - destruct (start_stop_idempotent (suspended "slow" None started))
      as (_ & _ & _ & _ & _ & _ & Hempty & _).
    exact (Hempty eq_refl).
Defined.

Lemma stopped_handler_sends_nothing_witness :
  send_notification "notifications/message" None (init None)
  = (init None, Raise (MessageError "Protocol handler not running")) ∧
  outbox (process_message (JObj (request_5 "tools/list")) (init None)).1 = [].
Proof.
  destruct (stopped_handler_sends_nothing (init None) eq_refl)
    as (_ & Hn & _ & Hin).
  split; [exact (Hn "notifications/message" None)|].
  exact (Hin (JObj (request_5 "tools/list"))).
Defined.

Lemma unmatched_response_discarded_witness :
  process_message (JObj (tools_reply (JInt 9))) started
  = (push_log "Unexpected response" (push_log "Response received" started), Ok tt).
Proof.
  exact (unmatched_response_discarded (tools_reply (JInt 9)) started
           (tools_reply_model (IdInt 9)) eq_refl eq_refl eq_refl eq_refl).
Defined.

Lemma first_response_wins_witness :
  let h := suspended "tools/list" None started in
  let h1 := (process_message (JObj (tools_reply (JInt 1))) h).1 in
  futures (process_message (JObj (tools_reply (JStr "1"))) h1).1 !! 0
  = Some (Resolved {[ "tools" := JList [] ]}).
Proof.
  exact (proj2 (first_response_wins (tools_reply (JInt 1)) (tools_reply (JStr "1"))
                  (suspended "tools/list" None started)
                  (tools_reply_model (IdInt 1)) (tools_reply_model (IdStr "1")) 0
                  eq_refl eq_refl eq_refl eq_refl eq_refl eq_refl eq_refl eq_refl
                  eq_refl)).
Defined.

Lemma loopback_request_witness :
  let request := MCPRequest_dump {| req_id := IdInt 1; req_method := "ok";
                                    req_params := None |} in
  let server := with_handler "ok" (λ _, HReturn (JObj {[ "tools" := JList [] ]})) in
  (send_request (H := reference_runtime) "ok" None "30.0"
     (deliver_last (process_message (JObj request) server).1) started).2
  = Ok {[ "tools" := JList [] ]} ∧
  (send_request (H := reference_runtime) "nope" None "30.0"
     (deliver_last
        (process_message
           (JObj (MCPRequest_dump {| req_id := IdInt 1; req_method := "nope";
                                     req_params := None |})) server).1) started).2
  = Raise (MessageError "RPC Error -32601: Method 'nope' not found").
Proof.
  split.
  - exact (proj2 (loopback_request (H := reference_runtime) "ok" None "30.0" started
                    (with_handler "ok" (λ _, HReturn (JObj {[ "tools" := JList [] ]})))
                    eq_refl eq_refl eq_refl eq_refl)).
  - exact (proj2 (loopback_request (H := reference_runtime) "nope" None "30.0" started
                    (with_handler "ok" (λ _, HReturn (JObj {[ "tools" := JList [] ]})))
                    eq_refl eq_refl eq_refl eq_refl)).
Defined.

Lemma out_of_order_responses_witness :
  let second :=
    send_request (H := reference_runtime) "b" None "30.0"
      (λ s, deliver (tools_reply (JInt 1)) (deliver (tools_reply (JStr "2")) s)) in
  (send_request (H := reference_runtime) "a" None "30.0" (λ s, (second s).1) started).2
  = Ok {[ "tools" := JList [] ]} ∧
  (second (suspended "a" None started)).2 = Ok {[ "tools" := JList [] ]}.
Proof.
  exact (out_of_order_responses (H := reference_runtime) started
           "a" None "30.0" "b" None "30.0"
           (tools_reply (JInt 1)) (tools_reply (JStr "2"))
           (tools_reply_model (IdInt 1)) (tools_reply_model (IdStr "2"))
           eq_refl eq_refl eq_refl eq_refl eq_refl eq_refl eq_refl eq_refl
           eq_refl eq_refl).
Defined.

Lemma invalid_request_format_answered_witness :
  sent_error_code <$> outbox (process_message (JObj malformed_request) started).1
  = [Some (-32600)%Z].
Proof.
  rewrite (invalid_request_format_answered malformed_request started (IdInt 5)
             (ValidationError "MCPRequest" (JObj malformed_request))
             eq_refl eq_refl eq_refl eq_refl eq_refl eq_refl).
  reflexivity.
Defined.

Lemma message_loop_survives_witness :
  let out := message_loop [JList [JInt 1]; JObj (request_5 "ok")] (Ok tt)
               (with_handler "ok" (λ _, HReturn (JObj ∅))) in
  out.2 = Ok tt ∧
  outbox out.1 = [MCPResponse_dump {| resp_id := IdStr "5"; result := Some ∅;
                                      error := None |}] ∧
  log out.1 = ["Message processing failed"; "Error processing message";
               "Request received"; "Message loop stopped"].
Proof.
  destruct (message_loop_survives [JList [JInt 1]; JObj (request_5 "ok")] (Ok tt)
              (with_handler "ok" (λ _, HReturn (JObj ∅)))) as (_ & _ & _ & Hloop).
  intros out. subst out. rewrite Hloop.
  - split; [reflexivity|]. split; reflexivity.
  - split; [intros e He; vm_compute in He; injection He as <-; reflexivity|].
    split; [intros e He; vm_compute in He; discriminate He|exact I].
Defined.

Lemma response_round_trip_witness :
  MCPResponse_model_validate (MCPResponse_dump (tools_reply_model (IdInt 1)))
  = Ok (tools_reply_model (IdInt 1)).
Proof.
  apply (proj1 (response_round_trip (tools_reply_model (IdInt 1)))).
  left. split; [eexists; reflexivity | reflexivity].
Defined.

Lemma transport_send_request_exits_witness :
  let out := Transport.send_request (H := reference_runtime)
               "tools/list" None "0.5" (λ s, s) open_transport in
  Transport.pending_requests out.1 !! "1" = None ∧
  out.2 = Raise (MessageError "Request tools/list timed out after 0.5s").
Proof.
  destruct (transport_send_request_exits (H := reference_runtime)
              "tools/list" None "0.5" (λ s, s) open_transport) as (_ & Hclean & Htime).
  split; [exact (Hclean eq_refl) | exact (Htime eq_refl eq_refl (λ s Hs, Hs))].
Defined.

Lemma transport_handle_response_ignores_witness :
  Transport.handle_response (tools_reply (JInt 1)) waiting_transport
  = (waiting_transport, Ok tt).
Proof.
  apply transport_handle_response_ignores. right. left. by exists 1%Z.
Defined.

Lemma transport_handle_response_completes_witness :
  Transport.handle_response (tools_reply (JStr "1")) waiting_transport
  = (Transport.set_futures (<[0 := Resolved (JObj {[ "tools" := JList [] ]})]>) 1
       waiting_transport, Ok tt).
Proof.
  assert ("1" ≠ "") as Hne by done.
  exact (transport_handle_response_completes (tools_reply (JStr "1"))
           waiting_transport "1" 0 eq_refl Hne eq_refl eq_refl).
Defined.

Lemma transport_duplicate_response_raises_witness :
  let t1 := (Transport.handle_response (tools_reply (JStr "1")) waiting_transport).1 in
  Transport.handle_response (tools_reply (JStr "1")) t1
  = (t1, Raise (InvalidStateError "invalid state")).
Proof.
  assert ("1" ≠ "") as Hne by done.
  exact (proj2 (transport_duplicate_response_raises (tools_reply (JStr "1"))
                  waiting_transport "1" 0 eq_refl Hne I eq_refl eq_refl)).
Defined.

Lemma receiver_stops_on_unhashable_id_witness :
  Transport.futures
    (Transport.message_receiver
       [ {[ "id" := JList [JInt 1] ]}; tools_reply (JStr "1") ] (Ok tt)
       waiting_transport) !! 0
  = Some Pending.
Proof.
  rewrite receiver_stops_on_unhashable_id; [reflexivity|].
  vm_compute. exact I.
Defined.

Lemma stdio_receive_skips_invalid_json_witness :
  let out := Stdio.receive_messages sample_loads true ["{}"; "oops"; "{}"] in
  out.2 = Ok tt ∧ Stdio.yielded out.1 = [JObj ∅; JObj ∅].
Proof.
  exact (stdio_receive_skips_invalid_json sample_loads ["{}"; "oops"; "{}"] eq_refl).
Defined.

Lemma stdio_receive_stops_at_non_mapping_witness :
  let out := Stdio.receive_messages sample_loads true ["{}"; "[1]"; "{}"] in
  (∃ msg, out.2 = Raise (MessageError ("Failed to receive messages: " +:+ msg))) ∧
  Stdio.yielded out.1 = [JObj ∅].
Proof.
  apply (stdio_receive_stops_at_non_mapping sample_loads ["{}"] "[1]" ["{}"]);
    [reflexivity | reflexivity |].
  intros e He. vm_compute in He. discriminate He.
Defined.

Lemma polling_stops_at_first_failure_witness :
  let out := Http.receive_messages ∅ true
               [ Http.PollBody (JObj {[ "messages" := JList [JObj progress_notification] ]});
                 Http.PollBody (JList []);
                 Http.PollBody (JObj {[ "messages" := JList [] ]}) ] in
  (∃ msg, out.2 = Raise (MessageError ("Failed to receive messages: " +:+ msg))) ∧
  length (Http.sleeps_after_polls out.1) = 2.
Proof.
  destruct (polling_stops_at_first_failure ∅
              [Http.PollBody (JObj {[ "messages" := JList [JObj progress_notification] ]})]
              (Http.PollBody (JList []))
              [Http.PollBody (JObj {[ "messages" := JList [] ]})])
    as (Hraise & Hpolls & _); [reflexivity | reflexivity | |].
  - intros e He. discriminate He.
  - split; [exact Hraise | exact Hpolls].
Defined.

Lemma http_disconnect_outcomes_witness :
  (let s' := (Http.disconnect (Raise (HTTPError "500")) (Ok tt) waiting_session).1 in
   Transport.pending_requests (Http.base s') = ∅ ∧
   Transport.futures (Http.base s') !! 0
   = Some (Failed (ConnectionError "Connection closed"))) ∧
  (let s' := (Http.disconnect (Ok tt) (Raise (OtherError "RuntimeError" "boom"))
                waiting_session).1 in
   Transport.closed (Http.base s') = true ∧
   Transport.pending_requests (Http.base s')
   = Transport.pending_requests (Http.base waiting_session)).
Proof.
  split.
  - destruct (http_disconnect_outcomes (Raise (HTTPError "500")) (Ok tt) waiting_session)
      as (_ & _ & Hc).
    destruct Hc as (_ & _ & Hclean & _); [reflexivity| |].
    + intros e [= <-]. reflexivity.
    + destruct Hclean as (_ & Hempty & Hfail); [by right|].
      split; [exact Hempty | exact (Hfail "1" 0 eq_refl eq_refl)].
  - destruct (http_disconnect_outcomes (Ok tt) (Raise (OtherError "RuntimeError" "boom"))
                waiting_session) as (_ & _ & Hc).
    destruct Hc as (_ & Hclosed & _ & Hkept); [reflexivity| |].
    + intros e He. discriminate He.
    + split; [exact Hclosed|]. destruct Hkept as [Hp _]; [reflexivity|eauto|exact Hp].
Defined.

Lemma http_send_message_retries_witness :
  let text := λ e, "RetryError[" +:+ exn_str e +:+ "]" in
  (let out := Http.send_message text flaky_posts waiting_session in
   out.2 = Ok tt ∧ Http.count_posts out.1 = 2) ∧
  Http.send_message text flaky_posts
    {| Http.base := open_transport; Http.client := false; Http.session_id := None |}
  = ([Http.SeWait; Http.SeWait], Raise (OtherError "RetryError" "RetryError[Not connected]")).
Proof.
  intros text. split.
  - destruct (http_send_message_retries text flaky_posts waiting_session)
      as (_ & _ & _ & Hon).
    apply (Hon eq_refl 1); [lia| |reflexivity].
    intros i Hi. assert (i = 0) as -> by lia. by eexists.
  - destruct (http_send_message_retries text flaky_posts
                {| Http.base := open_transport; Http.client := false;
                   Http.session_id := None |}) as (_ & _ & Hoff & _).
    exact (Hoff eq_refl).
Defined.

Lemma receiver_completes_pending_witness :
  Transport.futures
    (Transport.message_receiver
       [tools_reply (JInt 1); tools_reply (JStr "1"); tools_reply (JStr "1")] (Ok tt)
       waiting_transport) !! 0
  = Some (Resolved (JObj {[ "tools" := JList [] ]})).
Proof.
  assert ("1" ≠ "") as Hne by done.
  exact (receiver_completes_pending [tools_reply (JInt 1)] (tools_reply (JStr "1"))
           [tools_reply (JStr "1")] (Ok tt) waiting_transport "1" 0
           eq_refl eq_refl Hne eq_refl eq_refl).
Defined.

Lemma websocket_peer_close_ends_quietly_witness :
  let out := WebSocket.receive_messages sample_loads true ["{}"; "oops"]
               (Raise (OtherError "ConnectionClosedOK" "")) waiting_transport in
  out.1.2 = Ok tt ∧ Transport.connected out.2 = false ∧
  Transport.futures out.2 !! 0 = Some Pending.
Proof.
  destruct (websocket_peer_close_ends_quietly sample_loads ["{}"; "oops"]
              (OtherError "ConnectionClosedOK" "") waiting_transport
              eq_refl eq_refl eq_refl) as (Hok & _ & Hoff & _ & _ & Hfut & _).
  split; [exact Hok|]. split; [exact Hoff|]. rewrite Hfut. reflexivity.
Defined.

Lemma websocket_send_after_close_witness :
  let out := WebSocket.send_message true (Raise (OtherError "ConnectionClosedError" ""))
               progress_notification waiting_transport in
  out.2 = Raise (ConnectionError "WebSocket connection closed") ∧
  WebSocket.send_message true (Ok tt) progress_notification out.1
  = (out.1, Raise (ConnectionError "Not connected")).
Proof.
  destruct (websocket_send_after_close (OtherError "ConnectionClosedError" "")
              progress_notification waiting_transport eq_refl eq_refl)
    as (Hraise & _ & _ & _ & Hnext).
  split; [exact Hraise | exact (Hnext true (Ok tt) progress_notification)].
Defined.

Lemma receiver_keeps_table_and_done_futures_witness :
  let t1 := (Transport.handle_response (tools_reply (JStr "1")) waiting_transport).1 in
  let t2 := Transport.message_receiver
              [tools_reply (JStr "1"); progress_notification]
              (Raise (MessageError "Failed to receive messages: reset")) t1 in
  Transport.pending_requests t2 = Transport.pending_requests t1 ∧
  Transport.futures t2 !! 0 = Some (Resolved (JObj {[ "tools" := JList [] ]})).
Proof.
  intros t1 t2.
  destruct (receiver_keeps_table_and_done_futures
              [tools_reply (JStr "1"); progress_notification]
              (Raise (MessageError "Failed to receive messages: reset")) t1)
    as (Htable & Hdone & _).
  split; [exact Htable|]. apply Hdone; reflexivity.
Defined.
End MoreInstances.
